(** * polyglot: format managers and command-line entry point

    A shallow embedding of [polyglot/managers.py] and [polyglot/__main__.py].

    Python values are modelled by inductive types, objects mutated in place by
    explicit state passing, [os._exit] and uncaught exceptions by an outcome
    type, and the recursion limit of the interpreter by a [limit] argument of
    the recursive methods. *)

From Stdlib Require Import ZArith Ascii String List Lia DecimalString.
From stdpp Require Import base list strings.

Set Warnings "-register-all".

Local Open Scope Z_scope.
Local Open Scope nat_scope.
Local Open Scope list_scope.

(** ** Python strings

    A [str] is modelled as a Rocq [string]; each character stands for the code
    point of the same number (0..255). *)

Module PyStr.

Definition quote : ascii := ascii_of_nat 34.
Definition newline : ascii := ascii_of_nat 10.
Definition escape : ascii := ascii_of_nat 27.

(** [c.lower()] on one code point below 256: the upper-case letters of
    ASCII and of Latin-1 (all of 0xC0..0xDE but the multiplication sign). *)
Definition lower_char (c : ascii) : ascii :=
  let n := nat_of_ascii c in
  if ((65 <=? n) && (n <=? 90))%nat then ascii_of_nat (n + 32)
  else if ((192 <=? n) && (n <=? 222) && negb (n =? 215))%nat
       then ascii_of_nat (n + 32)
       else c.

(** [s.lower()] *)
Fixpoint lower (s : string) : string :=
  match s with
  | EmptyString => EmptyString
  | String c r => String (lower_char c) (lower r)
  end.

(** [bool(s)]: a string is truthy unless it is empty. *)
Definition truthy (s : string) : bool :=
  match s with EmptyString => false | String _ _ => true end.

(** [s.rfind(c)] for a one-character [c]: the highest index of [c] in [s],
    or -1.  [rfind_from c s i] reads [s] as the part of the string that
    starts at index [i]. *)
Fixpoint rfind_from (c : ascii) (s : string) (i : Z) : Z :=
  match s with
  | EmptyString => (-1)%Z
  | String a r =>
      let later := rfind_from c r (i + 1)%Z in
      if (0 <=? later)%Z then later
      else if Ascii.eqb a c then i else (-1)%Z
  end.

Definition rfind (c : ascii) (s : string) : Z := rfind_from c s 0%Z.

(** [s[:n]] and [s[n:]] for [0 <= n]. *)
Fixpoint take (n : nat) (s : string) : string :=
  match n, s with
  | S n', String c r => String c (take n' r)
  | _, _ => EmptyString
  end.

Fixpoint drop (n : nat) (s : string) : string :=
  match n, s with
  | S n', String _ r => drop n' r
  | _, _ => s
  end.

End PyStr.

(** ** [os.path.splitext] (posixpath) *)

Module OsPath.

Definition sep : ascii := "/"%char.
Definition extsep : ascii := "."%char.

(** The [while filenameIndex < dotIndex] loop of [genericpath._splitext]:
    [true] when some character of [p] in [filenameIndex .. dotIndex-1] is
    not a dot, that is when the loop returns the split. *)
Fixpoint skip_leading_dots (p : string) (filenameIndex todo : nat) : bool :=
  match todo with
  | O => false
  | S todo' =>
      match String.get filenameIndex p with
      | Some c =>
          if Ascii.eqb c extsep
          then skip_leading_dots p (S filenameIndex) todo'
          else true
      | None => true
      end
  end.

(** [genericpath._splitext(p, '/', None, '.')] *)
Definition splitext (p : string) : string * string :=
  let sepIndex := PyStr.rfind sep p in
  let dotIndex := PyStr.rfind extsep p in
  if (sepIndex <? dotIndex)%Z then
    let filenameIndex := Z.to_nat (sepIndex + 1) in
    if skip_leading_dots p filenameIndex (Z.to_nat dotIndex - filenameIndex)
    then (PyStr.take (Z.to_nat dotIndex) p, PyStr.drop (Z.to_nat dotIndex) p)
    else (p, EmptyString)
  else (p, EmptyString).

End OsPath.

(** ** Python values read from and written to JSON *)

(** What [json.load] returns.  A [dict] is an association list in insertion
    order (its keys are pairwise distinct, see [wf_json]); a float is kept as
    the text [json.dumps] writes for it. *)
Inductive json : Type :=
| JNull
| JBool (b : bool)
| JInt (n : Z)
| JFloat (text : string)
| JStr (s : string)
| JList (l : list json)
| JDict (d : list (string * json)).

(** A Python [dict] with [str] keys, in insertion order. *)
Abbreviation dict V := (list (string * V)).

(** [isinstance(value, dict)] *)
Definition isinstance_dict (value : json) : bool :=
  match value with JDict _ => true | _ => false end.

(** [d[k] = v]: the value of an existing key is replaced where the key
    stands, a new key is appended. *)
Fixpoint dict_set {V : Type} (k : string) (v : V) (d : dict V) : dict V :=
  match d with
  | [] => [(k, v)]
  | (k', v') :: r =>
      if String.eqb k k' then (k', v) :: r else (k', v') :: dict_set k v r
  end.

(** [d[k]] *)
Fixpoint dict_get {V : Type} (k : string) (d : dict V) : option V :=
  match d with
  | [] => None
  | (k', v') :: r => if String.eqb k k' then Some v' else dict_get k r
  end.

Definition keys {V : Type} (d : dict V) : list string := map fst d.

Module Json.

(** The values at the leaves of a document, in the order of the walk:
    every value that is not a dict is one leaf. *)
Fixpoint leaves (v : json) : list json :=
  match v with
  | JDict d =>
      (fix items (l : list (string * json)) : list json :=
         match l with
         | [] => []
         | (_, v') :: r => leaves v' ++ items r
         end) d
  | _ => [v]
  end.

Definition leaves_items (d : dict json) : list json :=
  flat_map (fun kv => leaves (snd kv)) d.

(** The document with every leaf erased: what is left is the keys, their
    order and the nesting of the mappings. *)
Fixpoint shape (v : json) : json :=
  match v with
  | JDict d =>
      JDict ((fix items (l : list (string * json)) : list (string * json) :=
                match l with
                | [] => []
                | (k, v') :: r => (k, shape v') :: items r
                end) d)
  | _ => JNull
  end.

Definition shape_items (d : dict json) : dict json :=
  map (fun kv => (fst kv, shape (snd kv))) d.

(** Nesting depth of the mappings of a value: 0 for a leaf. *)
Fixpoint depth (v : json) : nat :=
  match v with
  | JDict d =>
      S ((fix items (l : list (string * json)) : nat :=
            match l with
            | [] => 0
            | (_, v') :: r => Nat.max (depth v') (items r)
            end) d)
  | _ => 0
  end.

Definition depth_items (d : dict json) : nat :=
  fold_right (fun kv n => Nat.max (depth (snd kv)) n) 0 d.

(** Some key, at some nesting level of the mappings, has the empty object
    as its value. *)
Fixpoint has_empty_object (v : json) : bool :=
  match v with
  | JDict d =>
      (fix items (l : list (string * json)) : bool :=
         match l with
         | [] => false
         | (_, JDict []) :: _ => true
         | (_, v') :: r => has_empty_object v' || items r
         end) d
  | _ => false
  end.

Definition has_empty_items (d : dict json) : bool :=
  existsb (fun kv => match snd kv with
                     | JDict [] => true
                     | v' => has_empty_object v'
                     end) d.

(** The keys of every mapping reached by the walk are pairwise distinct,
    as the keys of a Python dict are. *)
Fixpoint wf_json (v : json) : bool :=
  match v with
  | JDict d =>
      bool_decide (NoDup (map fst d)) &&
      (fix items (l : list (string * json)) : bool :=
         match l with
         | [] => true
         | (_, v') :: r => wf_json v' && items r
         end) d
  | _ => true
  end.

Definition wf_items (d : dict json) : bool :=
  forallb (fun kv => wf_json (snd kv)) d.

End Json.

(** ** [json.dumps(obj, indent=n)] *)

Module JsonDumps.

Definition hex_digit (n : nat) : ascii :=
  if n <? 10 then ascii_of_nat (48 + n) else ascii_of_nat (87 + n).

Definition backslash : ascii := ascii_of_nat 92.

(** One character of [py_encode_basestring_ascii]. *)
Definition escape_char (c : ascii) : string :=
  let n := nat_of_ascii c in
  if n =? 34 then String backslash (String PyStr.quote EmptyString)
  else if n =? 92 then String backslash (String backslash EmptyString)
  else if n =? 8 then String backslash "b"
  else if n =? 12 then String backslash "f"
  else if n =? 10 then String backslash "n"
  else if n =? 13 then String backslash "r"
  else if n =? 9 then String backslash "t"
  else if (32 <=? n) && (n <=? 126) then String c EmptyString
  else String backslash
         (String "u" (String "0" (String "0"
            (String (hex_digit (n / 16))
               (String (hex_digit (n mod 16)) EmptyString))))).

Fixpoint escape (s : string) : string :=
  match s with
  | EmptyString => EmptyString
  | String c r => escape_char c +:+ escape r
  end.

(** [py_encode_basestring_ascii(s)] *)
Definition encode_str (s : string) : string :=
  String PyStr.quote (escape s +:+ String PyStr.quote EmptyString).

Fixpoint spaces (n : nat) : string :=
  match n with O => EmptyString | S n' => String " " (spaces n') end.

(** ['\n' + _indent * level] where [_indent] is [indent] spaces. *)
Definition newline_indent (indent level : nat) : string :=
  String PyStr.newline (spaces (indent * level)).

(** [_iterencode(o, level)], the chunks joined.  Containers increase the
    level for their members, put each member on a line of its own and
    close on a line at their own level; empty containers are written
    without a line break. *)
Fixpoint encode (indent : nat) (level : nat) (o : json) : string :=
  match o with
  | JNull => "null"
  | JBool true => "true"
  | JBool false => "false"
  | JInt n => DecimalString.NilZero.string_of_int (Z.to_int n)
  | JFloat text => text
  | JStr s => encode_str s
  | JList [] => "[]"
  | JList (x :: l) =>
      "[" +:+ newline_indent indent (S level) +:+ encode indent (S level) x +:+
      (fix rest (l : list json) : string :=
         match l with
         | [] => EmptyString
         | y :: l' =>
             "," +:+ newline_indent indent (S level) +:+
             encode indent (S level) y +:+ rest l'
         end) l +:+
      newline_indent indent level +:+ "]"
  | JDict [] => "{}"
  | JDict ((k, x) :: d) =>
      "{" +:+ newline_indent indent (S level) +:+
      encode_str k +:+ ": " +:+ encode indent (S level) x +:+
      (fix rest (d : list (string * json)) : string :=
         match d with
         | [] => EmptyString
         | (k', y) :: d' =>
             "," +:+ newline_indent indent (S level) +:+
             encode_str k' +:+ ": " +:+ encode indent (S level) y +:+ rest d'
         end) d +:+
      newline_indent indent level +:+ "}"
  end.

Definition dumps (obj : json) (indent : nat) : string := encode indent 0 obj.

End JsonDumps.

(** ** gettext catalogs as [polib] reads them *)

Module Polib.

(** A [polib.POEntry], with the attributes the managers read or set. *)
Record POEntry : Type := mkPOEntry {
  msgid : string;
  msgstr : string;
  msgctxt : option string;
  occurrences : list (string * string)
}.

(** A [polib.POFile]: the header and the entries in file order. *)
Record POFile : Type := mkPOFile {
  metadata : list (string * string);
  entries : list POEntry
}.

(** [polib.POEntry(msgid=.., msgstr=.., occurrences=..)] *)
Definition new_entry (id str : string) (occ : list (string * string)) : POEntry :=
  {| msgid := id; msgstr := str; msgctxt := None; occurrences := occ |}.

End Polib.

(** ** Process state and outcomes *)

(** What a file written by a run holds. *)
Inductive file_data : Type :=
| TextFile (text : string)                 (* [destination.write(text)] *)
| BinaryFile (bytes : list Byte.byte)      (* [destination.write(binaries)] *)
| PoCatalog (catalog : Polib.POFile)       (* [pofile.save(path)] *)
| MoCatalog (catalog : Polib.POFile).      (* [pofile.save_as_mofile(path)] *)

Inductive exception : Type :=
| RecursionError
| AttributeError
| OSError
| JSONDecodeError
| TypeError
| ImportError (name : string).

Module Colorama.
Definition Fore_RED : string := String PyStr.escape "[31m".
Definition Fore_GREEN : string := String PyStr.escape "[32m".
Definition Fore_YELLOW : string := String PyStr.escape "[33m".
End Colorama.

(** The part of the process state a run changes: what was printed (one
    element per [print]), the files written, in order, and the state of the
    translation service. *)
Record World (T : Type) : Type := mkWorld {
  stdout : list string;
  files : list (string * file_data);
  api : T
}.
Arguments mkWorld {T}.
Arguments stdout {T}.
Arguments files {T}.
Arguments api {T}.

(** How a computation ends: it returns, the process is ended by [os._exit]
    or [sys.exit], or an exception that nothing catches ends it. *)
Inductive outcome (T A : Type) : Type :=
| Returned (a : A) (w : World T)
| Exited (status : Z) (w : World T)
| Raised (e : exception) (w : World T).
Arguments Returned {T A}.
Arguments Exited {T A}.
Arguments Raised {T A}.

Definition M (T A : Type) : Type := World T -> outcome T A.

Definition ret {T A : Type} (a : A) : M T A := fun w => Returned a w.

Definition bind {T A B : Type} (c : M T A) (k : A -> M T B) : M T B :=
  fun w =>
    match c w with
    | Returned a w' => k a w'
    | Exited status w' => Exited status w'
    | Raised e w' => Raised e w'
    end.

Declare Scope py_scope.
Delimit Scope py_scope with py.
Notation "x <- c ;; k" := (bind c (fun x => k))
  (at level 100, c at next level, right associativity) : py_scope.
Notation "c ;;; k" := (bind c (fun _ => k))
  (at level 100, right associativity) : py_scope.

(** [print(line)] *)
Definition print {T : Type} (line : string) : M T unit :=
  fun w => Returned tt (mkWorld (stdout w ++ [line]) (files w) (api w)).

(** [os._exit(status)] *)
Definition os_exit {T A : Type} (status : Z) : M T A := fun w => Exited status w.

Definition raise {T A : Type} (e : exception) : M T A := fun w => Raised e w.

(** Writing [data] to a file opened for writing at [path]; opening and
    writing are taken to succeed. *)
Definition write_file {T : Type} (path : string) (data : file_data) : M T unit :=
  fun w => Returned tt (mkWorld (stdout w) (files w ++ [(path, data)]) (api w)).

(** A call of the translation service, which changes its state only. *)
Definition call_api {T A : Type} (f : T -> A * T) : M T A :=
  fun w => let (a, t) := f (api w) in Returned a (mkWorld (stdout w) (files w) t).

Definition world_of {T A : Type} (o : outcome T A) : World T :=
  match o with Returned _ w | Exited _ w | Raised _ w => w end.

(** ** The translation client ([polyglot.deepl_request]) and the system *)

(** A [DeeplRequest] object. *)
Record DeeplRequest : Type := mkDeeplRequest {
  target_lang : string;
  source_lang : option string
}.

(** [status_data] of [check_document_status]. *)
Record StatusData : Type := mkStatusData {
  status : string;
  seconds_remaining : option string;
  billed_characters : string
}.

(** What the managers take from outside: the file system they read, the
    parsers of [json] and [polib], and the methods of the translation client,
    whose module is not part of the sources at hand.  [translate] returns the
    translated text or a falsy value ([None] or the empty string). *)
Record Environment (T : Type) : Type := mkEnvironment {
  path_exists : string -> bool;                 (* [os.path.exists] *)
  path_isdir : string -> bool;                  (* [os.path.isdir] *)
  getcwd : string;                              (* [os.getcwd()] *)
  read_text : string -> option string;          (* [open(p, 'r').read()], [None]: it raises *)
  json_loads : string -> option json;           (* [json.loads], [None]: it raises *)
  polib_pofile : string -> option Polib.POFile; (* [polib.pofile(p)], [None]: it raises *)
  new_request : option string -> option string -> DeeplRequest;
  translate : DeeplRequest -> json -> T -> option string * T;
  translate_document : DeeplRequest -> string -> T -> (string * string) * T;
  check_document_status : DeeplRequest -> string -> string -> T -> StatusData * T;
  download_translated_document :
    DeeplRequest -> string -> string -> T -> list Byte.byte * T;
  print_supported_languages : DeeplRequest -> M T unit;
  print_usage_info : DeeplRequest -> M T unit;
  set_key : DeeplRequest -> M T unit
}.
Arguments path_exists {T}.
Arguments path_isdir {T}.
Arguments getcwd {T}.
Arguments read_text {T}.
Arguments json_loads {T}.
Arguments polib_pofile {T}.
Arguments new_request {T}.
Arguments translate {T}.
Arguments translate_document {T}.
Arguments check_document_status {T}.
Arguments download_translated_document {T}.
Arguments print_supported_languages {T}.
Arguments print_usage_info {T}.
Arguments set_key {T}.

(** [bool(translation)] for the [str | None] a translation call returns. *)
Definition truthy (translation : option string) : bool :=
  match translation with Some s => PyStr.truthy s | None => false end.

Local Open Scope py_scope.

(** ** [class Manager] *)

Module Manager.

Record t : Type := mk {
  source_file : string;
  deepl : DeeplRequest;
  output_directory : string
}.

Section WithEnv.
Context {T : Type} (env : Environment T).

(** [Manager.check_source_file] *)
Definition check_source_file (source_file : string) : M T unit :=
  if negb (path_exists env source_file) then
    print (Colorama.Fore_RED +:+ "Error: " +:+ String PyStr.quote source_file +:+
           String PyStr.quote " does not exist!") ;;;
    os_exit 0%Z
  else ret tt.

(** [Manager.__init__] *)
Definition __init__ (deepl : DeeplRequest) (source_file : string)
    (output_directory : string) : M T t :=
  check_source_file source_file ;;;
  ret {| source_file := source_file;
         deepl := deepl;
         output_directory :=
           if negb (String.eqb output_directory EmptyString)
              && path_isdir env output_directory
           then output_directory
           else getcwd env |}.

End WithEnv.

(** [Manager.extension] *)
Definition extension (self : t) : string :=
  let '(name, extension) := OsPath.splitext (source_file self) in extension.

(** [Manager.target_file] *)
Definition target_file (self : t) : string :=
  output_directory self +:+ "/" +:+
  PyStr.lower (target_lang (deepl self)) +:+ extension self.

End Manager.

(** ** [class TextManager(Manager)] *)

Module TextManager.

(** The instance: the attributes of [Manager] and [content], which holds
    what [deepl.translate] returned once the content is translated ([None]
    for Python's [None]). *)
Record t : Type := mk {
  base : Manager.t;
  content : option string
}.

Section WithEnv.
Context {T : Type} (env : Environment T).

(** [TextManager.load_source_content] *)
Definition load_source_content (self : t) : M T t :=
  match read_text env (Manager.source_file (base self)) with
  | Some text => ret {| base := base self; content := Some text |}
  | None =>
      print (Colorama.Fore_RED +:+ "Cannot read " +:+
             Manager.extension (base self) +:+ " files.") ;;;
      os_exit 0%Z
  end.

(** [TextManager.translate_content] *)
Definition translate_content (self : t) : M T t :=
  translation <- call_api (translate env (Manager.deepl (base self))
                             (match content self with
                              | Some text => JStr text
                              | None => JNull
                              end)) ;;
  ret {| base := base self; content := translation |}.

(** [TextManager.make_translated_files]; [destination.write(None)] raises
    [TypeError], once the file is opened for writing. *)
Definition make_translated_files (self : t) : M T unit :=
  match content self with
  | Some text =>
      write_file (Manager.target_file (base self)) (TextFile text) ;;;
      print ("Generated " +:+ Manager.target_file (base self) +:+ ".")
  | None =>
      write_file (Manager.target_file (base self)) (TextFile EmptyString) ;;;
      raise TypeError
  end.

(** [TextManager.translate_source_file] *)
Definition translate_source_file (self : t) : M T unit :=
  self <- load_source_content self ;;
  self <- translate_content self ;;
  if truthy (content self) then make_translated_files self else ret tt.

End WithEnv.

End TextManager.

(** ** [class DictionaryManager(TextManager)] *)

(** A [progressbar.ProgressBar]: its [max_value] and the values it was
    updated with, in order. *)
Record ProgressBar : Type := mkProgressBar {
  max_value : nat;
  updates : list nat
}.

Module DictionaryManager.

(** The instance, for a [content] of type [C]. *)
Record t (C : Type) : Type := mk {
  base : Manager.t;
  content : C;
  completion_count : nat;
  not_translated_count : nat;
  progress_bar : ProgressBar
}.
Arguments mk {C}.
Arguments base {C}.
Arguments content {C}.
Arguments completion_count {C}.
Arguments not_translated_count {C}.
Arguments progress_bar {C}.

Definition set_content {C : Type} (self : t C) (c : C) : t C :=
  mk (base self) c (completion_count self) (not_translated_count self)
     (progress_bar self).

(** [self.completion_count += 1; self.progress_bar.update(self.completion_count)] *)
Definition count_and_update {C : Type} (self : t C) : t C :=
  let completion_count := completion_count self + 1 in
  mk (base self) (content self) completion_count (not_translated_count self)
     (mkProgressBar (max_value (progress_bar self))
                    (updates (progress_bar self) ++ [completion_count])).

(** [progressbar.ProgressBar(max_value=number_of_translations, ...)], with
    the class attributes [completion_count] and [not_translated_count]. *)
Definition with_progress_bar {C : Type} (base : Manager.t) (content : C)
    (number_of_translations : nat) : t C :=
  mk base content 0 0 (mkProgressBar number_of_translations []).

Section WithEnv.
Context {T : Type} (env : Environment T).

(** [DictionaryManager.translate_and_handle], for entries of type [E]:
    [value] is the entry as the service receives it, [text] what a
    translation is as an entry. *)
Definition translate_and_handle {C E : Type} (value : E -> json) (text : string -> E)
    (entry : E) (self : t C) : M T (E * t C) :=
  translation <- call_api (translate env (Manager.deepl (base self)) (value entry)) ;;
  let self :=
    if negb (truthy translation)
    then mk (base self) (content self) (completion_count self)
            (not_translated_count self + 1) (progress_bar self)
    else self in
  ret (match translation with
       | Some s => if PyStr.truthy s then text s else entry
       | None => entry
       end, self).

(** [DictionaryManager.print_ending_messages] *)
Definition print_ending_messages {C : Type} (self : t C) : M T unit :=
  print (String PyStr.newline "Translation completed.") ;;;
  if 0 <? not_translated_count self then
    print (Colorama.Fore_YELLOW +:+ String PyStr.newline
             (NilZero.string_of_uint (Nat.to_uint (not_translated_count self)) +:+
              " entries have not been translated." +:+
              String PyStr.newline EmptyString))
  else ret tt.

End WithEnv.

End DictionaryManager.

(** ** [class JSONManager(DictionaryManager)] *)

Module JSONManager.

Import DictionaryManager.

Abbreviation t := (DictionaryManager.t json).

(** A dictionary that is part of [self.content] is an object of its own,
    mutated in place; it is named here by where it stands: the positions
    of the items to go through from the root, [[]] for [self.content]
    itself.  [subdict p content] is the dictionary that stands there. *)
Fixpoint subdict (p : list nat) (content : json) : option (dict json) :=
  match content with
  | JDict d =>
      match p with
      | [] => Some d
      | i :: p' =>
          match d !! i with
          | Some (_, value) => subdict p' value
          | None => None
          end
      end
  | _ => None
  end.

(** [content] after the dictionary at [p] is changed by [f]. *)
Fixpoint alter_at (f : dict json -> dict json) (p : list nat) (content : json) : json :=
  match content with
  | JDict d =>
      match p with
      | [] => JDict (f d)
      | i :: p' =>
          match d !! i with
          | Some (key, value) => JDict (<[i := (key, alter_at f p' value)]> d)
          | None => content
          end
      end
  | _ => content
  end.

Definition is_empty {V : Type} (d : dict V) : bool :=
  match d with [] => true | _ => false end.

(** [if not dictionary: dictionary = self.content] of
    [get_number_of_translations]: [None] is the default argument. *)
Definition count_argument (content : json) (dictionary : option (dict json)) : json :=
  match dictionary with
  | None => content
  | Some d => if is_empty d then content else JDict d
  end.

(** The loop of [get_number_of_translations] over the items [l], where
    [call] is the nested call of the method. *)
Definition count_items (call : dict json -> exception + nat)
  : list (string * json) -> nat -> exception + nat :=
  fix items (l : list (string * json)) (number : nat) : exception + nat :=
    match l with
    | [] => inr number
    | (key, value) :: l' =>
        match value with
        | JDict d' =>
            match call d' with
            | inr n => items l' (number + n)
            | inl e => inl e
            end
        | _ => items l' (number + 1)
        end
    end.

(** [JSONManager.get_number_of_translations]; [limit] is the number of
    nested calls the interpreter still allows, and [dictionary] is [None]
    for the default argument.  A dictionary that is not a dict has no
    [items]. *)
Fixpoint get_number_of_translations (limit : nat) (content : json)
    (dictionary : option (dict json)) : exception + nat :=
  match limit with
  | O => inl RecursionError
  | S limit' =>
      match count_argument content dictionary with
      | JDict d =>
          count_items (fun d' => get_number_of_translations limit' content (Some d')) d 0
      | _ => inl AttributeError
      end
  end.

Section WithEnv.
Context {T : Type} (env : Environment T).

(** [JSONManager.load_source_content] *)
Definition load_source_content (self : Manager.t) : M T json :=
  match read_text env (Manager.source_file self) with
  | None => raise OSError
  | Some text =>
      match json_loads env text with
      | None => raise JSONDecodeError
      | Some content => ret content
      end
  end.

(** [if not dictionary: dictionary = self.content] of [translate_content]:
    the place of the dictionary the pass walks. *)
Definition tc_argument (content : json) (dictionary : option (list nat)) : list nat :=
  match dictionary with
  | None => []
  | Some p =>
      match subdict p content with
      | Some [] => []
      | _ => p
      end
  end.

(** The loop of [translate_content] over the items of the dictionary at
    [dictionary], where [call] is the nested call of the method.  The loop
    goes through the positions of the dictionary as it found it ([todo]
    items from position [i]) and reads each item as it is when the loop
    reaches it; the walk changes values only, never the keys or their
    number. *)
Definition translate_items (call : list nat -> t -> M T t) (dictionary : list nat)
  : nat -> nat -> t -> M T t :=
  fix items (todo i : nat) (self : t) {struct todo} : M T t :=
    match todo with
    | O => ret self
    | S todo' =>
        match subdict dictionary (content self) with
        | None => raise AttributeError
        | Some d =>
            match d !! i with
            | None => ret self
            | Some (key, value) =>
                if isinstance_dict value then
                  self <- call (dictionary ++ [i]) self ;;
                  items todo' (S i) self
                else
                  r <- translate_and_handle env (fun v => v) JStr value self ;;
                  let '(translation, self) := r in
                  let self :=
                    set_content self
                      (alter_at (dict_set key translation) dictionary (content self)) in
                  items todo' (S i) (count_and_update self)
            end
        end
    end.

(** [JSONManager.translate_content]; [dictionary] is [None] for the
    default argument and the place of the dictionary otherwise. *)
Fixpoint translate_content (limit : nat) (dictionary : option (list nat)) (self : t)
    : M T t :=
  match limit with
  | O => raise RecursionError
  | S limit' =>
      match subdict (tc_argument (content self) dictionary) (content self) with
      | None => raise AttributeError
      | Some d =>
          translate_items (fun p => translate_content limit' (Some p))
            (tc_argument (content self) dictionary) (length d) 0 self
      end
  end.

(** [JSONManager.make_translated_files] *)
Definition make_translated_files (self : t) : M T unit :=
  write_file (Manager.target_file (base self))
             (TextFile (JsonDumps.dumps (content self) 2)) ;;;
  print ("Generated " +:+ Manager.target_file (base self) +:+ ".").

(** [DictionaryManager.get_progress_bar] and the rest of
    [DictionaryManager.translate_source_file], as [JSONManager]
    inherits them. *)
Definition translate_source_file (limit : nat) (self : Manager.t) : M T unit :=
  content <- load_source_content self ;;
  match get_number_of_translations limit content None with
  | inl e => raise e
  | inr number_of_translations =>
      self <- translate_content limit None
                (with_progress_bar self content number_of_translations) ;;
      print_ending_messages self ;;;
      make_translated_files self
  end.

End WithEnv.

End JSONManager.

(** ** [class POManager(DictionaryManager)] *)

Module POManager.

Import DictionaryManager.

(** The value kept for a message id:
    [{"msgstr": ..., "occurrences": ...}]. *)
Record value : Type := mkValue {
  msgstr : string;
  occurrences : list (string * string)
}.

Abbreviation t := (DictionaryManager.t (dict value)).

(** The value [load_source_content] builds for an entry. *)
Definition value_of_entry (entry : Polib.POEntry) : value :=
  {| msgstr := if String.eqb (Polib.msgstr entry) EmptyString
               then Polib.msgid entry
               else Polib.msgstr entry;
     occurrences := Polib.occurrences entry |}.

(** The loop of [POManager.load_source_content] over the entries of the
    catalog, from the [content] it finds. *)
Definition load_entries (pofile : list Polib.POEntry) (content : dict value) : dict value :=
  fold_left (fun content entry => dict_set (Polib.msgid entry) (value_of_entry entry) content)
            pofile content.

(** [POManager.get_number_of_translations] *)
Definition get_number_of_translations (content : dict value) : nat := length content.

(** The entries [POManager.make_translated_files] appends to the new
    catalog. *)
Definition translated_entries (content : dict value) : list Polib.POEntry :=
  map (fun kv => Polib.new_entry (fst kv) (msgstr (snd kv)) (occurrences (snd kv))) content.

Section WithEnv.
Context {T : Type} (env : Environment T).

(** [POManager.pofile_source] *)
Definition pofile_source (self : Manager.t) : M T Polib.POFile :=
  match polib_pofile env (Manager.source_file self) with
  | Some pofile => ret pofile
  | None => raise OSError
  end.

(** [POManager.load_source_content]; [content] is the class attribute
    [DictionaryManager.content], empty when the process starts. *)
Definition load_source_content (self : Manager.t) (content : dict value)
    : M T (dict value) :=
  pofile <- pofile_source self ;;
  ret (load_entries (Polib.entries pofile) content).

(** The loop of [POManager.translate_content], which changes the value
    of the item it has reached. *)
Fixpoint translate_items (todo i : nat) (self : t) : M T t :=
  match todo with
  | O => ret self
  | S todo' =>
      match content self !! i with
      | None => ret self
      | Some (key, value) =>
          r <- translate_and_handle env JStr (fun s => s) (msgstr value) self ;;
          let '(translation, self) := r in
          let self :=
            set_content self
              (<[i := (key, mkValue translation (occurrences value))]> (content self)) in
          translate_items todo' (S i) (count_and_update self)
      end
  end.

(** [POManager.translate_content] *)
Definition translate_content (self : t) : M T t :=
  translate_items (length (content self)) 0 self.

(** [POManager.make_translated_files] *)
Definition make_translated_files (self : t) : M T unit :=
  source <- pofile_source (base self) ;;
  let pofile :=
    Polib.mkPOFile (Polib.metadata source) (translated_entries (content self)) in
  write_file (Manager.target_file (base self)) (PoCatalog pofile) ;;;
  let mofile :=
    Manager.output_directory (base self) +:+ "/" +:+
    PyStr.lower (target_lang (Manager.deepl (base self))) +:+ ".mo" in
  write_file mofile (MoCatalog pofile) ;;;
  print ("Generated " +:+ Manager.target_file (base self) +:+ " and " +:+ mofile +:+ ".").

(** [DictionaryManager.translate_source_file], as [POManager] inherits
    it. *)
Definition translate_source_file (self : Manager.t) : M T unit :=
  content <- load_source_content self [] ;;
  self <- translate_content
            (with_progress_bar self content (get_number_of_translations content)) ;;
  print_ending_messages self ;;;
  make_translated_files self.

End WithEnv.

End POManager.

(** ** [class DocumentManager(Manager)] *)

Module DocumentManager.

Section WithEnv.
Context {T : Type} (env : Environment T).

(** [DocumentManager.download_target_file] *)
Definition download_target_file (self : Manager.t) (document_id document_key : string)
    : M T unit :=
  binaries <- call_api (download_translated_document env (Manager.deepl self)
                          document_id document_key) ;;
  write_file (Manager.target_file self) (BinaryFile binaries) ;;;
  print ("Generated " +:+ Manager.target_file self +:+ ".").

(** [DocumentManager.download_document_when_ready] *)
Fixpoint download_document_when_ready (limit : nat) (self : Manager.t)
    (document_id document_key : string) : M T unit :=
  match limit with
  | O => raise RecursionError
  | S limit' =>
      status_data <- call_api (check_document_status env (Manager.deepl self)
                                 document_id document_key) ;;
      if String.eqb (status status_data) "done" then
        print ("Translation completed. Billed characters: " +:+
               billed_characters status_data +:+ ".") ;;;
        download_target_file self document_id document_key
      else
        match seconds_remaining status_data with
        | Some seconds => print ("Remaining " +:+ seconds +:+ " seconds...")
        | None => ret tt
        end ;;;
        download_document_when_ready limit' self document_id document_key
  end.

(** [DocumentManager.translate_source_file] *)
Definition translate_source_file (limit : nat) (self : Manager.t) : M T unit :=
  document_data <- call_api (translate_document env (Manager.deepl self)
                               (Manager.source_file self)) ;;
  download_document_when_ready limit self (fst document_data) (snd document_data).

End WithEnv.

End DocumentManager.

(** ** Runs of the managers *)

(** The classes of [polyglot/managers.py] that can be instantiated and
    run. *)
Inductive manager_class : Type :=
| TextManagerClass
| JSONManagerClass
| POManagerClass
| DocumentManagerClass.

(** [manager.translate_source_file()] for an instance of [cls] with the
attributes [manager] that [Manager.__init__] has set; the other attributes
are those of the class. *)
Definition translate_source_file {T : Type} (env : Environment T) (limit : nat)
    (cls : manager_class) (manager : Manager.t) : M T unit :=
  match cls with
  | TextManagerClass =>
      TextManager.translate_source_file env (TextManager.mk manager (Some EmptyString))
  | JSONManagerClass => JSONManager.translate_source_file env limit manager
  | POManagerClass => POManager.translate_source_file env manager
  | DocumentManagerClass => DocumentManager.translate_source_file env limit manager
  end.

(** [manager = cls(deepl, source_file, output_directory)] followed by
[manager.translate_source_file()]; no class overrides [Manager.__init__]. *)
Definition run_manager {T : Type} (env : Environment T) (limit : nat) (cls : manager_class)
    (deepl : DeeplRequest) (source_file output_directory : string) : M T unit :=
  manager <- Manager.__init__ env deepl source_file output_directory ;;
  translate_source_file env limit cls manager.

(** ** [polyglot/__main__.py] *)

Module Main.

(** What [parser.parse_args()] returns: the action, one of the choices of
the parser, and the options, [None] when they are not given. *)
Record Namespace : Type := mkNamespace {
action : string;
source_file : option string;
target_lang : option string;
output_directory : option string;
source_lang : option string
}.

(** What a name of a module is bound to: one of the classes whose runs are
modelled, or something else (a module, a function, a base class). *)
Inductive attribute : Type :=
| Class (cls : manager_class)
| Other.

(** The names bound at the top level of [polyglot/managers.py], in the order
the module binds them. *)
Definition managers_namespace : dict attribute :=
[ ("os", Other); ("json", Other); ("ABC", Other); ("abstractmethod", Other);
  ("polib", Other); ("colorama", Other); ("progressbar", Other);
  ("deepl_request", Other);
  ("Manager", Other); ("TextManager", Class TextManagerClass);
  ("DictionaryManager", Other); ("JSONManager", Class JSONManagerClass);
  ("POManager", Class POManagerClass); ("DocumentManager", Class DocumentManagerClass) ].

(** [from module import name, ...]: each name is looked up in the module, and
a name the module does not bind raises [ImportError]. *)
Fixpoint import_from (namespace : dict attribute) (names : list string)
  : exception + list attribute :=
match names with
| [] => inr []
| name :: names' =>
    match dict_get name namespace with
    | None => inl (ImportError name)
    | Some a =>
        match import_from namespace names' with
        | inr l => inr (a :: l)
        | inl e => inl e
        end
    end
end.

Section WithEnv.
Context {T : Type} (env : Environment T).

(** [parser.error(message)]: the usage message, then exit status 2. *)
Definition parser_error {A : Type} : M T A := os_exit 2%Z.

(** [manager = cls(deepl, source_file, output_directory)] and
[manager.translate_source_file()] for the object [cls] is bound to.  With
[None] for the output directory, [os.path.isdir] raises [TypeError] once
the source file is checked. *)
Definition instantiate_and_translate (limit : nat) (cls : attribute) (deepl : DeeplRequest)
  (source_file : string) (output_directory : option string) : M T unit :=
match cls with
| Class cls =>
    match output_directory with
    | Some output_directory =>
        run_manager env limit cls deepl source_file output_directory
    | None => Manager.check_source_file env source_file ;;; raise TypeError
    end
| Other => raise TypeError
end.

(** The manager [translate_or_print_data] constructs for an extension,
among the three names the module imports. *)
Definition select_manager {A : Type} (BaseManager JSONManager POManager : A)
  (extension : string) : A :=
if String.eqb extension ".json" then JSONManager
else if String.eqb extension ".po" then POManager
else BaseManager.

(** [translate_or_print_data], for what the names [BaseManager],
[JSONManager] and [POManager] are bound to and for the parsed arguments. *)
Definition translate_or_print_data (limit : nat)
  (BaseManager JSONManager POManager : attribute) (args : Namespace) : M T unit :=
if negb (PyStr.truthy (action args)) then
  print (Colorama.Fore_RED +:+ "No action selected.") ;;;
  os_exit 0%Z
else
  let deepl := new_request env (target_lang args) (source_lang args) in
  if String.eqb (action args) "translate" then
    match source_file args, target_lang args with
    | Some source_file, Some _ =>
        let '(name, extension) := OsPath.splitext source_file in
        instantiate_and_translate limit
          (select_manager BaseManager JSONManager POManager extension)
          deepl source_file (output_directory args) ;;;
        print (Colorama.Fore_GREEN +:+ String PyStr.newline
                 ("Finish." +:+ String PyStr.newline EmptyString))
    | _, _ => parser_error
    end
  else if String.eqb (action args) "print_supported_languages" then
    print_supported_languages env deepl
  else if String.eqb (action args) "print_usage_info" then
    print_usage_info env deepl
  else if String.eqb (action args) "set_key" then
    set_key env deepl
  else ret tt.

(** The module run as a program: its imports, then
[translate_or_print_data()]. *)
Definition main (limit : nat) (args : Namespace) : M T unit :=
match import_from managers_namespace ["BaseManager"; "JSONManager"; "POManager"] with
| inr [BaseManager; JSONManager; POManager] =>
    translate_or_print_data limit BaseManager JSONManager POManager args
| inr _ => raise TypeError
| inl e => raise e
end.

End WithEnv.

End Main.

(** ** The walk of a document as a function

The in-place walk of [JSONManager.translate_content] is compared below with
these functions, which rebuild the document. *)

Module Walk.

Section WithStep.
Context {S : Type} (step : json -> S -> json * S).

(** Every leaf of [v], in the order of the walk, is replaced by what [step]
returns for it; [step] also changes the state [S]. *)
Fixpoint traverse (v : json) (s : S) : json * S :=
match v with
| JDict d =>
    let '(d', s') :=
      (fix items (l : list (string * json)) (s : S) : list (string * json) * S :=
         match l with
         | [] => ([], s)
         | (k, v') :: r =>
             let '(v'', s1) := traverse v' s in
             let '(r', s2) := items r s1 in
             ((k, v'') :: r', s2)
         end) d s in
    (JDict d', s')
| _ => step v s
end.

Fixpoint traverse_items (l : dict json) (s : S) : dict json * S :=
match l with
| [] => ([], s)
| (k, v) :: r =>
    let '(v', s1) := traverse v s in
    let '(r', s2) := traverse_items r s1 in
    ((k, v') :: r', s2)
end.

(** [step] along a list of leaves. *)
Fixpoint run (ls : list json) (s : S) : list json * S :=
match ls with
| [] => ([], s)
| x :: r =>
    let '(x', s1) := step x s in
    let '(r', s2) := run r s1 in
    (x' :: r', s2)
end.

End WithStep.

(** The answers of the translation service to the leaves [ls], asked in
this order from the state [t]. *)
Fixpoint responses {T : Type} (env : Environment T) (deepl : DeeplRequest)
  (ls : list json) (t : T) : list (option string) :=
match ls with
| [] => []
| x :: r =>
    let '(translation, t') := translate env deepl x t in
    translation :: responses env deepl r t'
end.

(** The state of the translation service after these requests. *)
Fixpoint final_state {T : Type} (env : Environment T) (deepl : DeeplRequest)
  (ls : list json) (t : T) : T :=
match ls with
| [] => t
| x :: r => final_state env deepl r (snd (translate env deepl x t))
end.

(** The number of answers that are falsy. *)
Definition failures (answers : list (option string)) : nat :=
length (List.filter (fun translation => negb (truthy translation)) answers).

(** [translation if translation else entry] *)
Definition resolve (entry : json) (translation : option string) : json :=
match translation with
| Some s => if PyStr.truthy s then JStr s else entry
| None => entry
end.

(** The manager after [translate_and_handle] got [translation]. *)
Definition handled {C : Type} (self : DictionaryManager.t C) (translation : option string)
  : DictionaryManager.t C :=
if negb (truthy translation)
then DictionaryManager.mk (DictionaryManager.base self) (DictionaryManager.content self)
       (DictionaryManager.completion_count self)
       (DictionaryManager.not_translated_count self + 1)
       (DictionaryManager.progress_bar self)
else self.

(** What the handling of one leaf does to the manager and to the world,
the [content] of the manager apart. *)
Definition leaf_step {T C : Type} (env : Environment T) (value : json)
  (s : DictionaryManager.t C * World T) : json * (DictionaryManager.t C * World T) :=
let translation :=
  translate env (Manager.deepl (DictionaryManager.base (fst s))) value (api (snd s)) in
(resolve value (fst translation),
 (DictionaryManager.count_and_update (handled (fst s) (fst translation)),
  mkWorld (stdout (snd s)) (files (snd s)) (snd translation))).

End Walk.

(** ** What a catalog holds for a message id *)

Module Catalog.

(** The last entry of a catalog with the message id [id]. *)
Fixpoint last_with_id (id : string) (pofile : list Polib.POEntry) : option Polib.POEntry :=
match pofile with
| [] => None
| entry :: rest =>
    match last_with_id id rest with
    | Some later => Some later
    | None => if String.eqb (Polib.msgid entry) id then Some entry else None
    end
end.

(** The message ids of a catalog, in file order. *)
Definition msgids (pofile : list Polib.POEntry) : list string := map Polib.msgid pofile.

(** [translation if translation else entry] for an entry that is a string. *)
Definition resolve (entry : string) (translation : option string) : string :=
match translation with
| Some s => if PyStr.truthy s then s else entry
| None => entry
end.

(** The message strings of a content as the translation service receives
them, in the order of the items. *)
Definition submitted (content : dict POManager.value) : list json :=
map (fun kv => JStr (POManager.msgstr (snd kv))) content.

End Catalog.

(** ** The requests a translation service receives

An environment whose service records the values it is asked to translate,
in order, beside its own state. *)

(** A computation on the state of the service, with the record carried
along. *)
Definition carry {T A : Type} (c : M T A) : M (list json * T) A :=
fun w =>
  let back (w' : World T) : World (list json * T) :=
    mkWorld (stdout w') (files w') (fst (api w), api w') in
  match c (mkWorld (stdout w) (files w) (snd (api w))) with
  | Returned a w' => Returned a (back w')
  | Exited status w' => Exited status (back w')
  | Raised e w' => Raised e (back w')
  end.

Definition recording {T : Type} (env : Environment T) : Environment (list json * T) :=
{| path_exists := path_exists env;
   path_isdir := path_isdir env;
   getcwd := getcwd env;
   read_text := read_text env;
   json_loads := json_loads env;
   polib_pofile := polib_pofile env;
   new_request := new_request env;
   translate := fun deepl value s =>
     (fst (translate env deepl value (snd s)),
      (fst s ++ [value], snd (translate env deepl value (snd s))));
   translate_document := fun deepl path s =>
     (fst (translate_document env deepl path (snd s)),
      (fst s, snd (translate_document env deepl path (snd s))));
   check_document_status := fun deepl id key s =>
     (fst (check_document_status env deepl id key (snd s)),
      (fst s, snd (check_document_status env deepl id key (snd s))));
   download_translated_document := fun deepl id key s =>
     (fst (download_translated_document env deepl id key (snd s)),
      (fst s, snd (download_translated_document env deepl id key (snd s))));
   print_supported_languages := fun deepl => carry (print_supported_languages env deepl);
   print_usage_info := fun deepl => carry (print_usage_info env deepl);
   set_key := fun deepl => carry (set_key env deepl) |}.

(** ** A small instance

A file system with four sources, and a translation service that answers
from a glossary, fails on everything else and counts its calls. *)

Module Example.

Definition deepl : DeeplRequest := mkDeeplRequest "IT" None.

Definition service (_ : DeeplRequest) (value : json) (calls : nat) : option string * nat :=
(match value with
 | JStr s =>
     if String.eqb s "hello" then Some "ciao"
     else if String.eqb s "Hello" then Some "Ciao"
     else if String.eqb s "Aperto" then Some "Open"
     else if String.eqb s "silence" then Some EmptyString
     else None
 | _ => None
 end, S calls).

(** [en.json] *)
Definition items : dict json :=
[("greeting", JStr "hello");
 ("menu", JDict [("open", JStr "untranslatable"); ("items", JInt 3)]);
 ("quiet", JStr "silence")].

Definition document : json := JDict items.

(** [broken.json]: [{"a": {}}] *)
Definition broken : json := JDict [("a", JDict [])].

(** [en.po]: two entries share the message id [Open], in two contexts. *)
Definition catalog : Polib.POFile :=
Polib.mkPOFile [("Language", "en")]
  [ Polib.mkPOEntry "Open" "Apri" (Some "menu") [("menu.c", "10")];
    Polib.mkPOEntry "Hello" EmptyString None [("main.c", "3"); ("main.c", "7")];
    Polib.mkPOEntry "Open" "Aperto" (Some "status") [("status.c", "21")];
    Polib.mkPOEntry "Quit" "Esci" None [] ].

Definition env : Environment nat :=
{| path_exists := fun p =>
     String.eqb p "en.json" || String.eqb p "broken.json" ||
     String.eqb p "en.po" || String.eqb p "notes.txt" || String.eqb p "locked.txt";
   path_isdir := fun p => String.eqb p "out";
   getcwd := "/home/user";
   read_text := fun p =>
     if String.eqb p "en.json" then Some (JsonDumps.dumps document 2)
     else if String.eqb p "broken.json" then Some (JsonDumps.dumps broken 2)
     else if String.eqb p "notes.txt" then Some "untranslatable"
     else None;
   json_loads := fun text =>
     if String.eqb text (JsonDumps.dumps document 2) then Some document
     else if String.eqb text (JsonDumps.dumps broken 2) then Some broken
     else None;
   polib_pofile := fun p => if String.eqb p "en.po" then Some catalog else None;
   new_request := fun target source =>
     mkDeeplRequest (match target with Some t => t | None => EmptyString end) source;
   translate := service;
   translate_document := fun _ _ calls => (("id", "key"), calls);
   check_document_status := fun _ _ _ calls => (mkStatusData "done" None "12", calls);
   download_translated_document := fun _ _ _ calls => ([], calls);
   print_supported_languages := fun _ => ret tt;
   print_usage_info := fun _ => ret tt;
   set_key := fun _ => ret tt |}.

Definition world : World nat := mkWorld [] [] 0.

End Example.

(** ** What the proofs say of the calls of the translation pass *)

(** [content] with the dictionary at [p] replaced by [d]. *)
Definition put (p : list nat) (d : dict json) (content : json) : json :=
JSONManager.alter_at (fun _ => d) p content.

(** The change of state [Walk.leaf_step] does not see: another content. *)
Definition with_content {T : Type} (c : json) (s : JSONManager.t * World T)
  : JSONManager.t * World T :=
(DictionaryManager.set_content (fst s) c, snd s).

(** What a call of [translate_content] does for the dictionary [dv] at [q],
which is not empty and has no empty object inside: it returns with [dv]
walked, or it exceeds the recursion limit, and this only when the limit is
not above the nesting depth of [dv]. *)
Definition call_spec {T : Type} (env : Environment T) (bound : nat)
  (call : list nat -> JSONManager.t -> M T JSONManager.t) : Prop :=
forall q m w dv,
  JSONManager.subdict q (DictionaryManager.content m) = Some dv ->
  dv <> [] -> Json.wf_json (JDict dv) = true -> Json.has_empty_items dv = false ->
  call q m w =
    Returned
      (DictionaryManager.set_content
         (fst (snd (Walk.traverse_items (Walk.leaf_step env) dv (m, w))))
         (put q (fst (Walk.traverse_items (Walk.leaf_step env) dv (m, w)))
              (DictionaryManager.content m)))
      (snd (snd (Walk.traverse_items (Walk.leaf_step env) dv (m, w))))
  \/ (bound <= Json.depth_items dv /\ exists w', call q m w = Raised RecursionError w').

(** The content is a well-formed document with an empty object somewhere. *)
Definition restarting (m : JSONManager.t) : Prop :=
Json.wf_json (DictionaryManager.content m) = true /\
Json.has_empty_object (DictionaryManager.content m) = true.

(** A dictionary from which the walk reaches an empty object: it is empty
itself, or some key inside has the empty object as its value. *)
Definition reaches_empty (dv : dict json) : Prop :=
dv = [] \/ Json.has_empty_items dv = true.

(** A nested call that reaches an empty object exceeds the limit. *)
Definition call_restarts {T : Type} (call : list nat -> JSONManager.t -> M T JSONManager.t) : Prop :=
forall q m w dv,
  restarting m ->
  JSONManager.subdict q (DictionaryManager.content m) = Some dv ->
  reaches_empty dv ->
  exists w', call q m w = Raised RecursionError w'.

(** What [print_ending_messages] prints for a count of failed entries. *)
Definition ending_messages (not_translated_count : nat) : list string :=
String PyStr.newline "Translation completed." ::
(if 0 <? not_translated_count then
   [Colorama.Fore_YELLOW +:+ String PyStr.newline
      (NilZero.string_of_uint (Nat.to_uint not_translated_count) +:+
       " entries have not been translated." +:+ String PyStr.newline EmptyString)]
 else []).

(** An item of the content after its message string was handled. *)
Definition po_item (kv : string * POManager.value) (translation : option string)
  : string * POManager.value :=
(fst kv,
 POManager.mkValue (Catalog.resolve (POManager.msgstr (snd kv)) translation)
                   (POManager.occurrences (snd kv))).

(** The message of [check_source_file]. *)
Definition missing_source_message (source_file : string) : string :=
Colorama.Fore_RED +:+ "Error: " +:+ String PyStr.quote source_file +:+
String PyStr.quote " does not exist!".

(** The directory [Manager.__init__] keeps for an argument. *)
Definition resolved_directory {T : Type} (env : Environment T) (output_directory : string)
  : string :=
if negb (String.eqb output_directory EmptyString) && path_isdir env output_directory
then output_directory
else getcwd env.

(** ** [polyglot/arguments.py] *)

(** [ACTIONS] *)
Definition ACTIONS : list string :=
["translate"; "set_license"; "print_supported_languages"; "print_usage_info"].

(** [class Arguments], for a license manager of type [L]. *)
Module Arguments.

Record t (L : Type) : Type := mk {
action : string;
source_file : string;
target_lang : string;
output_directory : string;
source_lang : string;
license_manager : L
}.
Arguments mk {L}.
Arguments action {L}.
Arguments source_file {L}.
Arguments target_lang {L}.
Arguments output_directory {L}.
Arguments source_lang {L}.
Arguments license_manager {L}.

End Arguments.

Module CLIArgumentsCollector.

(** What [parse_args()] returns for the parser of [__set_parser]: the
action and the options, the empty string for an option that is not given. *)
Record Namespace : Type := mkNamespace {
action : string;
source_file : string;
target_lang : string;
output_directory : string;
source_lang : string
}.

(** The instance: [__namespace] and [arguments]. *)
Record t (L : Type) : Type := mk {
namespace : Namespace;
arguments : Arguments.t L
}.
Arguments mk {L}.
Arguments namespace {L}.
Arguments arguments {L}.

Section WithParser.
(** [self.__parser.parse_args()] and [license.CLILicenseManager()], whose
module is not part of the sources at hand. *)
Context {T L : Type} (parse_args : M T Namespace) (CLILicenseManager : M T L).

(** [CLIArgumentsCollector._collect_arguments] *)
Definition _collect_arguments : M T (t L) :=
namespace <- parse_args ;;
license_manager <- CLILicenseManager ;;
ret {| namespace := namespace;
       arguments :=
         {| Arguments.action := action namespace;
            Arguments.source_file := source_file namespace;
            Arguments.target_lang := target_lang namespace;
            Arguments.output_directory := output_directory namespace;
            Arguments.source_lang := source_lang namespace;
            Arguments.license_manager := license_manager |} |}.

(** [CLIArgumentsCollector._validate_arguments]; [parser.error] ends the
process with status 2. *)
Definition _validate_arguments (self : t L) : M T unit :=
if String.eqb (action (namespace self)) "translate"
   && (String.eqb (source_file (namespace self)) EmptyString
       || String.eqb (target_lang (namespace self)) EmptyString)
then os_exit 2%Z
else ret tt.

(** [ArgumentsCollector.__init__], as [CLIArgumentsCollector] inherits it. *)
Definition __init__ : M T (t L) :=
self <- _collect_arguments ;;
_validate_arguments self ;;;
ret self.

End WithParser.

End CLIArgumentsCollector.

(** ** The status checks of a document translation *)

Module Polling.

Section WithEnv.
Context {T : Type} (env : Environment T) (deepl : DeeplRequest)
  (document_id document_key : string).

(** The state of the service after [n] status checks from the state [t]. *)
Fixpoint after (n : nat) (t : T) : T :=
match n with
| O => t
| S n' => after n' (snd (check_document_status env deepl document_id document_key t))
end.

(** The answer to the status check that follows [n] earlier ones. *)
Definition answer (n : nat) (t : T) : StatusData :=
fst (check_document_status env deepl document_id document_key (after n t)).

(** The answer says that the document is ready. *)
Definition done (data : StatusData) : bool := String.eqb (status data) "done".

(** What [download_document_when_ready] prints for the first [n] answers
when none of them says that the document is ready. *)
Fixpoint remaining (n : nat) (t : T) : list string :=
match n with
| O => []
| S n' =>
    let checked := check_document_status env deepl document_id document_key t in
    match seconds_remaining (fst checked) with
    | Some seconds => ["Remaining " +:+ seconds +:+ " seconds..."]
    | None => []
    end ++ remaining n' (snd checked)
end.

End WithEnv.

End Polling.

(** ** A second instance

A document service that reports a document ready from a given number of
status checks on, or never, and sources that the managers cannot load. *)

Module Office.

Definition deepl : DeeplRequest := mkDeeplRequest "DE" None.

(** [numbers.json]: [[1, 2]] *)
Definition numbers : json := JList [JInt 1; JInt 2].

(** [menu.po]: two entries, the first one not translated yet. *)
Definition menu : Polib.POFile :=
Polib.mkPOFile [("Language", "en")]
  [ Polib.mkPOEntry "File" EmptyString (Some "menu") [("menu.c", "4")];
    Polib.mkPOEntry "Edit" "Bearbeiten" None [] ].

(** The state of the service is the number of status checks so far. *)
Definition check (ready : option nat) (checks : nat) : StatusData * nat :=
(match ready with
 | Some n =>
     if n <=? checks then mkStatusData "done" None "120"
     else mkStatusData "translating" (Some "20") "0"
 | None => mkStatusData "queued" None "0"
 end, S checks).

Definition env (ready : option nat) : Environment nat :=
{| path_exists := fun p =>
     String.eqb p "report.docx" || String.eqb p "numbers.json" ||
     String.eqb p "cut.json" || String.eqb p "cut.po" || String.eqb p "hello.txt" ||
     String.eqb p "menu.po";
   path_isdir := fun p => String.eqb p "out";
   getcwd := "/home/user";
   read_text := fun p =>
     if String.eqb p "numbers.json" then Some "[1, 2]"
     else if String.eqb p "cut.json" then Some "{"
     else if String.eqb p "hello.txt" then Some "hello"
     else None;
   json_loads := fun text => if String.eqb text "[1, 2]" then Some numbers else None;
   polib_pofile := fun p => if String.eqb p "menu.po" then Some menu else None;
   new_request := fun target source =>
     mkDeeplRequest (match target with Some t => t | None => EmptyString end) source;
   translate := fun _ value t =>
     (match value with
      | JStr s =>
          if String.eqb s "hello" then Some "hallo"
          else if String.eqb s "File" then Some "Datei"
          else None
      | _ => None
      end, t);
   translate_document := fun _ _ t => (("id", "key"), t);
   check_document_status := fun _ _ _ => check ready;
   download_translated_document := fun _ _ _ t => ([Byte.x50; Byte.x4b], t);
   print_supported_languages := fun _ => ret tt;
   print_usage_info := fun _ => ret tt;
   set_key := fun _ => ret tt |}.

(** [plain.json]: [{"title": "Report", "pages": {"count": 12}}] *)
Definition plain : json :=
JDict [("title", JStr "Report"); ("pages", JDict [("count", JInt 12)])].

(** A file system with [plain.json] and a service that translates nothing. *)
Definition silent : Environment nat :=
{| path_exists := fun p => String.eqb p "plain.json";
   path_isdir := fun p => String.eqb p "out";
   getcwd := "/home/user";
   read_text := fun p =>
     if String.eqb p "plain.json" then Some (JsonDumps.dumps plain 2) else None;
   json_loads := fun text =>
     if String.eqb text (JsonDumps.dumps plain 2) then Some plain else None;
   polib_pofile := fun _ => None;
   new_request := fun target source =>
     mkDeeplRequest (match target with Some t => t | None => EmptyString end) source;
   translate := fun _ _ t => (None, S t);
   translate_document := fun _ _ t => (("id", "key"), t);
   check_document_status := fun _ _ _ => check None;
   download_translated_document := fun _ _ _ t => ([], t);
   print_supported_languages := fun _ => ret tt;
   print_usage_info := fun _ => ret tt;
   set_key := fun _ => ret tt |}.

Definition world : World nat := mkWorld [] [] 0.

End Office.

(** * Properties *)

(** ** Strings and paths *)

Lemma PyStr_append_empty (s : string) : s +:+ EmptyString = s.
Proof.
  induction s as [|c r IH]; [reflexivity|].
  change (String c (r +:+ EmptyString) = String c r). now rewrite IH.
Qed.

Lemma PyStr_take_drop (n : nat) (s : string) : PyStr.take n s +:+ PyStr.drop n s = s.
Proof.
  revert s; induction n as [|n IH]; intros [|c r]; try reflexivity.
  change (String c (PyStr.take n r +:+ PyStr.drop n r) = String c r).
  f_equal. apply IH.
Qed.

Lemma splitext_join (p : string) :
  fst (OsPath.splitext p) +:+ snd (OsPath.splitext p) = p.
Proof.
  unfold OsPath.splitext.
  destruct (_ <? _)%Z; simpl.
  - destruct (OsPath.skip_leading_dots _ _ _); simpl.
    + apply PyStr_take_drop.
    + apply PyStr_append_empty.
  - apply PyStr_append_empty.
Qed.

Example splitext_json : OsPath.splitext "locales/en.json" = ("locales/en", ".json").
Proof. reflexivity. Qed.

Example splitext_hidden : OsPath.splitext "dir.d/.bashrc" = ("dir.d/.bashrc", EmptyString).
Proof. reflexivity. Qed.

Example lower_lang : PyStr.lower "EN-GB" = "en-gb".
Proof. reflexivity. Qed.

Example dumps_greeting :
  JsonDumps.dumps (JDict [("greeting", JStr "ciao"); ("menu", JDict [("open", JStr "apri")])]) 2
  = "{" +:+ String PyStr.newline
    ("  " +:+ JsonDumps.encode_str "greeting" +:+ ": " +:+ JsonDumps.encode_str "ciao" +:+ "," +:+
     String PyStr.newline
    ("  " +:+ JsonDumps.encode_str "menu" +:+ ": {" +:+ String PyStr.newline
    ("    " +:+ JsonDumps.encode_str "open" +:+ ": " +:+ JsonDumps.encode_str "apri" +:+
     String PyStr.newline
    ("  }" +:+ String PyStr.newline "}")))).
Proof. reflexivity. Qed.

(** ** Documents *)

(** Induction on a document: a leaf, or a mapping whose values have the
property. *)
Lemma json_dict_ind (P : json -> Prop)
  (Hleaf : forall v, isinstance_dict v = false -> P v)
  (Hdict : forall d, Forall (fun kv => P (snd kv)) d -> P (JDict d)) :
  forall v, P v.
Proof.
  fix IH 1. intros [ | b | n | text | s | l | d];
    try (apply Hleaf; reflexivity).
  apply Hdict. induction d as [|[k v] d IHd]; constructor.
  - apply IH.
  - exact IHd.
Qed.

Lemma leaves_dict (d : dict json) : Json.leaves (JDict d) = Json.leaves_items d.
Proof.
  unfold Json.leaves_items. induction d as [|[k v] d IH]; [reflexivity|].
  simpl in *. now rewrite IH.
Qed.

Lemma leaves_leaf (v : json) : isinstance_dict v = false -> Json.leaves v = [v].
Proof. destruct v; simpl; congruence. Qed.

Lemma shape_dict (d : dict json) : Json.shape (JDict d) = JDict (Json.shape_items d).
Proof.
  unfold Json.shape_items. induction d as [|[k v] d IH]; [reflexivity|].
  simpl in *. injection IH as IH. now rewrite IH.
Qed.

Lemma shape_leaf (v : json) : isinstance_dict v = false -> Json.shape v = JNull.
Proof. destruct v; simpl; congruence. Qed.

Lemma depth_dict (d : dict json) : Json.depth (JDict d) = S (Json.depth_items d).
Proof.
  unfold Json.depth_items. induction d as [|[k v] d IH]; [reflexivity|].
  simpl in *. injection IH as IH. now rewrite IH.
Qed.

Lemma has_empty_dict (d : dict json) :
  Json.has_empty_object (JDict d) = Json.has_empty_items d.
Proof.
  unfold Json.has_empty_items. induction d as [|[k v] d IH]; [reflexivity|].
  simpl in *. rewrite IH. destruct v as [ | | | | | |[|kv d']]; reflexivity.
Qed.

Lemma wf_dict (d : dict json) :
  Json.wf_json (JDict d) = bool_decide (NoDup (keys d)) && Json.wf_items d.
Proof.
  unfold Json.wf_items, keys. simpl. f_equal.
  induction d as [|[k v] d IH]; [reflexivity|]. simpl. now rewrite IH.
Qed.

Lemma traverse_dict {S : Type} (step : json -> S -> json * S) (d : dict json) (s : S) :
  Walk.traverse step (JDict d) s =
  (JDict (fst (Walk.traverse_items step d s)), snd (Walk.traverse_items step d s)).
Proof.
  simpl.
  match goal with |- (let '(_, _) := ?f d s in _) = _ =>
    assert (E : forall l s, f l s = Walk.traverse_items step l s) end.
  { clear. induction l as [|[k v] l IH]; intros s; [reflexivity|].
    simpl. destruct (Walk.traverse step v s) as [v' s1]. now rewrite IH. }
  rewrite E. now destruct (Walk.traverse_items step d s).
Qed.

Lemma traverse_leaf {S : Type} (step : json -> S -> json * S) (v : json) (s : S) :
  isinstance_dict v = false -> Walk.traverse step v s = step v s.
Proof. destruct v; simpl; congruence. Qed.

(** ** The counting pass *)

Lemma count_unfold (limit : nat) (content : json) (dictionary : option (dict json)) :
  JSONManager.get_number_of_translations (S limit) content dictionary =
  match JSONManager.count_argument content dictionary with
  | JDict d =>
      JSONManager.count_items (fun d' => JSONManager.get_number_of_translations limit content (Some d')) d 0
  | _ => inl AttributeError
  end.
Proof. reflexivity. Qed.

Lemma has_empty_items_cons (k : string) (v : json) (l : dict json) :
  Json.has_empty_items ((k, v) :: l) = false ->
  Json.has_empty_items l = false /\
  (forall d, v = JDict d -> d <> [] /\ Json.has_empty_items d = false).
Proof.
  unfold Json.has_empty_items at 1. simpl. intros H.
  apply orb_false_iff in H as [Hv Hl]. split; [exact Hl|].
  intros d ->. destruct d as [|kv d]; [discriminate|].
  split; [discriminate|]. now rewrite <- has_empty_dict.
Qed.

Lemma depth_items_cons (k : string) (v : json) (l : dict json) :
  Json.depth_items ((k, v) :: l) = Nat.max (Json.depth v) (Json.depth_items l).
Proof. reflexivity. Qed.

Lemma leaves_items_cons (k : string) (v : json) (l : dict json) :
  Json.leaves_items ((k, v) :: l) = Json.leaves v ++ Json.leaves_items l.
Proof. reflexivity. Qed.

Lemma count_items_good (call : dict json -> exception + nat) (bound : nat) :
  (forall d, d <> [] -> Json.has_empty_items d = false -> Json.depth_items d < bound ->
             call d = inr (length (Json.leaves_items d))) ->
  forall l number,
    Json.has_empty_items l = false -> Json.depth_items l <= bound ->
    JSONManager.count_items call l number = inr (number + length (Json.leaves_items l)).
Proof.
  intros Hcall. induction l as [|[k v] l IH]; intros number He Hd.
  - simpl. f_equal. unfold Json.leaves_items. simpl. lia.
  - apply has_empty_items_cons in He as [Hl Hv].
    rewrite depth_items_cons in Hd. rewrite leaves_items_cons, length_app.
    destruct (isinstance_dict v) eqn:Ev.
    + destruct v as [ | | | | | |d]; try discriminate.
      destruct (Hv d eq_refl) as [Hne Hed].
      rewrite depth_dict in Hd. rewrite leaves_dict.
      change (JSONManager.count_items call ((k, JDict d) :: l) number)
        with (match call d with
              | inr n => JSONManager.count_items call l (number + n)
              | inl e => inl e
              end).
      rewrite (Hcall d Hne Hed) by lia.
      rewrite IH by (trivial; lia). f_equal. lia.
    + rewrite (leaves_leaf v Ev).
      transitivity (JSONManager.count_items call l (number + 1)).
      { destruct v; try reflexivity; discriminate. }
      rewrite IH by (trivial; lia). simpl. f_equal. lia.
Qed.

(** On a dictionary that is not empty and has no empty object inside, the
count is the number of leaves, for a limit above the nesting depth. *)
Lemma count_good (content : json) (limit : nat) (d : dict json) :
  d <> [] -> Json.has_empty_items d = false -> Json.depth_items d < limit ->
  JSONManager.get_number_of_translations limit content (Some d) =
  inr (length (Json.leaves_items d)).
Proof.
  revert d. induction limit as [|limit IH]; intros d Hne He Hd; [lia|].
  rewrite count_unfold.
  assert (JSONManager.count_argument content (Some d) = JDict d) as ->
    by (destruct d; [congruence|reflexivity]).
  rewrite (count_items_good _ limit); [reflexivity|exact IH|assumption|lia].
Qed.

Lemma count_good_root (limit : nat) (d : dict json) :
  Json.has_empty_items d = false -> Json.depth_items d < limit ->
  JSONManager.get_number_of_translations limit (JDict d) None =
  inr (length (Json.leaves_items d)).
Proof.
  intros He Hd. destruct limit as [|limit]; [lia|].
  rewrite count_unfold. unfold JSONManager.count_argument.
  rewrite (count_items_good _ limit); [reflexivity| |assumption|lia].
  intros d' H1 H2 H3. now apply count_good.
Qed.

Lemma count_items_outcome (call : dict json -> exception + nat) :
  (forall d, (exists n, call d = inr n) \/ call d = inl RecursionError) ->
  forall l number,
    (exists n, JSONManager.count_items call l number = inr n) \/
    JSONManager.count_items call l number = inl RecursionError.
Proof.
  intros Hcall. induction l as [|[k v] l IH]; intros number.
  - left. now exists number.
  - destruct v as [ | | | | | |d]; try apply IH.
    simpl. destruct (Hcall d) as [[n ->] | ->]; [apply IH | now right].
Qed.

(** With a mapping as content the counting pass returns a number or exceeds
the recursion limit; nothing else is raised. *)
Lemma count_outcome (d0 : dict json) (limit : nat) (dictionary : option (dict json)) :
  (exists n, JSONManager.get_number_of_translations limit (JDict d0) dictionary = inr n) \/
  JSONManager.get_number_of_translations limit (JDict d0) dictionary = inl RecursionError.
Proof.
  revert dictionary. induction limit as [|limit IH]; intros dictionary; [now right|].
  rewrite count_unfold.
  assert (exists d, JSONManager.count_argument (JDict d0) dictionary = JDict d) as [d ->].
  { destruct dictionary as [[|kv d]|]; simpl; eauto. }
  apply count_items_outcome. intros d'. apply IH.
Qed.

Lemma has_empty_items_cons_true (k : string) (v : json) (l : dict json) :
  Json.has_empty_items ((k, v) :: l) = true ->
  (exists d, v = JDict d /\ (d = [] \/ Json.has_empty_items d = true)) \/
  Json.has_empty_items l = true.
Proof.
  unfold Json.has_empty_items at 1. simpl. intros H.
  apply orb_true_iff in H as [Hv | Hl]; [left | now right].
  destruct v as [ | | | | | |d]; try discriminate.
  exists d. split; [reflexivity|].
  destruct d as [|kv d]; [now left | right]. now rewrite <- has_empty_dict.
Qed.

Lemma count_items_bad (call : dict json -> exception + nat) :
  (forall d, (exists n, call d = inr n) \/ call d = inl RecursionError) ->
  (forall d, d = [] \/ Json.has_empty_items d = true -> call d = inl RecursionError) ->
  forall l number,
    Json.has_empty_items l = true -> JSONManager.count_items call l number = inl RecursionError.
Proof.
  intros Hcall Hbad. induction l as [|[k v] l IH]; intros number He; [discriminate|].
  apply has_empty_items_cons_true in He as [(d & -> & Hd) | Hl].
  - simpl. now rewrite (Hbad d Hd).
  - destruct v as [ | | | | | |d]; try (apply IH; exact Hl).
    simpl. destruct (Hcall d) as [[n ->] | ->]; [now apply IH | reflexivity].
Qed.

(** The counting pass on a document with an empty object: whatever the
recursion limit, the call for the root, for an empty dictionary or for a
dictionary with an empty object inside exceeds it. *)
Lemma count_diverges (d0 : dict json) :
  Json.has_empty_items d0 = true ->
  forall limit dictionary,
    (dictionary = None \/
     exists d, dictionary = Some d /\ (d = [] \/ Json.has_empty_items d = true)) ->
    JSONManager.get_number_of_translations limit (JDict d0) dictionary = inl RecursionError.
Proof.
  intros H0. induction limit as [|limit IH]; intros dictionary Harg; [reflexivity|].
  rewrite count_unfold.
  assert (exists d, JSONManager.count_argument (JDict d0) dictionary = JDict d /\
                    Json.has_empty_items d = true) as (d & -> & Hd).
  { destruct Harg as [-> | (d & -> & [-> | Hd])]; simpl; eauto.
    destruct d as [|kv d]; simpl; eauto. }
  apply count_items_bad; [intros d'; apply count_outcome | | exact Hd].
  intros d' Hd'. apply IH. right. eauto.
Qed.

(** ** Dictionaries inside the content *)

Lemma subdict_root (d : dict json) : JSONManager.subdict [] (JDict d) = Some d.
Proof. reflexivity. Qed.

Lemma subdict_cons (i : nat) (p : list nat) (d : dict json) :
  JSONManager.subdict (i :: p) (JDict d) =
  match d !! i with
  | Some (_, value) => JSONManager.subdict p value
  | None => None
  end.
Proof. reflexivity. Qed.

Lemma alter_at_cons (f : dict json -> dict json) (i : nat) (p : list nat) (d : dict json) :
  JSONManager.alter_at f (i :: p) (JDict d) =
  match d !! i with
  | Some (key, value) => JDict (<[i := (key, JSONManager.alter_at f p value)]> d)
  | None => JDict d
  end.
Proof. reflexivity. Qed.

Lemma alter_at_put (f : dict json -> dict json) (p : list nat) :
  forall c d, JSONManager.subdict p c = Some d -> JSONManager.alter_at f p c = put p (f d) c.
Proof.
  unfold put. induction p as [|i p IH]; intros c d H;
    destruct c as [ | | | | | |d0]; try discriminate; simpl in *.
  - now injection H as ->.
  - destruct (d0 !! i) as [[k v]|] eqn:E; [|discriminate].
    now rewrite (IH v d H).
Qed.

Lemma subdict_put (p : list nat) (d1 : dict json) :
  forall c d, JSONManager.subdict p c = Some d ->
              JSONManager.subdict p (put p d1 c) = Some d1.
Proof.
  unfold put. induction p as [|i p IH]; intros c d H;
    destruct c as [ | | | | | |d0]; try discriminate; simpl in *.
  - reflexivity.
  - destruct (d0 !! i) as [[k v]|] eqn:E; [|discriminate].
    simpl. rewrite list_lookup_insert_eq by (eapply lookup_lt_Some; exact E).
    now apply (IH v d).
Qed.

Lemma put_put (p : list nat) (d1 d2 : dict json) :
  forall c d, JSONManager.subdict p c = Some d -> put p d2 (put p d1 c) = put p d2 c.
Proof.
  unfold put. induction p as [|i p IH]; intros c d H;
    destruct c as [ | | | | | |d0]; try discriminate; simpl in *.
  - reflexivity.
  - destruct (d0 !! i) as [[k v]|] eqn:E; [|discriminate].
    simpl. rewrite list_lookup_insert_eq by (eapply lookup_lt_Some; exact E).
    rewrite list_insert_insert_eq. now rewrite (IH v d H).
Qed.

Lemma put_id (p : list nat) :
  forall c d, JSONManager.subdict p c = Some d -> put p d c = c.
Proof.
  unfold put. induction p as [|i p IH]; intros c d H;
    destruct c as [ | | | | | |d0]; try discriminate; simpl in *.
  - now injection H as ->.
  - destruct (d0 !! i) as [[k v]|] eqn:E; [|discriminate].
    rewrite (IH v d H). now rewrite list_insert_id.
Qed.

Lemma subdict_snoc (p : list nat) (i : nat) (k : string) (dv : dict json) :
  forall c d, JSONManager.subdict p c = Some d -> d !! i = Some (k, JDict dv) ->
              JSONManager.subdict (p ++ [i]) c = Some dv.
Proof.
  induction p as [|j p IH]; intros c d H Hi;
    destruct c as [ | | | | | |d0]; try discriminate.
  - rewrite subdict_root in H. injection H as ->. change ([] ++ [i]) with [i].
    now rewrite subdict_cons, Hi.
  - change ((j :: p) ++ [i]) with (j :: (p ++ [i])).
    rewrite subdict_cons in H. rewrite subdict_cons.
    destruct (d0 !! j) as [[k' v]|] eqn:E; [|discriminate].
    now apply (IH v d).
Qed.

Lemma put_snoc (p : list nat) (i : nat) (k : string) (dv dv' : dict json) :
  forall c d, JSONManager.subdict p c = Some d -> d !! i = Some (k, JDict dv) ->
              put (p ++ [i]) dv' c = put p (<[i := (k, JDict dv')]> d) c.
Proof.
  unfold put. induction p as [|j p IH]; intros c d H Hi;
    destruct c as [ | | | | | |d0]; try discriminate.
  - rewrite subdict_root in H. injection H as ->. change ([] ++ [i]) with [i].
    now rewrite alter_at_cons, Hi.
  - change ((j :: p) ++ [i]) with (j :: (p ++ [i])).
    rewrite subdict_cons in H. rewrite !alter_at_cons.
    destruct (d0 !! j) as [[k' v]|] eqn:E; [|discriminate].
    now rewrite (IH v d H Hi).
Qed.

Lemma shape_items_insert (d : dict json) (i : nat) (k : string) (v v' : json) :
  d !! i = Some (k, v) -> Json.shape v' = Json.shape v ->
  Json.shape_items (<[i := (k, v')]> d) = Json.shape_items d.
Proof.
  unfold Json.shape_items. intros Hi Hs.
  rewrite list_fmap_insert. simpl. rewrite Hs.
  apply list_insert_id. rewrite list_lookup_fmap, Hi. reflexivity.
Qed.

Lemma shape_put (p : list nat) (d' : dict json) :
  forall c d, JSONManager.subdict p c = Some d ->
              Json.shape_items d' = Json.shape_items d ->
              Json.shape (put p d' c) = Json.shape c.
Proof.
  unfold put. induction p as [|i p IH]; intros c d H Hs;
    destruct c as [ | | | | | |d0]; try discriminate; simpl JSONManager.alter_at;
    simpl in H.
  - injection H as ->. now rewrite !shape_dict, Hs.
  - destruct (d0 !! i) as [[k v]|] eqn:E; [|discriminate].
    rewrite !shape_dict. f_equal.
    apply (shape_items_insert d0 i k v); [exact E|]. now apply (IH v d).
Qed.

(** ** The translation pass over a document *)

Lemma tc_unfold {T : Type} (env : Environment T) (limit : nat)
  (dictionary : option (list nat)) (self : JSONManager.t) :
  JSONManager.translate_content env (S limit) dictionary self =
  match JSONManager.subdict (JSONManager.tc_argument (DictionaryManager.content self) dictionary)
          (DictionaryManager.content self) with
  | None => raise AttributeError
  | Some d =>
      JSONManager.translate_items env (fun p => JSONManager.translate_content env limit (Some p))
        (JSONManager.tc_argument (DictionaryManager.content self) dictionary) (length d) 0 self
  end.
Proof. reflexivity. Qed.

Lemma tc_default {T : Type} (env : Environment T) (limit : nat) (self : JSONManager.t) :
  JSONManager.translate_content env limit None self =
  JSONManager.translate_content env limit (Some []) self.
Proof.
  destruct limit as [|limit]; [reflexivity|]. rewrite !tc_unfold.
  assert (JSONManager.tc_argument (DictionaryManager.content self) (Some []) = []) as ->; [|reflexivity].
  unfold JSONManager.tc_argument. now destruct (JSONManager.subdict _ _) as [[|? ?]|].
Qed.

Lemma translate_and_handle_json {T : Type} (env : Environment T) (value : json)
  (self : JSONManager.t) (w : World T) :
  DictionaryManager.translate_and_handle env (fun v => v) JStr value self w =
  let translation :=
    translate env (Manager.deepl (DictionaryManager.base self)) value (api w) in
  Returned (Walk.resolve value (fst translation), Walk.handled self (fst translation))
           (mkWorld (stdout w) (files w) (snd translation)).
Proof.
  unfold DictionaryManager.translate_and_handle, bind, call_api, ret, Walk.handled.
  destruct (translate env _ value (api w)) as [translation t']. simpl.
  destruct translation as [s|]; reflexivity.
Qed.

Lemma resolve_leaf (value : json) (translation : option string) :
  isinstance_dict value = false -> isinstance_dict (Walk.resolve value translation) = false.
Proof.
  intros H. destruct translation as [s|]; simpl; [|exact H].
  now destruct (PyStr.truthy s).
Qed.

Lemma set_content_content {C : Type} (self : DictionaryManager.t C) :
  DictionaryManager.set_content self (DictionaryManager.content self) = self.
Proof. now destruct self. Qed.

Lemma set_content_twice {C : Type} (self : DictionaryManager.t C) (c1 c2 : C) :
  DictionaryManager.set_content (DictionaryManager.set_content self c1) c2 =
  DictionaryManager.set_content self c2.
Proof. reflexivity. Qed.

Lemma leaf_step_set_content {T : Type} (env : Environment T) (value : json)
  (self : JSONManager.t) (c : json) (w : World T) :
  Walk.leaf_step env value (DictionaryManager.set_content self c, w) =
  (fst (Walk.leaf_step env value (self, w)),
   (DictionaryManager.set_content (fst (snd (Walk.leaf_step env value (self, w)))) c,
    snd (snd (Walk.leaf_step env value (self, w))))).
Proof.
  unfold Walk.leaf_step, Walk.handled. simpl.
  destruct (negb _); reflexivity.
Qed.

(** ** The walk as a function: general facts *)

Section WalkFacts.
Context {S : Type} (step : json -> S -> json * S).

Lemma traverse_items_cons (k : string) (v : json) (r : dict json) (s : S) :
  Walk.traverse_items step ((k, v) :: r) s =
  ((k, fst (Walk.traverse step v s)) ::
     fst (Walk.traverse_items step r (snd (Walk.traverse step v s))),
   snd (Walk.traverse_items step r (snd (Walk.traverse step v s)))).
Proof.
  simpl. destruct (Walk.traverse step v s) as [v' s1]. simpl.
  now destruct (Walk.traverse_items step r s1).
Qed.

Lemma run_cons (x : json) (r : list json) (s : S) :
  Walk.run step (x :: r) s =
  (fst (step x s) :: fst (Walk.run step r (snd (step x s))),
   snd (Walk.run step r (snd (step x s)))).
Proof.
  simpl. destruct (step x s) as [x' s1]. simpl. now destruct (Walk.run step r s1).
Qed.

Lemma run_app (a b : list json) (s : S) :
  Walk.run step (a ++ b) s =
  (fst (Walk.run step a s) ++ fst (Walk.run step b (snd (Walk.run step a s))),
   snd (Walk.run step b (snd (Walk.run step a s)))).
Proof.
  revert s. induction a as [|x a IH]; intros s.
  - simpl. now destruct (Walk.run step b s).
  - change ((x :: a) ++ b) with (x :: (a ++ b)). rewrite !run_cons, IH. reflexivity.
Qed.

(** A change [g] of the state that [step] does not see goes through the
walk. *)
Lemma traverse_commute (g : S -> S) :
  (forall v s, step v (g s) = (fst (step v s), g (snd (step v s)))) ->
  forall v s, Walk.traverse step v (g s) =
              (fst (Walk.traverse step v s), g (snd (Walk.traverse step v s))).
Proof.
  intros Hg. induction v as [v Hv | d IH] using json_dict_ind; intros s.
  - rewrite !traverse_leaf by exact Hv. apply Hg.
  - rewrite !traverse_dict. simpl.
    enough (Walk.traverse_items step d (g s) =
            (fst (Walk.traverse_items step d s), g (snd (Walk.traverse_items step d s))))
      as -> by reflexivity.
    revert s. induction IH as [|[k v] d Hv _ IHd]; intros s; [reflexivity|].
    rewrite !traverse_items_cons. simpl in Hv. rewrite Hv. simpl. now rewrite IHd.
Qed.

Lemma traverse_items_commute (g : S -> S) :
  (forall v s, step v (g s) = (fst (step v s), g (snd (step v s)))) ->
  forall d s, Walk.traverse_items step d (g s) =
              (fst (Walk.traverse_items step d s), g (snd (Walk.traverse_items step d s))).
Proof.
  intros Hg d s. pose proof (traverse_commute g Hg (JDict d) s) as H.
  rewrite !traverse_dict in H. simpl in H. injection H as H1 H2.
  now rewrite <- H1, <- H2, <- surjective_pairing.
Qed.

Hypothesis step_leaf :
  forall v s, isinstance_dict v = false -> isinstance_dict (fst (step v s)) = false.

Lemma traverse_shape (v : json) :
  forall s, Json.shape (fst (Walk.traverse step v s)) = Json.shape v.
Proof.
  induction v as [v Hv | d IH] using json_dict_ind; intros s.
  - rewrite traverse_leaf by exact Hv.
    now rewrite !shape_leaf by auto.
  - rewrite traverse_dict. simpl fst. rewrite !shape_dict. f_equal.
    revert s. induction IH as [|[k v] d Hv _ IHd]; intros s; [reflexivity|].
    rewrite traverse_items_cons. simpl fst.
    change (Json.shape_items ((k, v) :: d)) with ((k, Json.shape v) :: Json.shape_items d).
    simpl in Hv.
    rewrite <- (Hv s), <- (IHd (snd (Walk.traverse step v s))). reflexivity.
Qed.

Lemma traverse_items_shape (d : dict json) (s : S) :
  Json.shape_items (fst (Walk.traverse_items step d s)) = Json.shape_items d.
Proof.
  pose proof (traverse_shape (JDict d) s) as H.
  rewrite traverse_dict in H. simpl fst in H. rewrite !shape_dict in H.
  now injection H.
Qed.

(** The leaves after the walk are what [step] returns along the leaves
before it, and the state is the one [step] leaves. *)
Lemma traverse_run (v : json) :
  forall s, (Json.leaves (fst (Walk.traverse step v s)), snd (Walk.traverse step v s)) =
            Walk.run step (Json.leaves v) s.
Proof.
  induction v as [v Hv | d IH] using json_dict_ind; intros s.
  - rewrite traverse_leaf by exact Hv.
    rewrite !leaves_leaf by auto. rewrite run_cons. reflexivity.
  - rewrite traverse_dict. simpl fst. simpl snd. rewrite !leaves_dict.
    revert s. induction IH as [|[k v] d Hv _ IHd]; intros s; [reflexivity|].
    rewrite traverse_items_cons. simpl fst. simpl snd.
    rewrite !leaves_items_cons, run_app.
    simpl in Hv. rewrite <- Hv. simpl fst. simpl snd. now rewrite <- IHd.
Qed.

Lemma traverse_items_run (d : dict json) (s : S) :
  (Json.leaves_items (fst (Walk.traverse_items step d s)),
   snd (Walk.traverse_items step d s)) =
  Walk.run step (Json.leaves_items d) s.
Proof.
  pose proof (traverse_run (JDict d) s) as H.
  rewrite traverse_dict in H. simpl fst in H. simpl snd in H.
  now rewrite !leaves_dict in H.
Qed.

End WalkFacts.

(** ** Assignments to the keys of a dictionary *)

Lemma keys_app {V : Type} (a b : dict V) : keys (a ++ b) = keys a ++ keys b.
Proof. unfold keys. apply map_app. Qed.

Lemma dict_set_fresh {V : Type} (k : string) (v x : V) (done todo : dict V) :
  k ∉ keys done ->
  dict_set k x (done ++ (k, v) :: todo) = done ++ (k, x) :: todo.
Proof.
  induction done as [|[k' v'] done IH]; intros Hk; simpl.
  - now rewrite String.eqb_refl.
  - unfold keys in Hk. simpl in Hk. apply not_elem_of_cons in Hk as [Hne Hk].
    destruct (String.eqb_spec k k') as [->|_]; [congruence|].
    now rewrite IH.
Qed.

Lemma NoDup_keys_middle {V : Type} (k : string) (v : V) (done todo : dict V) :
  NoDup (keys (done ++ (k, v) :: todo)) -> k ∉ keys done.
Proof.
  rewrite keys_app. intros H Hk. apply NoDup_app in H as (_ & H & _).
  apply (H k Hk). unfold keys. simpl. left.
Qed.

Lemma keys_middle {V : Type} (k : string) (v x : V) (done todo : dict V) :
  keys (done ++ (k, x) :: todo) = keys (done ++ (k, v) :: todo).
Proof. now rewrite !keys_app. Qed.

Lemma insert_middle {A : Type} (done todo : list A) (x y : A) :
  <[length done := x]> (done ++ y :: todo) = done ++ x :: todo.
Proof.
  rewrite insert_app_r_alt by lia. now rewrite Nat.sub_diag.
Qed.

Lemma wf_items_cons (k : string) (v : json) (l : dict json) :
  Json.wf_items ((k, v) :: l) = Json.wf_json v && Json.wf_items l.
Proof. reflexivity. Qed.

Lemma tc_items_dict {T : Type} (env : Environment T)
  (call : list nat -> JSONManager.t -> M T JSONManager.t) (dictionary : list nat)
  (todo i : nat) (self : JSONManager.t) (w : World T)
  (d : dict json) (key : string) (dv : dict json) :
  JSONManager.subdict dictionary (DictionaryManager.content self) = Some d ->
  d !! i = Some (key, JDict dv) ->
  JSONManager.translate_items env call dictionary (S todo) i self w =
  match call (dictionary ++ [i]) self w with
  | Returned self' w' => JSONManager.translate_items env call dictionary todo (S i) self' w'
  | Exited status w' => Exited status w'
  | Raised e w' => Raised e w'
  end.
Proof.
  intros Hd Hi. unfold JSONManager.translate_items at 1. rewrite Hd, Hi. reflexivity.
Qed.

Lemma tc_items_leaf {T : Type} (env : Environment T)
  (call : list nat -> JSONManager.t -> M T JSONManager.t) (dictionary : list nat)
  (todo i : nat) (self : JSONManager.t) (w : World T)
  (d : dict json) (key : string) (value : json) :
  JSONManager.subdict dictionary (DictionaryManager.content self) = Some d ->
  d !! i = Some (key, value) ->
  isinstance_dict value = false ->
  JSONManager.translate_items env call dictionary (S todo) i self w =
  let translation :=
    translate env (Manager.deepl (DictionaryManager.base self)) value (api w) in
  JSONManager.translate_items env call dictionary todo (S i)
    (DictionaryManager.count_and_update
       (DictionaryManager.set_content (Walk.handled self (fst translation))
          (JSONManager.alter_at
             (dict_set key (Walk.resolve value (fst translation))) dictionary
             (DictionaryManager.content self))))
    (mkWorld (stdout w) (files w) (snd translation)).
Proof.
  intros Hd Hi Hv. unfold JSONManager.translate_items at 1. rewrite Hd, Hi, Hv.
  unfold bind at 1. rewrite translate_and_handle_json. simpl.
  unfold Walk.handled. destruct (negb _); reflexivity.
Qed.

Lemma app_snoc {A : Type} (done todo : list A) (x : A) :
  (done ++ [x]) ++ todo = done ++ x :: todo.
Proof. now rewrite <- app_assoc. Qed.

Lemma length_snoc {A : Type} (done : list A) (x : A) :
  length (done ++ [x]) = S (length done).
Proof. rewrite length_app. simpl. lia. Qed.

Lemma leaf_step_eq {T : Type} (env : Environment T) (v : json) (ms : JSONManager.t)
  (w : World T) :
  Walk.leaf_step env v (ms, w) =
  (Walk.resolve v (fst (translate env (Manager.deepl (DictionaryManager.base ms)) v (api w))),
   (DictionaryManager.count_and_update
      (Walk.handled ms
         (fst (translate env (Manager.deepl (DictionaryManager.base ms)) v (api w)))),
    mkWorld (stdout w) (files w)
      (snd (translate env (Manager.deepl (DictionaryManager.base ms)) v (api w))))).
Proof. reflexivity. Qed.

Lemma handled_set_content (ms : JSONManager.t) (c c' : json) (t : option string) :
  DictionaryManager.count_and_update
    (DictionaryManager.set_content (Walk.handled (DictionaryManager.set_content ms c) t) c') =
  DictionaryManager.set_content (DictionaryManager.count_and_update (Walk.handled ms t)) c'.
Proof. unfold Walk.handled. destruct (negb _); reflexivity. Qed.

(** ** The translation pass on dictionaries without empty objects *)

Section TranslateGood.
Context {T : Type} (env : Environment T).

Lemma leaf_step_with_content (c : json) (v : json) (s : JSONManager.t * World T) :
  Walk.leaf_step env v (with_content c s) =
  (fst (Walk.leaf_step env v s), with_content c (snd (Walk.leaf_step env v s))).
Proof.
  destruct s as [self w]. unfold with_content. simpl fst. simpl snd.
  apply leaf_step_set_content.
Qed.

Lemma leaf_step_leaf (v : json) (s : JSONManager.t * World T) :
  isinstance_dict v = false -> isinstance_dict (fst (Walk.leaf_step env v s)) = false.
Proof. intros H. unfold Walk.leaf_step. simpl. now apply resolve_leaf. Qed.

Lemma tc_items_good (bound : nat)
  (call : list nat -> JSONManager.t -> M T JSONManager.t) (p : list nat) (c0 : json)
  (dorig : dict json) :
  call_spec env bound call ->
  JSONManager.subdict p c0 = Some dorig ->
  forall todo done ms w,
    NoDup (keys (done ++ todo)) ->
    Json.wf_items todo = true ->
    Json.has_empty_items todo = false ->
    JSONManager.translate_items env call p (length todo) (length done)
      (DictionaryManager.set_content ms (put p (done ++ todo) c0)) w =
      Returned
        (DictionaryManager.set_content
           (fst (snd (Walk.traverse_items (Walk.leaf_step env) todo (ms, w))))
           (put p (done ++ fst (Walk.traverse_items (Walk.leaf_step env) todo (ms, w))) c0))
        (snd (snd (Walk.traverse_items (Walk.leaf_step env) todo (ms, w))))
    \/ (bound < Json.depth_items todo /\
        exists w', JSONManager.translate_items env call p (length todo) (length done)
                     (DictionaryManager.set_content ms (put p (done ++ todo) c0)) w =
                   Raised RecursionError w').
Proof.
  intros Hcall Hp. induction todo as [|[k v] todo IH]; intros done ms w Hnd Hwf He.
  - left. reflexivity.
  - assert (Hsub : JSONManager.subdict p
                     (DictionaryManager.content
                        (DictionaryManager.set_content ms (put p (done ++ (k, v) :: todo) c0)))
                   = Some (done ++ (k, v) :: todo)).
    { simpl. eapply subdict_put. exact Hp. }
    assert (Hi : (done ++ (k, v) :: todo) !! length done = Some (k, v)).
    { now apply list_lookup_middle. }
    rewrite wf_items_cons in Hwf. apply andb_true_iff in Hwf as [Hwfv Hwft].
    apply has_empty_items_cons in He as [Het Hev].
    pose proof (NoDup_keys_middle k v done todo Hnd) as Hk.
    rewrite traverse_items_cons. simpl fst. simpl snd.
    change (length ((k, v) :: todo)) with (S (length todo)).
    destruct (isinstance_dict v) eqn:Ev.
    + destruct v as [ | | | | | |dv]; try discriminate.
      destruct (Hev dv eq_refl) as [Hne Hed].
      rewrite (tc_items_dict env call p _ _ _ _ _ k dv Hsub Hi).
      rewrite traverse_dict. simpl fst. simpl snd.
      destruct (Hcall (p ++ [length done])
                  (DictionaryManager.set_content ms (put p (done ++ (k, JDict dv) :: todo) c0))
                  w dv) as [Hr | (Hb & w' & Hr)]; try assumption.
      { eapply subdict_snoc; [exact Hsub | exact Hi]. }
      * rewrite Hr. clear Hr.
        change (DictionaryManager.set_content ms (put p (done ++ (k, JDict dv) :: todo) c0), w)
          with (with_content (put p (done ++ (k, JDict dv) :: todo) c0) (ms, w)).
        rewrite (traverse_items_commute _ _ (leaf_step_with_content _)).
        simpl fst. simpl snd.
        rewrite set_content_twice. simpl DictionaryManager.content.
        rewrite (put_snoc p (length done) k dv _ _ _ (subdict_put p _ c0 dorig Hp) Hi).
        rewrite insert_middle, (put_put p _ _ c0 dorig Hp).
        set (r := Walk.traverse_items (Walk.leaf_step env) dv (ms, w)).
        specialize (IH (done ++ [(k, JDict (fst r))]) (fst (snd r)) (snd (snd r))).
        rewrite length_snoc, app_snoc in IH.
        rewrite <- (surjective_pairing (snd r)) in IH.
        destruct IH as [IH | (Hb & w' & IH)]; try assumption.
        { rewrite keys_middle with (v := JDict dv). exact Hnd. }
        -- left. rewrite IH. now rewrite app_snoc.
        -- right. split; [|eauto]. rewrite depth_items_cons. lia.
      * right. split; [|exists w'; now rewrite Hr].
        rewrite depth_items_cons, depth_dict. lia.
    + rewrite (tc_items_leaf env call p _ _ _ _ _ k v Hsub Hi Ev).
      rewrite (traverse_leaf _ v _ Ev).
      cbv zeta. simpl DictionaryManager.content. simpl DictionaryManager.base.
      rewrite (alter_at_put _ p _ _ (subdict_put p _ c0 dorig Hp)).
      rewrite (dict_set_fresh k v _ done todo Hk), (put_put p _ _ c0 dorig Hp).
      rewrite handled_set_content, leaf_step_eq. simpl fst. simpl snd.
      set (tr := translate env (Manager.deepl (DictionaryManager.base ms)) v (api w)).
      specialize (IH (done ++ [(k, Walk.resolve v (fst tr))])
                     (DictionaryManager.count_and_update (Walk.handled ms (fst tr)))
                     (mkWorld (stdout w) (files w) (snd tr))).
      rewrite length_snoc, app_snoc in IH.
      destruct IH as [IH | (Hb & w' & IH)]; try assumption.
      { rewrite keys_middle with (v := v). exact Hnd. }
      * left. rewrite IH. now rewrite app_snoc.
      * right. split; [rewrite depth_items_cons; lia|]. eauto.
Qed.

End TranslateGood.

Section TranslateCalls.
Context {T : Type} (env : Environment T).

Lemma wf_dict_parts (d : dict json) :
  Json.wf_json (JDict d) = true -> NoDup (keys d) /\ Json.wf_items d = true.
Proof.
  rewrite wf_dict. intros H. apply andb_true_iff in H as [H1 H2].
  split; [now apply bool_decide_eq_true in H1 | exact H2].
Qed.

(** The loop over all the items of the dictionary at [p], from a manager
whose content has [d] there. *)
Lemma tc_items_all (bound : nat)
  (call : list nat -> JSONManager.t -> M T JSONManager.t) (p : list nat)
  (m : JSONManager.t) (w : World T) (d : dict json) :
  call_spec env bound call ->
  JSONManager.subdict p (DictionaryManager.content m) = Some d ->
  Json.wf_json (JDict d) = true -> Json.has_empty_items d = false ->
  JSONManager.translate_items env call p (length d) 0 m w =
    Returned
      (DictionaryManager.set_content
         (fst (snd (Walk.traverse_items (Walk.leaf_step env) d (m, w))))
         (put p (fst (Walk.traverse_items (Walk.leaf_step env) d (m, w)))
              (DictionaryManager.content m)))
      (snd (snd (Walk.traverse_items (Walk.leaf_step env) d (m, w))))
  \/ (bound < Json.depth_items d /\
      exists w', JSONManager.translate_items env call p (length d) 0 m w = Raised RecursionError w').
Proof.
  intros Hcall Hp Hwf He. apply wf_dict_parts in Hwf as [Hnd Hwf].
  pose proof (tc_items_good env bound call p (DictionaryManager.content m) d Hcall Hp
                d [] m w Hnd Hwf He) as H.
  simpl app in H. simpl length in H.
  rewrite (put_id p _ _ Hp), set_content_content in H. exact H.
Qed.

Lemma tc_argument_nonempty (c : json) (p : list nat) (d : dict json) :
  JSONManager.subdict p c = Some d -> d <> [] -> JSONManager.tc_argument c (Some p) = p.
Proof.
  intros H Hne. unfold JSONManager.tc_argument. rewrite H. now destruct d.
Qed.

(** [translate_content] on a dictionary that is not empty and has no empty
object inside. *)
Lemma tc_good (limit : nat) :
  call_spec env limit (fun p => JSONManager.translate_content env limit (Some p)).
Proof.
  induction limit as [|limit IH]; intros q m w dv Hq Hne Hwf He.
  - right. split; [lia|]. now exists w.
  - rewrite tc_unfold, (tc_argument_nonempty _ q dv Hq Hne), Hq.
    destruct (tc_items_all limit _ q m w dv IH Hq Hwf He) as [H | (Hb & w' & H)].
    + now left.
    + right. split; [lia|]. eauto.
Qed.

(** [translate_content()] on a content without empty object inside. *)
Lemma tc_good_root (limit : nat) (m : JSONManager.t) (w : World T) (d : dict json) :
  DictionaryManager.content m = JDict d ->
  Json.wf_json (JDict d) = true -> Json.has_empty_items d = false ->
  JSONManager.translate_content env limit None m w =
    Returned
      (DictionaryManager.set_content
         (fst (snd (Walk.traverse_items (Walk.leaf_step env) d (m, w))))
         (JDict (fst (Walk.traverse_items (Walk.leaf_step env) d (m, w)))))
      (snd (snd (Walk.traverse_items (Walk.leaf_step env) d (m, w))))
  \/ (limit <= Json.depth_items d /\
      exists w', JSONManager.translate_content env limit None m w =
                 Raised RecursionError w').
Proof.
  intros Hc Hwf He. destruct limit as [|limit].
  - right. split; [lia|]. now exists w.
  - assert (Hp : JSONManager.subdict [] (DictionaryManager.content m) = Some d)
      by now rewrite Hc.
    rewrite tc_default, tc_unfold.
    assert (JSONManager.tc_argument (DictionaryManager.content m) (Some []) = []) as ->.
    { unfold JSONManager.tc_argument. rewrite Hp. now destruct d. }
    rewrite Hp.
    destruct (tc_items_all limit _ [] m w d (tc_good limit) Hp Hwf He)
      as [H | (Hb & w' & H)].
    + left. rewrite H, Hc. reflexivity.
    + right. split; [lia|]. eauto.
Qed.

End TranslateCalls.

(** ** What depends on the shape of a document only *)

Lemma keys_shape_items (d : dict json) : keys (Json.shape_items d) = keys d.
Proof.
  unfold keys, Json.shape_items. rewrite map_map. reflexivity.
Qed.

Lemma shape_items_cons (k : string) (v : json) (d : dict json) :
  Json.shape_items ((k, v) :: d) = (k, Json.shape v) :: Json.shape_items d.
Proof. reflexivity. Qed.

Lemma shape_items_app (a b : dict json) :
  Json.shape_items (a ++ b) = Json.shape_items a ++ Json.shape_items b.
Proof. unfold Json.shape_items. apply map_app. Qed.

Lemma wf_shape (v : json) : Json.wf_json (Json.shape v) = Json.wf_json v.
Proof.
  induction v as [v Hv | d IH] using json_dict_ind.
  - rewrite shape_leaf by exact Hv. now destruct v.
  - rewrite shape_dict, !wf_dict, keys_shape_items. f_equal.
    induction IH as [|[k v] d Hv _ IHd]; [reflexivity|].
    rewrite shape_items_cons, !wf_items_cons. simpl in Hv. now rewrite Hv, IHd.
Qed.

Lemma has_empty_items_unfold (k : string) (v : json) (d : dict json) :
  Json.has_empty_items ((k, v) :: d) =
  match v with
  | JDict [] => true
  | _ => Json.has_empty_object v
  end || Json.has_empty_items d.
Proof. destruct v as [ | | | | | |[|kv dv]]; reflexivity. Qed.

Lemma has_empty_shape (v : json) :
  Json.has_empty_object (Json.shape v) = Json.has_empty_object v.
Proof.
  induction v as [v Hv | d IH] using json_dict_ind.
  - rewrite shape_leaf by exact Hv. now destruct v.
  - rewrite shape_dict, !has_empty_dict.
    induction IH as [|[k v] d Hv _ IHd]; [reflexivity|].
    rewrite shape_items_cons, !has_empty_items_unfold, IHd. f_equal.
    simpl in Hv. rewrite <- Hv.
    destruct v as [ | | | | | |[|[k' v'] dv]]; reflexivity.
Qed.

Lemma wf_of_shape (c1 c2 : json) :
  Json.shape c1 = Json.shape c2 -> Json.wf_json c1 = Json.wf_json c2.
Proof. intros H. now rewrite <- (wf_shape c1), <- (wf_shape c2), H. Qed.

Lemma has_empty_of_shape (c1 c2 : json) :
  Json.shape c1 = Json.shape c2 -> Json.has_empty_object c1 = Json.has_empty_object c2.
Proof. intros H. now rewrite <- (has_empty_shape c1), <- (has_empty_shape c2), H. Qed.

Lemma wf_subdict (p : list nat) :
  forall c d, Json.wf_json c = true -> JSONManager.subdict p c = Some d ->
              Json.wf_json (JDict d) = true.
Proof.
  induction p as [|i p IH]; intros c d Hwf H;
    destruct c as [ | | | | | |d0]; try discriminate.
  - rewrite subdict_root in H. now injection H as <-.
  - rewrite subdict_cons in H.
    destruct (d0 !! i) as [[k v]|] eqn:E; [|discriminate].
    apply (IH v d); [|exact H].
    apply wf_dict_parts in Hwf as [_ Hwf]. unfold Json.wf_items in Hwf.
    rewrite forallb_forall in Hwf.
    apply (Hwf (k, v)). apply list_elem_of_In. eapply list_elem_of_lookup_2. exact E.
Qed.

Lemma has_empty_content (c : json) :
  Json.has_empty_object c = true ->
  exists d, c = JDict d /\ Json.has_empty_items d = true.
Proof.
  destruct c as [ | | | | | |d]; try discriminate.
  rewrite has_empty_dict. eauto.
Qed.

(** ** The translation pass on a document with an empty object *)

Section TranslateBad.
Context {T : Type} (env : Environment T).

Lemma reaches_empty_dec (dv : dict json) :
  reaches_empty dv \/ (dv <> [] /\ Json.has_empty_items dv = false).
Proof.
  unfold reaches_empty. destruct dv as [|kv dv]; [now left; left|].
  destruct (Json.has_empty_items (kv :: dv)); [left; now right | right].
  split; [discriminate | reflexivity].
Qed.

Lemma restarting_shape (m m' : JSONManager.t) :
  Json.shape (DictionaryManager.content m') = Json.shape (DictionaryManager.content m) ->
  restarting m -> restarting m'.
Proof.
  intros Hs [H1 H2]. split.
  - now rewrite (wf_of_shape _ _ Hs).
  - now rewrite (has_empty_of_shape _ _ Hs).
Qed.

Lemma tc_items_bad (bound : nat)
  (call : list nat -> JSONManager.t -> M T JSONManager.t) (p : list nat) :
  call_spec env bound call -> call_restarts call ->
  forall todo done m w,
    restarting m ->
    JSONManager.subdict p (DictionaryManager.content m) = Some (done ++ todo) ->
    Json.has_empty_items todo = true ->
    exists w', JSONManager.translate_items env call p (length todo) (length done) m w =
               Raised RecursionError w'.
Proof.
  intros Hgood Hbad. induction todo as [|[k v] todo IH]; intros done m w Hm Hsub He;
    [discriminate|].
  assert (Hi : (done ++ (k, v) :: todo) !! length done = Some (k, v))
    by now apply list_lookup_middle.
  pose proof (wf_subdict p _ _ (proj1 Hm) Hsub) as Hwf.
  apply wf_dict_parts in Hwf as [Hnd Hwf].
  change (length ((k, v) :: todo)) with (S (length todo)).
  destruct (isinstance_dict v) eqn:Ev.
  - destruct v as [ | | | | | |dv]; try discriminate.
    rewrite (tc_items_dict env call p _ _ _ _ _ k dv Hsub Hi).
    pose proof (subdict_snoc p (length done) k dv _ _ Hsub Hi) as Hq.
    destruct (reaches_empty_dec dv) as [Hdv | [Hne Hed]].
    + destruct (Hbad _ m w dv Hm Hq Hdv) as [w' ->]. eauto.
    + assert (Hwfv : Json.wf_json (JDict dv) = true) by exact (wf_subdict _ _ _ (proj1 Hm) Hq).
      destruct (Hgood _ m w dv Hq Hne Hwfv Hed) as [-> | (_ & w' & ->)]; [|eauto].
      set (r := Walk.traverse_items (Walk.leaf_step env) dv (m, w)).
      assert (Hsh : Json.shape_items (fst r) = Json.shape_items dv)
        by apply (traverse_items_shape _ (leaf_step_leaf env)).
      specialize (IH (done ++ [(k, JDict (fst r))])
                     (DictionaryManager.set_content (fst (snd r))
                        (put (p ++ [length done]) (fst r) (DictionaryManager.content m)))
                     (snd (snd r))).
      rewrite length_snoc, app_snoc in IH. apply IH.
      * apply (restarting_shape m); [|exact Hm]. simpl.
        now apply (shape_put _ _ _ dv).
      * simpl. rewrite (put_snoc p _ k dv _ _ _ Hsub Hi), insert_middle.
        now apply (subdict_put p _ _ _ Hsub).
      * apply has_empty_items_cons_true in He as [(dv' & E & Hdv') | Hl]; [|exact Hl].
        injection E as <-. destruct Hdv' as [-> | Hdv']; congruence.
  - rewrite (tc_items_leaf env call p _ _ _ _ _ k v Hsub Hi Ev). cbv zeta.
    set (tr := translate env (Manager.deepl (DictionaryManager.base m)) v (api w)).
    rewrite (alter_at_put _ p _ _ Hsub).
    rewrite (dict_set_fresh k v _ done todo (NoDup_keys_middle k v done todo Hnd)).
    match goal with |- exists w', JSONManager.translate_items _ _ _ _ _ ?m' ?w1 = _ =>
      specialize (IH (done ++ [(k, Walk.resolve v (fst tr))]) m' w1) end.
    rewrite length_snoc, app_snoc in IH. apply IH.
    + apply (restarting_shape m); [|exact Hm]. simpl.
      apply (shape_put _ _ _ _ Hsub).
      rewrite !shape_items_app, !shape_items_cons.
      now rewrite (shape_leaf v Ev), (shape_leaf _ (resolve_leaf v (fst tr) Ev)).
    + simpl. now apply (subdict_put p _ _ _ Hsub).
    + apply has_empty_items_cons_true in He as [(dv' & -> & _) | Hl];
        [discriminate | exact Hl].
Qed.

(** Whatever the recursion limit, [translate_content] does not return when
it is called for the content (the default argument) or for a dictionary
from which the walk reaches an empty object: it exceeds the limit. *)
Lemma tc_diverges (limit : nat) :
  forall (dictionary : option (list nat)) (m : JSONManager.t) (w : World T),
    restarting m ->
    (dictionary = None \/
     exists q dv, dictionary = Some q /\
                  JSONManager.subdict q (DictionaryManager.content m) = Some dv /\
                  reaches_empty dv) ->
    exists w', JSONManager.translate_content env limit dictionary m w =
               Raised RecursionError w'.
Proof.
  induction limit as [|limit IH]; intros dictionary m w Hm Harg; [now exists w|].
  destruct (has_empty_content _ (proj2 Hm)) as (d0 & Hc & Hd0).
  assert (Hroot : JSONManager.subdict [] (DictionaryManager.content m) = Some d0)
    by now rewrite Hc.
  assert (exists q dd, JSONManager.tc_argument (DictionaryManager.content m) dictionary = q /\
                       JSONManager.subdict q (DictionaryManager.content m) = Some dd /\
                       Json.has_empty_items dd = true) as (q & dd & Hq & Hsub & Hdd).
  { destruct Harg as [-> | (q & dv & -> & Hsub & [-> | Hdv])].
    - exists [], d0. auto.
    - exists [], d0. unfold JSONManager.tc_argument. rewrite Hsub. auto.
    - exists q, dv. unfold JSONManager.tc_argument. rewrite Hsub.
      destruct dv; [discriminate|auto]. }
  rewrite tc_unfold, Hq, Hsub.
  apply (tc_items_bad limit _ q (tc_good env limit)) with (done := []); auto.
  intros q' m' w' dv' Hm' Hsub' Hdv'. apply IH; [exact Hm'|]. right. eauto.
Qed.

End TranslateBad.

(** ** The handling of the leaves, one after the other *)

Lemma responses_cons {T : Type} (env : Environment T) (deepl : DeeplRequest)
  (x : json) (ls : list json) (t : T) :
  Walk.responses env deepl (x :: ls) t =
  fst (translate env deepl x t) :: Walk.responses env deepl ls (snd (translate env deepl x t)).
Proof. simpl. now destruct (translate env deepl x t). Qed.

Lemma failures_cons (translation : option string) (rs : list (option string)) :
  Walk.failures (translation :: rs) =
  (if negb (truthy translation) then 1 else 0) + Walk.failures rs.
Proof. unfold Walk.failures. simpl. now destruct (negb _). Qed.

Lemma run_leaf_step {T : Type} (env : Environment T) (ls : list json) :
  forall (m : JSONManager.t) (w : World T),
    let r := Walk.run (Walk.leaf_step env) ls (m, w) in
    let rs := Walk.responses env (Manager.deepl (DictionaryManager.base m)) ls (api w) in
    fst r = zip_with Walk.resolve ls rs /\
    length rs = length ls /\
    DictionaryManager.base (fst (snd r)) = DictionaryManager.base m /\
    DictionaryManager.content (fst (snd r)) = DictionaryManager.content m /\
    DictionaryManager.completion_count (fst (snd r)) =
      DictionaryManager.completion_count m + length ls /\
    DictionaryManager.not_translated_count (fst (snd r)) =
      DictionaryManager.not_translated_count m + Walk.failures rs /\
    max_value (DictionaryManager.progress_bar (fst (snd r))) =
      max_value (DictionaryManager.progress_bar m) /\
    updates (DictionaryManager.progress_bar (fst (snd r))) =
      updates (DictionaryManager.progress_bar m) ++
      seq (DictionaryManager.completion_count m + 1) (length ls) /\
    stdout (snd (snd r)) = stdout w /\
    files (snd (snd r)) = files w /\
    api (snd (snd r)) =
      Walk.final_state env (Manager.deepl (DictionaryManager.base m)) ls (api w).
Proof.
  induction ls as [|x ls IH]; intros m w.
  - simpl. rewrite Nat.add_0_r, app_nil_r. unfold Walk.failures. simpl.
    rewrite Nat.add_0_r. repeat split.
  - cbv zeta. rewrite run_cons, leaf_step_eq, responses_cons, failures_cons.
    simpl fst. simpl snd.
    set (tr := translate env (Manager.deepl (DictionaryManager.base m)) x (api w)).
    specialize (IH (DictionaryManager.count_and_update (Walk.handled m (fst tr)))
                   (mkWorld (stdout w) (files w) (snd tr))).
    cbv zeta in IH.
    assert (Hb : DictionaryManager.base
                   (DictionaryManager.count_and_update (Walk.handled m (fst tr))) =
                 DictionaryManager.base m)
      by (unfold Walk.handled; now destruct (negb _)).
    rewrite Hb in IH. simpl api in IH.
    destruct IH as (H1 & H2 & H3 & H4 & H5 & H6 & H7 & H8 & H9 & H10 & H11).
    repeat split.
    + simpl. now rewrite H1.
    + simpl. now rewrite H2.
    + exact H3.
    + rewrite H4. unfold Walk.handled. now destruct (negb _).
    + rewrite H5. unfold Walk.handled. destruct (negb _); simpl; lia.
    + rewrite H6. unfold Walk.handled. destruct (negb _); simpl; lia.
    + rewrite H7. unfold Walk.handled. now destruct (negb _).
    + rewrite H8. unfold Walk.handled.
      destruct (negb _); simpl; rewrite <- app_assoc; simpl;
        now rewrite (Nat.add_1_r (DictionaryManager.completion_count m + 1)).
    + exact H9.
    + exact H10.
    + exact H11.
Qed.

(** ** Runs of the JSON manager on documents without empty objects *)

Lemma print_ending_messages_eq {T C : Type} (self : DictionaryManager.t C) (w : World T) :
  DictionaryManager.print_ending_messages self w =
  Returned tt (mkWorld (stdout w ++ ending_messages (DictionaryManager.not_translated_count self))
                       (files w) (api w)).
Proof.
  unfold DictionaryManager.print_ending_messages, ending_messages, bind, print, ret.
  simpl. destruct (0 <? _); simpl.
  - now rewrite <- app_assoc.
  - reflexivity.
Qed.

Section JsonRuns.
Context {T : Type} (env : Environment T).

(** The translation pass on a document without an empty object, for a limit
above its nesting depth: it returns, every leaf is replaced by what
[translate_and_handle] resolved for it, in the order of the walk, the
counters advance by the number of leaves and of failures, and the progress
bar is updated once a leaf. *)
Lemma json_translate_content_good (limit : nat) (m : JSONManager.t) (w : World T)
  (d : dict json) :
  DictionaryManager.content m = JDict d ->
  Json.wf_json (JDict d) = true -> Json.has_empty_items d = false ->
  Json.depth_items d < limit ->
  let ls := Json.leaves_items d in
  let rs := Walk.responses env (Manager.deepl (DictionaryManager.base m)) ls (api w) in
  exists d' m' w',
    JSONManager.translate_content env limit None m w = Returned m' w' /\
    DictionaryManager.content m' = JDict d' /\
    Json.shape_items d' = Json.shape_items d /\
    Json.leaves_items d' = zip_with Walk.resolve ls rs /\
    length rs = length ls /\
    DictionaryManager.base m' = DictionaryManager.base m /\
    DictionaryManager.completion_count m' =
      DictionaryManager.completion_count m + length ls /\
    DictionaryManager.not_translated_count m' =
      DictionaryManager.not_translated_count m + Walk.failures rs /\
    max_value (DictionaryManager.progress_bar m') =
      max_value (DictionaryManager.progress_bar m) /\
    updates (DictionaryManager.progress_bar m') =
      updates (DictionaryManager.progress_bar m) ++
      seq (DictionaryManager.completion_count m + 1) (length ls) /\
    stdout w' = stdout w /\ files w' = files w /\
    api w' = Walk.final_state env (Manager.deepl (DictionaryManager.base m)) ls (api w).
Proof.
  intros Hc Hwf He Hd ls rs.
  destruct (tc_good_root env limit m w d Hc Hwf He) as [H | (Hb & _)]; [|lia].
  set (r := Walk.traverse_items (Walk.leaf_step env) d (m, w)) in *.
  pose proof (traverse_items_run (Walk.leaf_step env) (leaf_step_leaf env) d (m, w)) as Hrun.
  fold r in Hrun.
  pose proof (run_leaf_step env ls m w) as Hf. cbv zeta in Hf.
  fold ls in Hrun. rewrite <- Hrun in Hf. simpl fst in Hf. simpl snd in Hf.
  destruct Hf as (H1 & H2 & H3 & H4 & H5 & H6 & H7 & H8 & H9 & H10 & H11).
  exists (fst r), (DictionaryManager.set_content (fst (snd r)) (JDict (fst r))), (snd (snd r)).
  split; [exact H|]. split; [reflexivity|].
  split; [apply (traverse_items_shape _ (leaf_step_leaf env))|].
  repeat split; assumption.
Qed.

(** A run of the JSON manager on such a document: it returns, and one file
is written, at the target path, with the content after the pass as JSON
indented by two spaces. *)
Lemma json_run_good (limit : nat) (self : Manager.t) (w : World T)
  (text : string) (d : dict json) :
  read_text env (Manager.source_file self) = Some text ->
  json_loads env text = Some (JDict d) ->
  Json.wf_json (JDict d) = true -> Json.has_empty_items d = false ->
  Json.depth_items d < limit ->
  let ls := Json.leaves_items d in
  let rs := Walk.responses env (Manager.deepl self) ls (api w) in
  exists d' t',
    JSONManager.translate_source_file env limit self w =
      Returned tt
        (mkWorld
           (stdout w ++ ending_messages (Walk.failures rs) ++
            ["Generated " +:+ Manager.target_file self +:+ "."])
           (files w ++ [(Manager.target_file self, TextFile (JsonDumps.dumps (JDict d') 2))])
           t') /\
    Json.shape_items d' = Json.shape_items d /\
    Json.leaves_items d' = zip_with Walk.resolve ls rs /\
    length rs = length ls.
Proof.
  intros Hread Hload Hwf He Hd ls rs.
  unfold JSONManager.translate_source_file, JSONManager.load_source_content.
  unfold bind at 1. rewrite Hread, Hload. unfold ret at 1.
  rewrite (count_good_root limit d He Hd).
  destruct (json_translate_content_good limit
              (DictionaryManager.with_progress_bar self (JDict d)
                 (length (Json.leaves_items d))) w d eq_refl Hwf He Hd)
    as (d' & m' & w' & Hrun & Hc & Hs & Hl & Hlen & Hb & _ & Hn & _ & _ & Ho & Hf & _).
  unfold bind at 1. rewrite Hrun.
  unfold bind at 1. rewrite print_ending_messages_eq.
  unfold JSONManager.make_translated_files, bind, write_file, print. simpl.
  exists d', (api w'). rewrite Hb, Hc, Hn, Ho, Hf. simpl.
  split; [|auto]. rewrite <- app_assoc. reflexivity.
Qed.

End JsonRuns.

(** ** Dictionaries keyed by strings *)

Lemma dict_get_set_eq {V : Type} (k : string) (v : V) (d : dict V) :
  dict_get k (dict_set k v d) = Some v.
Proof.
  induction d as [|[k' v'] d IH]; simpl.
  - now rewrite String.eqb_refl.
  - destruct (String.eqb_spec k k') as [->|Hne]; simpl.
    + now rewrite String.eqb_refl.
    + destruct (String.eqb_spec k k'); [congruence | exact IH].
Qed.

Lemma dict_get_set_ne {V : Type} (k k' : string) (v : V) (d : dict V) :
  k <> k' -> dict_get k' (dict_set k v d) = dict_get k' d.
Proof.
  intros Hne. induction d as [|[k0 v0] d IH]; simpl.
  - destruct (String.eqb_spec k' k); [congruence | reflexivity].
  - destruct (String.eqb_spec k k0) as [->|Hk]; simpl.
    + destruct (String.eqb_spec k' k0); [congruence | reflexivity].
    + now rewrite IH.
Qed.

Lemma keys_dict_set {V : Type} (k : string) (v : V) (d : dict V) :
  keys (dict_set k v d) = if bool_decide (k ∈ keys d) then keys d else keys d ++ [k].
Proof.
  unfold keys. induction d as [|[k' v'] d IH]; [reflexivity|]. simpl.
  destruct (String.eqb_spec k k') as [->|Hne]; simpl.
  - rewrite bool_decide_eq_true_2 by left. reflexivity.
  - rewrite IH. destruct (bool_decide (k ∈ map fst d)) eqn:E.
    + apply bool_decide_eq_true in E.
      rewrite bool_decide_eq_true_2 by now right. reflexivity.
    + apply bool_decide_eq_false in E.
      rewrite bool_decide_eq_false_2; [reflexivity|].
      intros H. apply elem_of_cons in H as [H|H]; congruence.
Qed.

Lemma elem_of_keys_dict_set {V : Type} (k k' : string) (v : V) (d : dict V) :
  k' ∈ keys (dict_set k v d) <-> k' = k \/ k' ∈ keys d.
Proof.
  rewrite keys_dict_set. destruct (bool_decide (k ∈ keys d)) eqn:E.
  - apply bool_decide_eq_true in E. split; [now right|].
    intros [->|H]; assumption.
  - rewrite elem_of_app, list_elem_of_singleton. tauto.
Qed.

Lemma NoDup_keys_dict_set {V : Type} (k : string) (v : V) (d : dict V) :
  NoDup (keys d) -> NoDup (keys (dict_set k v d)).
Proof.
  intros H. rewrite keys_dict_set. destruct (bool_decide (k ∈ keys d)) eqn:E; [exact H|].
  apply bool_decide_eq_false in E. apply NoDup_app. split; [exact H|].
  split; [|apply NoDup_singleton].
  intros x Hx Hk. apply list_elem_of_singleton in Hk. congruence.
Qed.

Lemma dict_get_Some_elem {V : Type} (k : string) (v : V) (d : dict V) :
  dict_get k d = Some v -> (k, v) ∈ d.
Proof.
  induction d as [|[k' v'] d IH]; simpl; [discriminate|].
  destruct (String.eqb_spec k k') as [->|Hne].
  - intros H. injection H as ->. left.
  - intros H. right. now apply IH.
Qed.

Lemma elem_dict_get {V : Type} (k : string) (v : V) (d : dict V) :
  NoDup (keys d) -> (k, v) ∈ d -> dict_get k d = Some v.
Proof.
  unfold keys. induction d as [|[k' v'] d IH]; simpl; intros Hnd H.
  - now apply elem_of_nil in H.
  - apply NoDup_cons in Hnd as [Hk Hnd]. apply elem_of_cons in H as [H|H].
    + injection H as -> ->. now rewrite String.eqb_refl.
    + destruct (String.eqb_spec k k') as [->|Hne]; [|now apply IH].
      exfalso. apply Hk. apply (list_elem_of_fmap_2 fst) in H. exact H.
Qed.

(** ** Loading a catalog *)

Lemma load_entries_cons (entry : Polib.POEntry) (rest : list Polib.POEntry)
  (content : dict POManager.value) :
  POManager.load_entries (entry :: rest) content =
  POManager.load_entries rest
    (dict_set (Polib.msgid entry) (POManager.value_of_entry entry) content).
Proof. reflexivity. Qed.

(** After the load a message id holds the value of the last entry that has
it. *)
Lemma load_entries_get (id : string) (pofile : list Polib.POEntry) :
  forall content,
    dict_get id (POManager.load_entries pofile content) =
    match Catalog.last_with_id id pofile with
    | Some entry => Some (POManager.value_of_entry entry)
    | None => dict_get id content
    end.
Proof.
  induction pofile as [|entry rest IH]; intros content; [reflexivity|].
  rewrite load_entries_cons, IH. simpl.
  destruct (Catalog.last_with_id id rest); [reflexivity|].
  destruct (String.eqb_spec (Polib.msgid entry) id) as [<-|Hne].
  - apply dict_get_set_eq.
  - now apply dict_get_set_ne.
Qed.

Lemma load_entries_keys (id : string) (pofile : list Polib.POEntry) :
  forall content,
    id ∈ keys (POManager.load_entries pofile content) <->
    id ∈ keys content \/ id ∈ Catalog.msgids pofile.
Proof.
  unfold Catalog.msgids.
  induction pofile as [|entry rest IH]; intros content.
  - simpl. split; [now left|]. intros [H|H]; [exact H|]. now apply elem_of_nil in H.
  - rewrite load_entries_cons, IH, elem_of_keys_dict_set. simpl.
    rewrite elem_of_cons. tauto.
Qed.

Lemma load_entries_NoDup (pofile : list Polib.POEntry) :
  forall content, NoDup (keys content) ->
                  NoDup (keys (POManager.load_entries pofile content)).
Proof.
  induction pofile as [|entry rest IH]; intros content H; [exact H|].
  rewrite load_entries_cons. apply IH. now apply NoDup_keys_dict_set.
Qed.

Lemma last_with_id_elem (id : string) (pofile : list Polib.POEntry) (entry : Polib.POEntry) :
  Catalog.last_with_id id pofile = Some entry ->
  entry ∈ pofile /\ Polib.msgid entry = id.
Proof.
  induction pofile as [|e rest IH]; simpl; [discriminate|].
  destruct (Catalog.last_with_id id rest) as [later|].
  - intros H. injection H as ->. destruct (IH eq_refl) as [H1 H2].
    split; [now right | exact H2].
  - destruct (String.eqb_spec (Polib.msgid e) id) as [<-|Hne]; [|discriminate].
    intros H. injection H as ->. split; [left | reflexivity].
Qed.

Lemma last_with_id_None (id : string) (pofile : list Polib.POEntry) :
  Catalog.last_with_id id pofile = None <-> id ∉ Catalog.msgids pofile.
Proof.
  unfold Catalog.msgids. induction pofile as [|e rest IH]; simpl.
  - split; [intros _ H; now apply elem_of_nil in H | reflexivity].
  - rewrite not_elem_of_cons. destruct (Catalog.last_with_id id rest) as [later|].
    + split; [discriminate|]. intros [_ H]. now apply IH in H.
    + destruct (String.eqb_spec (Polib.msgid e) id) as [<-|Hne].
      * split; [discriminate|]. intros [H _]. congruence.
      * split; [|reflexivity]. intros _. split; [congruence|]. now apply IH.
Qed.

(** An entry that no later entry repeats is the last with its id. *)
Lemma last_with_id_last (before after : list Polib.POEntry) (entry : Polib.POEntry) :
  Polib.msgid entry ∉ Catalog.msgids after ->
  Catalog.last_with_id (Polib.msgid entry) (before ++ entry :: after) = Some entry.
Proof.
  intros H. apply last_with_id_None in H.
  induction before as [|e before IH]; simpl.
  - now rewrite H, String.eqb_refl.
  - simpl in IH. now rewrite IH.
Qed.



(** ** The translation pass over a catalog *)

Lemma translate_and_handle_eq {T C E : Type} (env : Environment T)
  (value : E -> json) (text : string -> E) (entry : E)
  (self : DictionaryManager.t C) (w : World T) :
  DictionaryManager.translate_and_handle env value text entry self w =
  let translation :=
    translate env (Manager.deepl (DictionaryManager.base self)) (value entry) (api w) in
  Returned (match fst translation with
            | Some s => if PyStr.truthy s then text s else entry
            | None => entry
            end, Walk.handled self (fst translation))
           (mkWorld (stdout w) (files w) (snd translation)).
Proof.
  unfold DictionaryManager.translate_and_handle, bind, call_api, ret, Walk.handled.
  destruct (translate env _ (value entry) (api w)) as [translation t']. reflexivity.
Qed.

Lemma po_translate_items {T : Type} (env : Environment T) (todo : dict POManager.value) :
  forall (done : dict POManager.value) (m : POManager.t) (w : World T),
    DictionaryManager.content m = done ++ todo ->
    let rs := Walk.responses env (Manager.deepl (DictionaryManager.base m))
                (Catalog.submitted todo) (api w) in
    exists m' w',
      POManager.translate_items env (length todo) (length done) m w = Returned m' w' /\
      DictionaryManager.content m' = done ++ zip_with po_item todo rs /\
      length rs = length todo /\
      DictionaryManager.base m' = DictionaryManager.base m /\
      DictionaryManager.completion_count m' =
        DictionaryManager.completion_count m + length todo /\
      DictionaryManager.not_translated_count m' =
        DictionaryManager.not_translated_count m + Walk.failures rs /\
      max_value (DictionaryManager.progress_bar m') =
        max_value (DictionaryManager.progress_bar m) /\
      updates (DictionaryManager.progress_bar m') =
        updates (DictionaryManager.progress_bar m) ++
        seq (DictionaryManager.completion_count m + 1) (length todo) /\
      stdout w' = stdout w /\ files w' = files w /\
      api w' = Walk.final_state env (Manager.deepl (DictionaryManager.base m))
                 (Catalog.submitted todo) (api w).
Proof.
  induction todo as [|[k v] todo IH]; intros done m w Hc.
  - exists m, w. simpl. rewrite Nat.add_0_r, !app_nil_r. unfold Walk.failures. simpl.
    rewrite Nat.add_0_r. rewrite app_nil_r in Hc. repeat split. exact Hc.
  - cbv zeta. unfold Catalog.submitted. simpl map. fold (Catalog.submitted todo).
    rewrite responses_cons, failures_cons.
    set (tr := translate env (Manager.deepl (DictionaryManager.base m))
                 (JStr (POManager.msgstr v)) (api w)).
    change (length ((k, v) :: todo)) with (S (length todo)).
    simpl POManager.translate_items.
    rewrite Hc, list_lookup_middle by reflexivity.
    unfold bind at 1. rewrite translate_and_handle_eq. cbv beta iota zeta. fold tr.
    assert (Hh : DictionaryManager.content (Walk.handled m (fst tr)) = done ++ (k, v) :: todo)
      by (unfold Walk.handled; destruct (negb _); exact Hc).
    rewrite Hh, insert_middle.
    match goal with |- exists m' w', POManager.translate_items _ _ _ ?m1 ?w1 = _ /\ _ =>
      specialize (IH (done ++ [po_item (k, v) (fst tr)]) m1 w1) end.
    rewrite length_snoc in IH.
    assert (Hb : DictionaryManager.base
                   (DictionaryManager.count_and_update
                      (DictionaryManager.set_content (Walk.handled m (fst tr))
                         (done ++ (k, POManager.mkValue
                                        (match fst tr with
                                         | Some s => if PyStr.truthy s then s
                                                     else POManager.msgstr v
                                         | None => POManager.msgstr v
                                         end) (POManager.occurrences v)) :: todo))) =
                 DictionaryManager.base m)
      by (unfold Walk.handled; now destruct (negb _)).
    cbv zeta in IH. rewrite Hb in IH. simpl api in IH.
    destruct IH as (m' & w' & H0 & H1 & H2 & H3 & H4 & H5 & H6 & H7 & H8 & H9 & H10).
    { simpl. now rewrite app_snoc. }
    exists m', w'. split; [exact H0|]. rewrite H1, app_snoc.
    repeat split; try assumption.
    + simpl. now rewrite H2.
    + rewrite H4. unfold Walk.handled. destruct (negb _); simpl; lia.
    + rewrite H5. unfold Walk.handled. destruct (negb _); simpl; lia.
    + rewrite H6. unfold Walk.handled. now destruct (negb _).
    + rewrite H7. unfold Walk.handled.
      destruct (negb _); simpl; rewrite <- app_assoc; simpl;
        now rewrite (Nat.add_1_r (DictionaryManager.completion_count m + 1)).
Qed.

(** A run of the PO manager on a catalog that [polib] parses: it returns,
and the catalog built from the content after the pass is saved as text and
compiled, side by side. *)
Lemma po_run {T : Type} (env : Environment T) (self : Manager.t) (w : World T)
  (pofile : Polib.POFile) :
  polib_pofile env (Manager.source_file self) = Some pofile ->
  let content := POManager.load_entries (Polib.entries pofile) [] in
  let rs := Walk.responses env (Manager.deepl self) (Catalog.submitted content) (api w) in
  let out := Polib.mkPOFile (Polib.metadata pofile)
               (POManager.translated_entries (zip_with po_item content rs)) in
  let mofile := Manager.output_directory self +:+ "/" +:+
                PyStr.lower (target_lang (Manager.deepl self)) +:+ ".mo" in
  length rs = length content /\
  exists t',
    POManager.translate_source_file env self w =
    Returned tt
      (mkWorld
         (stdout w ++ ending_messages (Walk.failures rs) ++
          ["Generated " +:+ Manager.target_file self +:+ " and " +:+ mofile +:+ "."])
         (files w ++ [(Manager.target_file self, PoCatalog out); (mofile, MoCatalog out)])
         t').
Proof.
  intros Hparse content rs out mofile.
  destruct (po_translate_items env content []
              (DictionaryManager.with_progress_bar self content
                 (POManager.get_number_of_translations content)) w eq_refl)
    as (m' & w' & Hrun & Hc & Hlen & Hb & _ & Hn & _ & _ & Ho & Hf & _).
  split; [exact Hlen|]. exists (api w').
  unfold POManager.translate_source_file, POManager.load_source_content,
    POManager.pofile_source.
  unfold bind at 1. unfold bind at 1. rewrite Hparse. unfold ret at 1. unfold ret at 1.
  fold content. unfold POManager.translate_content. simpl DictionaryManager.content.
  change (@length (string * POManager.value) []) with 0 in Hrun.
  unfold bind at 1. rewrite Hrun.
  unfold bind at 1. rewrite print_ending_messages_eq.
  unfold POManager.make_translated_files, POManager.pofile_source.
  rewrite Hb. simpl Manager.source_file. unfold bind, write_file, print, ret.
  rewrite Hparse. simpl. rewrite Hc, Hn, Ho, Hf. simpl.
  rewrite <- !app_assoc. reflexivity.
Qed.

(** * The statements of the specification *)

(** ** JSON documents: count, progress and structure *)

(** On a document without an empty object the count computed up front is
the number of leaves, the pass returns with one progress update per leaf,
numbered from 1, and the service is asked for the leaves in the order of
the walk. *)
Lemma json_count_matches_updates {T : Type} (env : Environment T) (limit : nat)
  (self : Manager.t) (w : World (list json * T)) (d : dict json) :
  Json.wf_json (JDict d) = true -> Json.has_empty_items d = false ->
  Json.depth_items d < limit ->
  exists m' w',
    JSONManager.get_number_of_translations limit (JDict d) None =
      inr (length (Json.leaves_items d)) /\
    JSONManager.translate_content (recording env) limit None
      (DictionaryManager.with_progress_bar self (JDict d) (length (Json.leaves_items d))) w =
      Returned m' w' /\
    updates (DictionaryManager.progress_bar m') = seq 1 (length (Json.leaves_items d)) /\
    length (updates (DictionaryManager.progress_bar m')) =
      max_value (DictionaryManager.progress_bar m') /\
    fst (api w') = fst (api w) ++ Json.leaves_items d.
Proof.
  intros Hwf He Hd.
  destruct (json_translate_content_good (recording env) limit
              (DictionaryManager.with_progress_bar self (JDict d)
                 (length (Json.leaves_items d))) w d eq_refl Hwf He Hd)
    as (d' & m' & w' & Hrun & _ & _ & _ & _ & _ & _ & _ & Hmax & Hup & _ & _ & Hapi).
  exists m', w'. split; [now apply count_good_root|]. split; [exact Hrun|].
  simpl in Hup, Hmax. rewrite Hup, Hmax, length_seq. repeat split.
  rewrite Hapi. simpl. generalize (Json.leaves_items d) (api w). clear.
  induction l as [|x l IH]; intros [log t]; simpl.
  - now rewrite app_nil_r.
  - rewrite IH. simpl. now rewrite <- app_assoc.
Qed.

(** A run of the JSON manager on a document with an empty object ends in
the counting pass, whatever the recursion limit. *)
Lemma json_run_diverges {T : Type} (env : Environment T) (limit : nat)
  (self : Manager.t) (w : World T) (text : string) (d : dict json) :
  read_text env (Manager.source_file self) = Some text ->
  json_loads env text = Some (JDict d) ->
  Json.has_empty_items d = true ->
  JSONManager.translate_source_file env limit self w = Raised RecursionError w.
Proof.
  intros Hread Hload He.
  unfold JSONManager.translate_source_file, JSONManager.load_source_content, bind.
  rewrite Hread, Hload. unfold ret.
  now rewrite (count_diverges d He limit None (or_introl eq_refl)).
Qed.

(** C1, at the document [{"a": {}}] ([broken.json]): whatever the recursion
limit, the count computed up front is never returned (the call exceeds the
limit), and the run ends there, before any translation attempt or progress
update. *)
Theorem C1_no_count_on_empty_object :
  forall limit : nat,
    JSONManager.get_number_of_translations limit Example.broken None = inl RecursionError /\
    JSONManager.translate_source_file Example.env limit
      (Manager.mk "broken.json" Example.deepl "/home/user") Example.world =
    Raised RecursionError Example.world.
Proof.
  intros limit.
  assert (H : JSONManager.get_number_of_translations limit Example.broken None =
              inl RecursionError).
  { apply count_diverges; [reflexivity | now left]. }
  split; [exact H|].
  now apply (json_run_diverges Example.env limit _ _ (JsonDumps.dumps Example.broken 2)
               [("a", JDict [])]).
Qed.

(** On a document without an empty object the run writes one file, whose
content has the keys, their order and the nesting of the input. *)
Lemma json_structure_preserved {T : Type} (env : Environment T) (limit : nat)
  (self : Manager.t) (w : World T) (text : string) (d : dict json) :
  read_text env (Manager.source_file self) = Some text ->
  json_loads env text = Some (JDict d) ->
  Json.wf_json (JDict d) = true -> Json.has_empty_items d = false ->
  Json.depth_items d < limit ->
  exists d' w',
    JSONManager.translate_source_file env limit self w = Returned tt w' /\
    files w' = files w ++ [(Manager.target_file self, TextFile (JsonDumps.dumps (JDict d') 2))] /\
    Json.shape (JDict d') = Json.shape (JDict d).
Proof.
  intros Hread Hload Hwf He Hd.
  destruct (json_run_good env limit self w text d Hread Hload Hwf He Hd)
    as (d' & t' & Hrun & Hs & _).
  eexists d', _. split; [exact Hrun|]. split; [reflexivity|].
  now rewrite !shape_dict, Hs.
Qed.

(** C2, at the document [{"a": {}}] ([broken.json]): whatever the recursion
limit, the run of the JSON manager ends with [RecursionError] and has
written no file at all. *)
Theorem C2_no_output_on_empty_object :
  forall limit : nat,
    run_manager Example.env limit JSONManagerClass Example.deepl "broken.json" EmptyString
      Example.world = Raised RecursionError Example.world /\
    files (world_of (run_manager Example.env limit JSONManagerClass Example.deepl
                       "broken.json" EmptyString Example.world)) = [].
Proof.
  intros limit.
  assert (H : run_manager Example.env limit JSONManagerClass Example.deepl "broken.json"
                EmptyString Example.world = Raised RecursionError Example.world).
  { unfold run_manager, Manager.__init__, Manager.check_source_file, bind at 1.
    change (path_exists Example.env "broken.json") with true. simpl negb. cbv iota.
    unfold bind at 1. unfold ret at 1. unfold ret at 1.
    now apply (json_run_diverges Example.env limit _ _ (JsonDumps.dumps Example.broken 2)
                 [("a", JDict [])]). }
  rewrite H. split; reflexivity.
Qed.

(** C9: when the content (a well-formed document) has an empty object at
some key, a call of either pass with an empty dictionary walks the content
again, as the call with the default argument does, and neither pass
returns from its first call: whatever the recursion limit, the count and
the translation pass exceed it. *)
Theorem C9_empty_object_restarts_walk {T : Type} (env : Environment T)
  (m : JSONManager.t) (w : World T) :
  Json.wf_json (DictionaryManager.content m) = true ->
  Json.has_empty_object (DictionaryManager.content m) = true ->
  (forall limit q,
     JSONManager.subdict q (DictionaryManager.content m) = Some [] ->
     JSONManager.translate_content env (S limit) (Some q) m w =
     JSONManager.translate_content env (S limit) None m w) /\
  (forall limit,
     JSONManager.get_number_of_translations (S limit) (DictionaryManager.content m) (Some []) =
     JSONManager.get_number_of_translations (S limit) (DictionaryManager.content m) None) /\
  (forall limit,
     JSONManager.get_number_of_translations limit (DictionaryManager.content m) None =
     inl RecursionError) /\
  (forall limit,
     exists w', JSONManager.translate_content env limit None m w =
                Raised RecursionError w').
Proof.
  intros Hwf He. split; [|split; [|split]].
  - intros limit q Hq. rewrite !tc_unfold. unfold JSONManager.tc_argument. now rewrite Hq.
  - intros limit. reflexivity.
  - intros limit. destruct (has_empty_content _ He) as (d0 & -> & Hd0).
    apply count_diverges; [exact Hd0 | now left].
  - intros limit. apply tc_diverges; [now split | now left].
Qed.

Lemma C9_empty_object_restarts_walk_witness :
  Json.wf_json Example.broken = true /\
  Json.has_empty_object Example.broken = true /\
  (forall limit,
     JSONManager.get_number_of_translations limit Example.broken None = inl RecursionError) /\
  (forall limit,
     exists w',
       JSONManager.translate_content Example.env limit None
         (DictionaryManager.with_progress_bar
            (Manager.mk "broken.json" Example.deepl "/home/user") Example.broken 0)
         Example.world = Raised RecursionError w').
Proof.
  split; [reflexivity|]. split; [reflexivity|].
  pose proof (C9_empty_object_restarts_walk Example.env
                (DictionaryManager.with_progress_bar
                   (Manager.mk "broken.json" Example.deepl "/home/user") Example.broken 0)
                Example.world eq_refl eq_refl) as (_ & _ & H3 & H4).
  split; [exact H3 | exact H4].
Defined.

(** ** Construction of a manager *)

Lemma init_returns {T : Type} (env : Environment T) (deepl : DeeplRequest)
  (source_file output_directory : string) (w : World T) :
  path_exists env source_file = true ->
  Manager.__init__ env deepl source_file output_directory w =
  Returned (Manager.mk source_file deepl (resolved_directory env output_directory)) w.
Proof.
  intros H. unfold Manager.__init__, Manager.check_source_file, bind. now rewrite H.
Qed.

Lemma init_exits {T : Type} (env : Environment T) (deepl : DeeplRequest)
  (source_file output_directory : string) (w : World T) :
  path_exists env source_file = false ->
  Manager.__init__ env deepl source_file output_directory w =
  Exited 0 (mkWorld (stdout w ++ [missing_source_message source_file]) (files w) (api w)).
Proof.
  intros H. unfold Manager.__init__, Manager.check_source_file, bind. now rewrite H.
Qed.

(** ** Failed translations *)




(** ** Catalogs: message ids and occurrences *)

Lemma po_items_keys (content : dict POManager.value) :
  forall rs : list (option string),
    length rs = length content -> keys (zip_with po_item content rs) = keys content.
Proof.
  unfold keys. induction content as [|kv content IH]; intros [|r rs] H;
    try discriminate; [reflexivity|].
  simpl. f_equal. apply IH. now injection H.
Qed.

Lemma msgids_translated_entries (content : dict POManager.value) :
  Catalog.msgids (POManager.translated_entries content) = keys content.
Proof.
  unfold Catalog.msgids, POManager.translated_entries, keys. rewrite map_map.
  reflexivity.
Qed.

(** An entry written for a content that was loaded from [pofile] and then
translated has the message id and the occurrences of the last entry of
[pofile] with that id. *)
Lemma translated_entry_origin (pofile : list Polib.POEntry) (rs : list (option string))
  (entry : Polib.POEntry) :
  entry ∈ POManager.translated_entries
            (zip_with po_item (POManager.load_entries pofile []) rs) ->
  exists source,
    Catalog.last_with_id (Polib.msgid entry) pofile = Some source /\
    Polib.occurrences entry = Polib.occurrences source.
Proof.
  intros H. unfold POManager.translated_entries in H.
  apply list_elem_of_fmap in H as ([k v] & -> & H).
  apply list_elem_of_lookup_1 in H as [i H].
  apply lookup_zip_with_Some in H as ([k0 v0] & r & E & Hi & _).
  unfold po_item in E. simpl in E. injection E as -> ->. simpl.
  assert (Hget : dict_get k0 (POManager.load_entries pofile []) = Some v0).
  { apply elem_dict_get.
    - apply load_entries_NoDup. constructor.
    - eapply list_elem_of_lookup_2. exact Hi. }
  rewrite load_entries_get in Hget.
  destruct (Catalog.last_with_id k0 pofile) as [source|]; [|discriminate].
  injection Hget as <-. exists source. split; reflexivity.
Qed.

(** C4: a run of the PO manager on a catalog returns with the new catalog
saved and compiled; the message ids of the new catalog are those of the
input, each once, and every entry of the new catalog has the occurrences
of the input entry with its message id (the last one, when several input
entries have this id). *)
Theorem C4_catalog_ids_and_occurrences {T : Type} (env : Environment T) (limit : nat)
  (deepl : DeeplRequest) (source_file output_directory : string) (w : World T)
  (pofile : Polib.POFile) :
  path_exists env source_file = true ->
  polib_pofile env source_file = Some pofile ->
  exists (out : Polib.POFile) (w' : World T),
    run_manager env limit POManagerClass deepl source_file output_directory w =
      Returned tt w' /\
    files w' =
      files w ++
      [(resolved_directory env output_directory +:+ "/" +:+
        PyStr.lower (target_lang deepl) +:+ snd (OsPath.splitext source_file),
        PoCatalog out);
       (resolved_directory env output_directory +:+ "/" +:+
        PyStr.lower (target_lang deepl) +:+ ".mo", MoCatalog out)] /\
    (forall id, In id (Catalog.msgids (Polib.entries out)) <->
                In id (Catalog.msgids (Polib.entries pofile))) /\
    NoDup (Catalog.msgids (Polib.entries out)) /\
    (forall entry,
       In entry (Polib.entries out) ->
       exists source,
         In source (Polib.entries pofile) /\
         Catalog.last_with_id (Polib.msgid entry) (Polib.entries pofile) = Some source /\
         Polib.msgid source = Polib.msgid entry /\
         Polib.occurrences entry = Polib.occurrences source) /\
    Polib.metadata out = Polib.metadata pofile.
Proof.
  intros Hp Hparse. unfold run_manager, bind. rewrite (init_returns env _ _ _ _ Hp).
  destruct (po_run env (Manager.mk source_file deepl (resolved_directory env output_directory))
              w pofile Hparse) as (Hlen & t' & Hrun).
  simpl Manager.deepl in Hrun, Hlen.
  eexists _, _. split; [exact Hrun|]. split; [reflexivity|].
  simpl Polib.entries. simpl Polib.metadata.
  rewrite msgids_translated_entries, (po_items_keys _ _ Hlen).
  split; [|split; [|split; [|reflexivity]]].
  - intros id. rewrite <- !list_elem_of_In, load_entries_keys.
    split; [intros [H|H]; [now apply elem_of_nil in H | exact H] | now right].
  - apply load_entries_NoDup. constructor.
  - intros entry Hin. apply list_elem_of_In in Hin.
    destruct (translated_entry_origin _ _ _ Hin) as (source & Hlast & Hocc).
    destruct (last_with_id_elem _ _ _ Hlast) as [Hs Hid].
    exists source. rewrite <- list_elem_of_In. auto.
Qed.

Lemma C4_catalog_ids_and_occurrences_witness :
  path_exists Example.env "en.po" = true /\
  polib_pofile Example.env "en.po" = Some Example.catalog /\
  exists (out : Polib.POFile) (w' : World nat),
    run_manager Example.env 0 POManagerClass Example.deepl "en.po" "out" Example.world =
      Returned tt w' /\
    files w' = [("out/it.po", PoCatalog out); ("out/it.mo", MoCatalog out)] /\
    (forall id, In id (Catalog.msgids (Polib.entries out)) <->
                In id ["Open"; "Hello"; "Open"; "Quit"]) /\
    NoDup (Catalog.msgids (Polib.entries out)).
Proof.
  split; [reflexivity|]. split; [reflexivity|].
  destruct (C4_catalog_ids_and_occurrences Example.env 0 Example.deepl "en.po" "out"
              Example.world Example.catalog eq_refl eq_refl)
    as (out & w' & Hrun & Hf & Hids & Hnd & _).
  exists out, w'. split; [exact Hrun|]. split; [exact Hf|]. split; [exact Hids | exact Hnd].
Defined.

(** ** Catalogs: the message string kept for an entry *)

Lemma recording_requests {T : Type} (env : Environment T) (deepl : DeeplRequest)
  (ls : list json) :
  forall s : list json * T,
    fst (Walk.final_state (recording env) deepl ls s) = fst s ++ ls.
Proof.
  induction ls as [|x ls IH]; intros [log t]; simpl.
  - now rewrite app_nil_r.
  - rewrite IH. simpl. now rewrite <- app_assoc.
Qed.

(** C7, as stated, fails for an entry whose message id a later entry
repeats: in [en.po] the first entry has the message id [Open] and the
message string [Apri], and what the loaded content holds for it, and
submits, is [Aperto], the message string of the third entry. *)
Lemma C7_repeated_id_is_overwritten :
  ~ (forall entry,
       In entry (Polib.entries Example.catalog) ->
       option_map POManager.msgstr
         (dict_get (Polib.msgid entry)
            (POManager.load_entries (Polib.entries Example.catalog) [])) =
       Some (if String.eqb (Polib.msgstr entry) EmptyString
             then Polib.msgid entry else Polib.msgstr entry)) /\
  Catalog.submitted (POManager.load_entries (Polib.entries Example.catalog) []) =
  [JStr "Aperto"; JStr "Hello"; JStr "Esci"].
Proof.
  split; [|reflexivity].
  intros H.
  specialize (H (Polib.mkPOEntry "Open" "Apri" (Some "menu") [("menu.c", "10")])
                (or_introl eq_refl)).
  vm_compute in H. discriminate H.
Qed.

(** C7, amended: for every entry of the catalog whose message id no later
entry repeats, the loaded content holds, at its message id, the message
id when the message string is empty and the message string otherwise; the
translation pass submits the message strings of the loaded content, in
order, this one among them. *)
Theorem C7_last_entry_default {T : Type} (env : Environment T) (self : Manager.t)
  (w : World (list json * T)) (pofile : Polib.POFile)
  (before after : list Polib.POEntry) (entry : Polib.POEntry) :
  polib_pofile env (Manager.source_file self) = Some pofile ->
  Polib.entries pofile = before ++ entry :: after ->
  ~ In (Polib.msgid entry) (Catalog.msgids after) ->
  exists content m' w',
    POManager.load_source_content (recording env) self [] w = Returned content w /\
    option_map POManager.msgstr (dict_get (Polib.msgid entry) content) =
      Some (if String.eqb (Polib.msgstr entry) EmptyString
            then Polib.msgid entry else Polib.msgstr entry) /\
    POManager.translate_content (recording env)
      (DictionaryManager.with_progress_bar self content
         (POManager.get_number_of_translations content)) w = Returned m' w' /\
    fst (api w') = fst (api w) ++ Catalog.submitted content /\
    In (JStr (if String.eqb (Polib.msgstr entry) EmptyString
              then Polib.msgid entry else Polib.msgstr entry))
       (Catalog.submitted content).
Proof.
  intros Hparse Hentries Hlast.
  set (content := POManager.load_entries (Polib.entries pofile) []).
  destruct (po_translate_items (recording env) content []
              (DictionaryManager.with_progress_bar self content
                 (POManager.get_number_of_translations content)) w eq_refl)
    as (m' & w' & Hrun & _ & _ & _ & _ & _ & _ & _ & _ & _ & Hapi).
  assert (Hget : dict_get (Polib.msgid entry) content = Some (POManager.value_of_entry entry)).
  { unfold content. rewrite load_entries_get, Hentries, last_with_id_last; [reflexivity|].
    now rewrite list_elem_of_In. }
  exists content, m', w'. split; [|split; [|split; [|split]]].
  - unfold POManager.load_source_content, POManager.pofile_source, bind.
    change (polib_pofile (recording env) (Manager.source_file self))
      with (polib_pofile env (Manager.source_file self)).
    now rewrite Hparse.
  - now rewrite Hget.
  - exact Hrun.
  - rewrite Hapi. apply recording_requests.
  - apply dict_get_Some_elem in Hget. apply list_elem_of_In.
    unfold Catalog.submitted.
    apply (list_elem_of_fmap_2 (fun kv => JStr (POManager.msgstr (snd kv)))) in Hget.
    exact Hget.
Qed.

Lemma C7_last_entry_default_witness :
  polib_pofile Example.env "en.po" = Some Example.catalog /\
  Polib.entries Example.catalog =
    [Polib.mkPOEntry "Open" "Apri" (Some "menu") [("menu.c", "10")]] ++
    Polib.mkPOEntry "Hello" EmptyString None [("main.c", "3"); ("main.c", "7")] ::
    [Polib.mkPOEntry "Open" "Aperto" (Some "status") [("status.c", "21")];
     Polib.mkPOEntry "Quit" "Esci" None []] /\
  ~ In "Hello" ["Open"; "Quit"] /\
  exists content,
    POManager.load_source_content (recording Example.env)
      (Manager.mk "en.po" Example.deepl "/home/user") [] (mkWorld [] [] ([], 0)) =
      Returned content (mkWorld [] [] ([], 0)) /\
    option_map POManager.msgstr (dict_get "Hello" content) = Some "Hello" /\
    In (JStr "Hello") (Catalog.submitted content).
Proof.
  assert (Hlast : ~ In "Hello" ["Open"; "Quit"]).
  { intros [H|[H|[]]]; discriminate H. }
  split; [reflexivity|]. split; [reflexivity|]. split; [exact Hlast|].
  destruct (C7_last_entry_default Example.env (Manager.mk "en.po" Example.deepl "/home/user")
              (mkWorld [] [] ([], 0)) Example.catalog
              [Polib.mkPOEntry "Open" "Apri" (Some "menu") [("menu.c", "10")]]
              [Polib.mkPOEntry "Open" "Aperto" (Some "status") [("status.c", "21")];
               Polib.mkPOEntry "Quit" "Esci" None []]
              (Polib.mkPOEntry "Hello" EmptyString None [("main.c", "3"); ("main.c", "7")])
              eq_refl eq_refl Hlast)
    as (content & _ & _ & Hload & Hget & _ & _ & Hin).
  exists content. split; [exact Hload|]. split; [exact Hget | exact Hin].
Defined.

(** ** Paths, construction and exits *)

Lemma extension_splitext (self : Manager.t) :
  Manager.extension self = snd (OsPath.splitext (Manager.source_file self)).
Proof.
  unfold Manager.extension. now destruct (OsPath.splitext (Manager.source_file self)).
Qed.

(** C5: for a source file that exists, the manager of every class is the
one [Manager.__init__] returns; its target file is the output directory,
a slash, the target language in lower case and the extension of the source
file, and its output directory is the argument when this is not empty and
names a directory, and the current working directory otherwise. *)
Theorem C5_target_file {T : Type} (env : Environment T) (deepl : DeeplRequest)
  (source_file output_directory : string) (w : World T) :
  path_exists env source_file = true ->
  exists manager : Manager.t,
    Manager.__init__ env deepl source_file output_directory w = Returned manager w /\
    (forall limit cls,
       run_manager env limit cls deepl source_file output_directory w =
       translate_source_file env limit cls manager w) /\
    Manager.target_file manager =
      Manager.output_directory manager +:+ "/" +:+
      PyStr.lower (target_lang deepl) +:+ snd (OsPath.splitext source_file) /\
    fst (OsPath.splitext source_file) +:+ snd (OsPath.splitext source_file) = source_file /\
    (output_directory = EmptyString \/ path_isdir env output_directory = false ->
     Manager.output_directory manager = getcwd env) /\
    (output_directory <> EmptyString -> path_isdir env output_directory = true ->
     Manager.output_directory manager = output_directory).
Proof.
  intros Hp.
  exists (Manager.mk source_file deepl (resolved_directory env output_directory)).
  split; [now apply init_returns|]. split; [|split; [|split; [|split]]].
  - intros limit cls. unfold run_manager, bind. now rewrite (init_returns env _ _ _ _ Hp).
  - unfold Manager.target_file. now rewrite extension_splitext.
  - apply splitext_join.
  - simpl. unfold resolved_directory. intros [-> | ->]; [reflexivity|].
    now rewrite andb_false_r.
  - simpl. unfold resolved_directory. intros Hne ->.
    destruct (String.eqb_spec output_directory EmptyString); [congruence | reflexivity].
Qed.

Lemma C5_target_file_witness :
  path_exists Example.env "en.json" = true /\
  exists manager : Manager.t,
    Manager.__init__ Example.env Example.deepl "en.json" "missing" Example.world =
      Returned manager Example.world /\
    Manager.target_file manager = "/home/user/it.json".
Proof.
  split; [reflexivity|].
  destruct (C5_target_file Example.env Example.deepl "en.json" "missing" Example.world eq_refl)
    as (manager & Hinit & _ & Ht & _ & Hcwd & _).
  exists manager. split; [exact Hinit|].
  rewrite Ht, (Hcwd (or_intror eq_refl)). reflexivity.
Defined.

(** If [BaseManager] were bound to the text manager, the translate action
would run the manager selected by the extension of the source file. *)
Lemma translate_selects_by_extension {T : Type} (env : Environment T) (limit : nat)
  (args : Main.Namespace) (source_file target output_directory : string) :
  Main.action args = "translate" ->
  Main.source_file args = Some source_file ->
  Main.target_lang args = Some target ->
  Main.output_directory args = Some output_directory ->
  Main.translate_or_print_data env limit
    (Main.Class TextManagerClass) (Main.Class JSONManagerClass) (Main.Class POManagerClass)
    args =
  (run_manager env limit
     (if String.eqb (snd (OsPath.splitext source_file)) ".json" then JSONManagerClass
      else if String.eqb (snd (OsPath.splitext source_file)) ".po" then POManagerClass
      else TextManagerClass)
     (new_request env (Main.target_lang args) (Main.source_lang args))
     source_file output_directory ;;;
   print (Colorama.Fore_GREEN +:+ String PyStr.newline
            ("Finish." +:+ String PyStr.newline EmptyString)))%py.
Proof.
  intros Ha Hs Ht Ho. unfold Main.translate_or_print_data.
  rewrite Ha, Hs, Ht, Ho. simpl.
  destruct (OsPath.splitext source_file) as [name extension]. simpl.
  unfold Main.select_manager, Main.instantiate_and_translate.
  destruct (String.eqb extension ".json"); [reflexivity|].
  destruct (String.eqb extension ".po"); reflexivity.
Qed.

(** C6, on the program as it is: [polyglot/managers.py] binds no name
[BaseManager], so the import at the head of [polyglot/__main__.py] raises
[ImportError] for every command line; no manager is selected and no
[translate_source_file] is invoked. *)
Theorem C6_import_of_BaseManager_fails {T : Type} (env : Environment T) (limit : nat)
  (args : Main.Namespace) (w : World T) :
  dict_get "BaseManager" Main.managers_namespace = None /\
  dict_get "TextManager" Main.managers_namespace = Some (Main.Class TextManagerClass) /\
  Main.main env limit args w = Raised (ImportError "BaseManager") w.
Proof. repeat split. Qed.

(** C8: when the source file does not exist, the construction of the
manager ends the process, whatever the class: the error message is
printed, no file is written, the translation service is not called, and
[translate_source_file] is not reached. *)
Theorem C8_missing_source_exits {T : Type} (env : Environment T) (limit : nat)
  (cls : manager_class) (deepl : DeeplRequest) (source_file output_directory : string)
  (w : World T) :
  path_exists env source_file = false ->
  Manager.__init__ env deepl source_file output_directory w =
    Exited 0 (mkWorld (stdout w ++ [missing_source_message source_file]) (files w) (api w)) /\
  run_manager env limit cls deepl source_file output_directory w =
    Exited 0 (mkWorld (stdout w ++ [missing_source_message source_file]) (files w) (api w)).
Proof.
  intros Hp. split; [now apply init_exits|].
  unfold run_manager, bind. now rewrite (init_exits env _ _ _ _ Hp).
Qed.

Lemma C8_missing_source_exits_witness :
  path_exists Example.env "absent.json" = false /\
  run_manager Example.env 3 JSONManagerClass Example.deepl "absent.json" "out" Example.world =
    Exited 0 (mkWorld [missing_source_message "absent.json"] [] 0).
Proof.
  split; [reflexivity|].
  exact (proj2 (C8_missing_source_exits Example.env 3 JSONManagerClass Example.deepl
                  "absent.json" "out" Example.world eq_refl)).
Defined.



(** ** Scenarios *)

(** An empty object inside a list is part of a leaf: the walk does not
enter lists, and both passes return. *)
Example empty_object_in_list :
  JSONManager.get_number_of_translations 1 (JDict [("a", JList [JDict []])]) None = inr 1 /\
  Json.has_empty_object (JDict [("a", JList [JDict []])]) = false.
Proof. split; reflexivity. Qed.

(** The empty document has no leaf and no key: the count is 0. *)
Example empty_document :
  JSONManager.get_number_of_translations 1 (JDict []) None = inr 0 /\
  Json.has_empty_object (JDict []) = false.
Proof. split; reflexivity. Qed.


(** Translating [{"greeting": "hello"}] to [it] with a service that turns
[hello] into [ciao] writes [it.json] with [{"greeting": "ciao"}]. *)
Example scenario_greeting :
  (self <- JSONManager.translate_content Example.env 1 None
             (DictionaryManager.with_progress_bar
                (Manager.mk "en.json" Example.deepl "out")
                (JDict [("greeting", JStr "hello")]) 1) ;;
   JSONManager.make_translated_files self)%py Example.world =
  Returned tt
    (mkWorld ["Generated out/it.json."]
             [("out/it.json",
               TextFile (JsonDumps.dumps (JDict [("greeting", JStr "ciao")]) 2))]
             1).
Proof. reflexivity. Qed.

(** A catalog with the one entry [Hello], whose message string is empty:
the entry is loaded with its message id as message string, and saved with
the translation [Ciao] and its occurrences. *)
Example scenario_hello :
  let content :=
    POManager.load_entries [Polib.mkPOEntry "Hello" EmptyString None [("main.c", "3")]] [] in
  content = [("Hello", POManager.mkValue "Hello" [("main.c", "3")])] /\
  exists self w,
    POManager.translate_content Example.env
      (DictionaryManager.with_progress_bar (Manager.mk "en.po" Example.deepl "out") content 1)
      Example.world = Returned self w /\
    POManager.translated_entries (DictionaryManager.content self) =
    [Polib.new_entry "Hello" "Ciao" [("main.c", "3")]].
Proof. split; [reflexivity|]. eexists _, _. split; reflexivity. Qed.

(** * Further properties of the code *)

(** ** A document is its shape and its leaves *)

Lemma leaves_length_shape (v : json) :
  length (Json.leaves (Json.shape v)) = length (Json.leaves v).
Proof.
  induction v as [v Hv | d IH] using json_dict_ind.
  - rewrite (shape_leaf v Hv), (leaves_leaf v Hv). reflexivity.
  - rewrite shape_dict, !leaves_dict.
    induction IH as [|[k v] d Hv _ IHd]; [reflexivity|].
    rewrite shape_items_cons, !leaves_items_cons, !length_app.
    simpl in Hv. now rewrite Hv, IHd.
Qed.

Lemma shape_dict_inv (v : json) (sd : dict json) :
  Json.shape v = JDict sd -> exists d, v = JDict d /\ Json.shape_items d = sd.
Proof.
  destruct v as [ | | | | | |d]; try discriminate.
  rewrite shape_dict. intros [= <-]. now exists d.
Qed.

Lemma json_shape_leaves_eq (a : json) :
  forall b, Json.shape a = Json.shape b -> Json.leaves a = Json.leaves b -> a = b.
Proof.
  induction a as [a Ha | d IH] using json_dict_ind; intros b Hs Hl.
  - rewrite (shape_leaf a Ha) in Hs. rewrite (leaves_leaf a Ha) in Hl.
    destruct (isinstance_dict b) eqn:Hb.
    + destruct b; discriminate.
    + rewrite (leaves_leaf b Hb) in Hl. congruence.
  - rewrite shape_dict in Hs. symmetry in Hs.
    apply shape_dict_inv in Hs as (e & -> & Hs). f_equal.
    rewrite !leaves_dict in Hl.
    revert e Hs Hl. induction IH as [|[k v] d Hv _ IHd]; intros e Hs Hl.
    + destruct e; [reflexivity|discriminate].
    + destruct e as [|[k' v'] e]; [discriminate|].
      rewrite !shape_items_cons in Hs. injection Hs as Hk Hsv Hse.
      rewrite !leaves_items_cons in Hl.
      apply app_inj_1 in Hl as [Hlv Hle].
      2:{ rewrite <- (leaves_length_shape v), <- (leaves_length_shape v'). now rewrite Hsv. }
      simpl in Hv. rewrite (Hv v') by (trivial; now symmetry).
      rewrite (IHd e) by (trivial; now symmetry). now subst.
Qed.

Lemma resolve_falsy (value : json) (translation : option string) :
  truthy translation = false -> Walk.resolve value translation = value.
Proof. destruct translation as [[|c s]|]; simpl; congruence. Qed.

Lemma responses_all_fail {T : Type} (env : Environment T) (deepl : DeeplRequest)
  (ls : list json) :
  (forall value t, In value ls -> truthy (fst (translate env deepl value t)) = false) ->
  forall t, zip_with Walk.resolve ls (Walk.responses env deepl ls t) = ls /\
            Walk.failures (Walk.responses env deepl ls t) = length ls.
Proof.
  induction ls as [|x ls IH]; intros fails t; [split; reflexivity|].
  rewrite responses_cons, failures_cons. simpl zip_with.
  rewrite (fails x t (or_introl eq_refl)), (resolve_falsy _ _ (fails x t (or_introl eq_refl))).
  destruct (IH (fun value t H => fails value t (or_intror H))
               (snd (translate env deepl x t))) as [-> ->].
  split; reflexivity.
Qed.


(** A run on a source file that exists is the run of the manager
[Manager.__init__] returns. *)
Lemma run_manager_existing {T : Type} (env : Environment T) (limit : nat)
  (cls : manager_class) (deepl : DeeplRequest) (source_file output_directory : string)
  (w : World T) :
  path_exists env source_file = true ->
  run_manager env limit cls deepl source_file output_directory w =
  translate_source_file env limit cls
    (Manager.mk source_file deepl (resolved_directory env output_directory)) w.
Proof. intros H. unfold run_manager, bind. now rewrite (init_returns env _ _ _ _ H). Qed.

(** ** Runs of the JSON manager *)

(** X1. On a document without an empty object, whose mappings have pairwise
distinct keys and whose nesting depth is below the recursion limit, the
count that sizes the progress bar is the number of leaves, whatever their
types; the pass asks the service for exactly these leaves, in the order of
the walk, updates the bar once a leaf with 1, 2, ..., and ends with the bar
at its maximum; the counter of failed leaves is the number of falsy
answers. *)
Theorem X1_json_count_requests_updates {T : Type} (env : Environment T) (limit : nat)
  (self : Manager.t) (w : World (list json * T)) (d : dict json) :
  Json.wf_json (JDict d) = true -> Json.has_empty_items d = false ->
  Json.depth_items d < limit ->
  let ls := Json.leaves_items d in
  let rs := Walk.responses (recording env) (Manager.deepl self) ls (api w) in
  JSONManager.get_number_of_translations limit (JDict d) None = inr (length ls) /\
  exists m' w',
    JSONManager.translate_content (recording env) limit None
      (DictionaryManager.with_progress_bar self (JDict d) (length ls)) w = Returned m' w' /\
    fst (api w') = fst (api w) ++ ls /\
    updates (DictionaryManager.progress_bar m') = seq 1 (length ls) /\
    max_value (DictionaryManager.progress_bar m') = length ls /\
    DictionaryManager.completion_count m' = length ls /\
    DictionaryManager.not_translated_count m' = Walk.failures rs /\
    Walk.failures rs <= length ls.
Proof.
  intros Hwf He Hd ls rs.
  split; [now apply count_good_root|].
  destruct (json_translate_content_good (recording env) limit
              (DictionaryManager.with_progress_bar self (JDict d) (length ls)) w d
              eq_refl Hwf He Hd)
    as (d' & m' & w' & Hrun & _ & _ & _ & Hlen & _ & Hc & Hn & Hmax & Hup & _ & _ & Hapi).
  exists m', w'. split; [exact Hrun|].
  split; [rewrite Hapi; apply recording_requests|].
  split; [exact Hup|]. split; [exact Hmax|]. split; [exact Hc|]. split; [exact Hn|].
  unfold Walk.failures. etransitivity; [apply List.filter_length_le|]. apply Nat.eq_le_incl, Hlen.
Qed.

Lemma X1_json_count_requests_updates_witness :
  Json.wf_json Example.document = true /\
  Json.has_empty_items Example.items = false /\
  Json.depth_items Example.items < 3 /\
  JSONManager.get_number_of_translations 3 Example.document None = inr 4 /\
  exists m' w',
    JSONManager.translate_content (recording Example.env) 3 None
      (DictionaryManager.with_progress_bar
         (Manager.mk "en.json" Example.deepl "/home/user") Example.document 4)
      (mkWorld [] [] ([], 0)) = Returned m' w' /\
    fst (api w') = [JStr "hello"; JStr "untranslatable"; JInt 3; JStr "silence"] /\
    updates (DictionaryManager.progress_bar m') = [1; 2; 3; 4].
Proof.
  split; [reflexivity|]. split; [reflexivity|]. split; [simpl; lia|].
  destruct (X1_json_count_requests_updates Example.env 3
              (Manager.mk "en.json" Example.deepl "/home/user") (mkWorld [] [] ([], 0))
              Example.items eq_refl eq_refl ltac:(simpl; lia))
    as (Hcount & m' & w' & Hrun & Hreq & Hup & _).
  split; [exact Hcount|]. exists m', w'.
  split; [exact Hrun|]. split; [exact Hreq | exact Hup].
Defined.

(** X2. A run of the JSON manager on such a document writes one file, at the
target path, with a document of the same keys, key order and nesting; the
leaf at each place of the walk is the answer of the service to that leaf
as a string, whatever the type of the leaf was (a number, a boolean, null
or a list too), and the leaf itself when the answer is falsy. *)
Theorem X2_json_leaves_replaced {T : Type} (env : Environment T) (limit : nat)
  (deepl : DeeplRequest) (source_file output_directory : string) (w : World T)
  (text : string) (d : dict json) :
  path_exists env source_file = true ->
  read_text env source_file = Some text ->
  json_loads env text = Some (JDict d) ->
  Json.wf_json (JDict d) = true -> Json.has_empty_items d = false ->
  Json.depth_items d < limit ->
  let self := Manager.mk source_file deepl (resolved_directory env output_directory) in
  let ls := Json.leaves_items d in
  let rs := Walk.responses env deepl ls (api w) in
  exists d' w',
    run_manager env limit JSONManagerClass deepl source_file output_directory w =
      Returned tt w' /\
    files w' =
      files w ++ [(Manager.target_file self, TextFile (JsonDumps.dumps (JDict d') 2))] /\
    Json.shape (JDict d') = Json.shape (JDict d) /\
    length (Json.leaves_items d') = length ls /\
    forall i leaf,
      ls !! i = Some leaf ->
      exists answer,
        rs !! i = Some answer /\
        Json.leaves_items d' !! i =
          Some (match answer with
                | Some s => if PyStr.truthy s then JStr s else leaf
                | None => leaf
                end).
Proof.
  intros Hp Hread Hload Hwf He Hd self ls rs.
  destruct (json_run_good env limit self w text d Hread Hload Hwf He Hd)
    as (d' & t' & Hrun & Hs & Hl & Hlen).
  change (Manager.deepl self) with deepl in Hl, Hlen. fold ls in Hl, Hlen. fold rs in Hl, Hlen.
  eexists d', _. rewrite (run_manager_existing env _ _ _ _ _ _ Hp).
  split; [exact Hrun|]. split; [reflexivity|].
  split; [now rewrite !shape_dict, Hs|].
  split.
  - rewrite Hl, length_zip_with. lia.
  - intros i leaf Hi.
    destruct (rs !! i) as [answer|] eqn:Hr.
    + exists answer. split; [reflexivity|].
      rewrite Hl, lookup_zip_with, Hi. simpl. rewrite Hr. reflexivity.
    + apply lookup_ge_None in Hr. apply lookup_lt_Some in Hi. lia.
Qed.

Lemma X2_json_leaves_replaced_witness :
  path_exists Example.env "en.json" = true /\
  Json.wf_json Example.document = true /\
  Json.has_empty_items Example.items = false /\
  exists d' w',
    run_manager Example.env 3 JSONManagerClass Example.deepl "en.json" "out" Example.world =
      Returned tt w' /\
    files w' = [("out/it.json", TextFile (JsonDumps.dumps (JDict d') 2))] /\
    Json.leaves_items d' !! 0 = Some (JStr "ciao") /\
    Json.leaves_items d' !! 2 = Some (JInt 3).
Proof.
  split; [reflexivity|]. split; [reflexivity|]. split; [reflexivity|].
  destruct (X2_json_leaves_replaced Example.env 3 Example.deepl "en.json" "out"
              Example.world (JsonDumps.dumps Example.document 2) Example.items
              eq_refl eq_refl eq_refl eq_refl eq_refl ltac:(simpl; lia))
    as (d' & w' & Hrun & Hf & _ & _ & Hleaf).
  exists d', w'. split; [exact Hrun|]. split; [exact Hf|]. split.
  - destruct (Hleaf 0 (JStr "hello") eq_refl) as (answer & Ha & Hl).
    injection Ha as <-. exact Hl.
  - destruct (Hleaf 2 (JInt 3) eq_refl) as (answer & Ha & Hl).
    injection Ha as <-. exact Hl.
Defined.

(** X3. When the service has a falsy answer for every leaf of such a
document, the file written is the document as it was loaded, and the
warning counts every leaf. *)
Theorem X3_json_nothing_translated {T : Type} (env : Environment T) (limit : nat)
  (deepl : DeeplRequest) (source_file output_directory : string) (w : World T)
  (text : string) (d : dict json) :
  path_exists env source_file = true ->
  read_text env source_file = Some text ->
  json_loads env text = Some (JDict d) ->
  Json.wf_json (JDict d) = true -> Json.has_empty_items d = false ->
  Json.depth_items d < limit ->
  (forall value t, In value (Json.leaves_items d) ->
                   truthy (fst (translate env deepl value t)) = false) ->
  let self := Manager.mk source_file deepl (resolved_directory env output_directory) in
  exists t',
    run_manager env limit JSONManagerClass deepl source_file output_directory w =
      Returned tt
        (mkWorld
           (stdout w ++ ending_messages (length (Json.leaves_items d)) ++
            ["Generated " +:+ Manager.target_file self +:+ "."])
           (files w ++ [(Manager.target_file self, TextFile (JsonDumps.dumps (JDict d) 2))])
           t').
Proof.
  intros Hp Hread Hload Hwf He Hd Hfail self.
  destruct (json_run_good env limit self w text d Hread Hload Hwf He Hd)
    as (d' & t' & Hrun & Hs & Hl & _).
  destruct (responses_all_fail env deepl (Json.leaves_items d) Hfail (api w)) as [Hz Hn].
  simpl Manager.deepl in Hrun, Hl. rewrite Hz in Hl. rewrite Hn in Hrun.
  assert (E : JDict d' = JDict d).
  { apply json_shape_leaves_eq; [now rewrite !shape_dict, Hs | now rewrite !leaves_dict]. }
  rewrite E in Hrun. exists t'.
  rewrite (run_manager_existing env _ _ _ _ _ _ Hp). exact Hrun.
Qed.

Lemma X3_json_nothing_translated_witness :
  path_exists Office.silent "plain.json" = true /\
  Json.wf_json Office.plain = true /\
  exists t',
    run_manager Office.silent 3 JSONManagerClass Office.deepl "plain.json" "out"
      Office.world =
    Returned tt
      (mkWorld
         (ending_messages 2 ++ ["Generated out/de.json."])
         [("out/de.json", TextFile (JsonDumps.dumps Office.plain 2))] t').
Proof.
  split; [reflexivity|]. split; [reflexivity|].
  exact (X3_json_nothing_translated Office.silent 3 Office.deepl "plain.json" "out"
           Office.world (JsonDumps.dumps Office.plain 2)
           [("title", JStr "Report"); ("pages", JDict [("count", JInt 12)])]
           eq_refl eq_refl eq_refl eq_refl eq_refl ltac:(simpl; lia)
           (fun _ _ _ => eq_refl)).
Defined.

(** X4. A source whose JSON value is not an object (a list, a string, a
number, null) ends the run with [AttributeError] in the counting pass:
nothing is printed or written and the service is not called. *)
Theorem X4_json_not_an_object {T : Type} (env : Environment T) (limit : nat)
  (deepl : DeeplRequest) (source_file output_directory : string) (w : World T)
  (text : string) (content : json) :
  path_exists env source_file = true ->
  read_text env source_file = Some text ->
  json_loads env text = Some content ->
  isinstance_dict content = false ->
  0 < limit ->
  run_manager env limit JSONManagerClass deepl source_file output_directory w =
  Raised AttributeError w.
Proof.
  intros Hp Hread Hload Hc Hlimit.
  rewrite (run_manager_existing env _ _ _ _ _ _ Hp).
  unfold translate_source_file, JSONManager.translate_source_file,
    JSONManager.load_source_content, bind.
  cbn [Manager.source_file]. rewrite Hread, Hload. unfold ret.
  destruct limit as [|limit]; [lia|]. rewrite count_unfold.
  unfold JSONManager.count_argument. destruct content; try reflexivity; discriminate.
Qed.

Lemma X4_json_not_an_object_witness :
  path_exists (Office.env None) "numbers.json" = true /\
  json_loads (Office.env None) "[1, 2]" = Some (JList [JInt 1; JInt 2]) /\
  run_manager (Office.env None) 1000 JSONManagerClass Office.deepl "numbers.json" "out"
    Office.world = Raised AttributeError Office.world.
Proof.
  split; [reflexivity|]. split; [reflexivity|].
  apply (X4_json_not_an_object (Office.env None) 1000 Office.deepl "numbers.json" "out"
           Office.world "[1, 2]" Office.numbers eq_refl eq_refl eq_refl eq_refl).
  lia.
Defined.

(** X5. The JSON manager and the PO manager do not handle a source that
cannot be read or parsed: the run ends with the exception of [open],
[json.load] or [polib.pofile], with nothing printed or written and no
request sent, where the text manager prints a message and exits. *)
Theorem X5_load_errors_not_handled {T : Type} (env : Environment T) (limit : nat)
  (deepl : DeeplRequest) (source_file output_directory : string) (w : World T) :
  path_exists env source_file = true ->
  (read_text env source_file = None \/
   (exists text, read_text env source_file = Some text /\ json_loads env text = None) ->
   exists e,
     run_manager env limit JSONManagerClass deepl source_file output_directory w =
     Raised e w) /\
  (polib_pofile env source_file = None ->
   exists e,
     run_manager env limit POManagerClass deepl source_file output_directory w =
     Raised e w).
Proof.
  intros Hp. rewrite !(run_manager_existing env _ _ _ _ _ _ Hp). split.
  - intros Hjson.
    unfold translate_source_file, JSONManager.translate_source_file,
      JSONManager.load_source_content, bind. cbn [Manager.source_file].
    destruct Hjson as [-> | (text & -> & ->)]; eexists; reflexivity.
  - intros Hpo.
    unfold translate_source_file, POManager.translate_source_file,
      POManager.load_source_content, POManager.pofile_source, bind.
    cbn [Manager.source_file]. rewrite Hpo. eexists; reflexivity.
Qed.

Lemma X5_load_errors_not_handled_witness :
  path_exists (Office.env None) "cut.json" = true /\
  read_text (Office.env None) "cut.json" = Some "{" /\
  json_loads (Office.env None) "{" = None /\
  polib_pofile (Office.env None) "cut.json" = None /\
  (exists e,
     run_manager (Office.env None) 1000 JSONManagerClass Office.deepl "cut.json" "out"
       Office.world = Raised e Office.world) /\
  (exists e,
     run_manager (Office.env None) 1000 POManagerClass Office.deepl "cut.json" "out"
       Office.world = Raised e Office.world).
Proof.
  do 4 (split; [reflexivity|]).
  destruct (X5_load_errors_not_handled (Office.env None) 1000 Office.deepl "cut.json" "out"
              Office.world eq_refl) as [Hjson Hpo].
  split.
  - apply Hjson. right. exists "{". split; reflexivity.
  - apply Hpo. reflexivity.
Defined.

(** ** Runs of the PO manager *)

Lemma dict_get_notin {V : Type} (k : string) (d : dict V) :
  k ∉ keys d -> dict_get k d = None.
Proof.
  induction d as [|[k' v'] d IH]; intros Hk; [reflexivity|].
  simpl in *. apply not_elem_of_cons in Hk as [Hne Hk].
  destruct (String.eqb_spec k k'); [congruence|]. now apply IH.
Qed.

(** A dictionary is its keys, in order, and the value at each key. *)
Lemma dict_ext {V : Type} (a : dict V) :
  forall b, NoDup (keys a) -> keys a = keys b ->
            (forall k, dict_get k a = dict_get k b) -> a = b.
Proof.
  induction a as [|[k v] a IH]; intros [|[k' v'] b] Hnd Hk Hg; try discriminate;
    [reflexivity|].
  simpl in Hk. injection Hk as <- Hk.
  apply NoDup_cons in Hnd as [Hka Hnd].
  pose proof (Hg k) as Hv. simpl in Hv. rewrite String.eqb_refl in Hv. injection Hv as <-.
  f_equal. apply IH; [exact Hnd | exact Hk |].
  intros j. destruct (String.eqb_spec j k) as [-> | Hne].
  - rewrite !dict_get_notin; [reflexivity | now rewrite <- Hk | exact Hka].
  - specialize (Hg j). simpl in Hg. apply String.eqb_neq in Hne. now rewrite Hne in Hg.
Qed.

Lemma load_entries_prefix (pofile : list Polib.POEntry) :
  forall content,
    exists new, keys (POManager.load_entries pofile content) = keys content ++ new.
Proof.
  induction pofile as [|entry rest IH]; intros content.
  - exists []. now rewrite app_nil_r.
  - rewrite load_entries_cons.
    destruct (IH (dict_set (Polib.msgid entry) (POManager.value_of_entry entry) content))
      as [new ->].
    rewrite keys_dict_set. destruct (bool_decide _).
    + now exists new.
    + exists (Polib.msgid entry :: new). now rewrite <- app_assoc.
Qed.

Lemma load_entries_present (pofile : list Polib.POEntry) :
  forall content,
    (forall id, id ∈ Catalog.msgids pofile -> id ∈ keys content) ->
    keys (POManager.load_entries pofile content) = keys content.
Proof.
  induction pofile as [|entry rest IH]; intros content Hin; [reflexivity|].
  rewrite load_entries_cons.
  assert (Hk : keys (dict_set (Polib.msgid entry) (POManager.value_of_entry entry) content) =
               keys content).
  { rewrite keys_dict_set, bool_decide_eq_true_2; [reflexivity|].
    apply Hin. apply elem_of_cons. now left. }
  rewrite IH; [exact Hk|].
  intros id Hid. rewrite Hk. apply Hin. apply elem_of_cons. now right.
Qed.


(** X6. For every catalog the number that sizes the progress bar is the
number of message ids kept, at most the number of entries; the pass
returns, asks the service for the message string kept at each id, in the
order of the ids, updates the bar once an id with 1, 2, ..., ends with the
bar at its maximum, and keeps the ids where they are. *)
Theorem X6_po_count_requests_updates {T : Type} (env : Environment T)
  (self : Manager.t) (pofile : Polib.POFile) (w : World (list json * T)) :
  let content := POManager.load_entries (Polib.entries pofile) [] in
  let n := POManager.get_number_of_translations content in
  n <= length (Polib.entries pofile) /\
  exists m' w',
    POManager.translate_content (recording env)
      (DictionaryManager.with_progress_bar self content n) w = Returned m' w' /\
    fst (api w') = fst (api w) ++ Catalog.submitted content /\
    updates (DictionaryManager.progress_bar m') = seq 1 n /\
    max_value (DictionaryManager.progress_bar m') = n /\
    DictionaryManager.completion_count m' = n /\
    DictionaryManager.not_translated_count m' <= n /\
    keys (DictionaryManager.content m') = keys content.
Proof.
  intros content n. split.
  - unfold n, POManager.get_number_of_translations.
    rewrite <- (length_map fst content), <- (length_map Polib.msgid (Polib.entries pofile)).
    apply submseteq_length, NoDup_submseteq.
    + apply (load_entries_NoDup (Polib.entries pofile) []), NoDup_nil_2.
    + intros id Hid. apply (load_entries_keys id (Polib.entries pofile) []) in Hid.
      destruct Hid as [Hid | Hid]; [now apply elem_of_nil in Hid | exact Hid].
  - destruct (po_translate_items (recording env) content []
                (DictionaryManager.with_progress_bar self content n) w eq_refl)
      as (m' & w' & Hrun & Hc & Hlen & _ & Hcc & Hn & Hmax & Hup & _ & _ & Hapi).
    exists m', w'. split; [exact Hrun|].
    split; [rewrite Hapi; apply recording_requests|].
    split; [exact Hup|]. split; [exact Hmax|]. split; [exact Hcc|].
    split.
    + rewrite Hn. simpl. unfold Walk.failures.
      etransitivity; [apply List.filter_length_le|]. apply Nat.eq_le_incl, Hlen.
    + rewrite Hc. simpl. now apply po_items_keys.
Qed.



(** X8. [load_source_content] adds to the content it finds, the dictionary
of the class that the instances share: the ids already there keep their
places, an id that the catalog does not have keeps its value, and loading
the same catalog once more changes nothing. *)
Theorem X8_po_load_accumulates (pofile : list Polib.POEntry) (content : dict POManager.value) :
  NoDup (keys content) ->
  (exists new, keys (POManager.load_entries pofile content) = keys content ++ new) /\
  (forall id, id ∉ Catalog.msgids pofile ->
              dict_get id (POManager.load_entries pofile content) = dict_get id content) /\
  POManager.load_entries pofile (POManager.load_entries pofile content) =
    POManager.load_entries pofile content.
Proof.
  intros Hnd. split; [apply load_entries_prefix|]. split.
  - intros id Hid. rewrite load_entries_get.
    apply last_with_id_None in Hid. now rewrite Hid.
  - apply dict_ext.
    + now do 2 apply load_entries_NoDup.
    + apply load_entries_present. intros id Hid.
      apply load_entries_keys. now right.
    + intros k. rewrite (load_entries_get k pofile (POManager.load_entries pofile content)).
      rewrite (load_entries_get k pofile content).
      now destruct (Catalog.last_with_id k pofile).
Qed.

Lemma X8_po_load_accumulates_witness :
  NoDup (keys [("Open", POManager.mkValue "Apri" [])]) /\
  keys (POManager.load_entries (Polib.entries Office.menu)
          [("Open", POManager.mkValue "Apri" [])]) = ["Open"; "File"; "Edit"] /\
  dict_get "Open" (POManager.load_entries (Polib.entries Office.menu)
                     [("Open", POManager.mkValue "Apri" [])]) =
    Some (POManager.mkValue "Apri" []) /\
  POManager.load_entries (Polib.entries Office.menu)
    (POManager.load_entries (Polib.entries Office.menu)
       [("Open", POManager.mkValue "Apri" [])]) =
  POManager.load_entries (Polib.entries Office.menu) [("Open", POManager.mkValue "Apri" [])].
Proof.
  assert (Hnd : NoDup (keys [("Open", POManager.mkValue "Apri" [])])).
  { apply (bool_decide_unpack _). vm_compute. exact I. }
  split; [exact Hnd|].
  destruct (X8_po_load_accumulates (Polib.entries Office.menu)
              [("Open", POManager.mkValue "Apri" [])] Hnd) as (_ & Hget & Hidem).
  split; [reflexivity|]. split; [|exact Hidem].
  rewrite Hget; [reflexivity|].
  intros Hin. apply list_elem_of_In in Hin. simpl in Hin.
  destruct Hin as [H | [H | H]]; [discriminate H | discriminate H | exact H].
Defined.

(** ** Runs of the text manager *)

(** A run of the text manager on a file it can read. *)
Lemma text_run {T : Type} (env : Environment T) (limit : nat)
  (deepl : DeeplRequest) (source_file output_directory : string) (w : World T)
  (text : string) :
  path_exists env source_file = true ->
  read_text env source_file = Some text ->
  let self := Manager.mk source_file deepl (resolved_directory env output_directory) in
  let answer := translate env deepl (JStr text) (api w) in
  run_manager env limit TextManagerClass deepl source_file output_directory w =
  Returned tt
    (if truthy (fst answer)
     then mkWorld (stdout w ++ ["Generated " +:+ Manager.target_file self +:+ "."])
                  (files w ++
                   [(Manager.target_file self,
                     TextFile (match fst answer with Some s => s | None => EmptyString end))])
                  (snd answer)
     else mkWorld (stdout w) (files w) (snd answer)).
Proof.
  intros Hp Hread self answer.
  rewrite (run_manager_existing env _ _ _ _ _ _ Hp).
  unfold translate_source_file, TextManager.translate_source_file,
    TextManager.load_source_content, TextManager.translate_content, bind, call_api, ret.
  cbn [TextManager.base TextManager.content Manager.source_file Manager.deepl].
  rewrite Hread. cbn [TextManager.base TextManager.content Manager.deepl].
  fold answer. destruct answer as [[[|c s]|] t']; reflexivity.
Qed.

(** X9. A run of the text manager on a file it can read sends the whole
text as one request; when the answer is a non-empty string, that string is
written to the target path, and otherwise nothing is written or printed
and the run still returns. *)
Theorem X9_text_one_request {T : Type} (env : Environment T) (limit : nat)
  (deepl : DeeplRequest) (source_file output_directory : string) (w : World T)
  (text : string) :
  path_exists env source_file = true ->
  read_text env source_file = Some text ->
  let self := Manager.mk source_file deepl (resolved_directory env output_directory) in
  let answer := translate env deepl (JStr text) (api w) in
  run_manager env limit TextManagerClass deepl source_file output_directory w =
  Returned tt
    (if truthy (fst answer)
     then mkWorld (stdout w ++ ["Generated " +:+ Manager.target_file self +:+ "."])
                  (files w ++
                   [(Manager.target_file self,
                     TextFile (match fst answer with Some s => s | None => EmptyString end))])
                  (snd answer)
     else mkWorld (stdout w) (files w) (snd answer)).
Proof.
  intros Hp Hread self answer.
  rewrite (run_manager_existing env _ _ _ _ _ _ Hp).
  unfold translate_source_file, TextManager.translate_source_file,
    TextManager.load_source_content, TextManager.translate_content, bind, call_api, ret.
  cbn [TextManager.base TextManager.content Manager.source_file Manager.deepl].
  rewrite Hread. cbn [TextManager.base TextManager.content Manager.deepl].
  fold answer. destruct answer as [[[|c s]|] t']; reflexivity.
Qed.

Lemma X9_text_one_request_witness :
  path_exists (Office.env None) "hello.txt" = true /\
  read_text (Office.env None) "hello.txt" = Some "hello" /\
  run_manager (Office.env None) 0 TextManagerClass Office.deepl "hello.txt" "out"
    Office.world =
  Returned tt (mkWorld ["Generated out/de.txt."] [("out/de.txt", TextFile "hallo")] 0).
Proof.
  split; [reflexivity|]. split; [reflexivity|].
  exact (X9_text_one_request (Office.env None) 0 Office.deepl "hello.txt" "out"
           Office.world "hello" eq_refl eq_refl).
Defined.

(** ** Runs of the document manager *)

Section Polls.
Context {T : Type} (env : Environment T) (self : Manager.t)
  (document_id document_key : string).

Lemma download_pending :
  forall (n limit : nat) (w : World T),
    (forall i, i < n ->
       Polling.done (Polling.answer env (Manager.deepl self) document_id document_key
                       i (api w)) = false) ->
    n <= limit ->
    DocumentManager.download_document_when_ready env limit self document_id document_key w =
    DocumentManager.download_document_when_ready env (limit - n) self
      document_id document_key
      (mkWorld
         (stdout w ++
          Polling.remaining env (Manager.deepl self) document_id document_key n (api w))
         (files w)
         (Polling.after env (Manager.deepl self) document_id document_key n (api w))).
Proof.
  induction n as [|n IH]; intros limit w Hpending Hle.
  - simpl. rewrite Nat.sub_0_r, app_nil_r. now destruct w.
  - destruct limit as [|limit]; [lia|].
    pose proof (Hpending 0 ltac:(lia)) as H0.
    unfold Polling.done, Polling.answer in H0. simpl Polling.after in H0.
    change (S limit - S n) with (limit - n).
    simpl DocumentManager.download_document_when_ready at 1.
    unfold bind at 1. unfold call_api at 1.
    destruct (check_document_status env (Manager.deepl self) document_id document_key
                (api w)) as [status_data t1] eqn:Hcheck.
    simpl in H0. rewrite H0.
    simpl Polling.remaining. simpl Polling.after. rewrite Hcheck. simpl fst. simpl snd.
    assert (Hrest : forall i, i < n ->
              Polling.done (Polling.answer env (Manager.deepl self) document_id document_key
                              i t1) = false).
    { intros i Hi. specialize (Hpending (S i) ltac:(lia)).
      unfold Polling.answer in *. simpl Polling.after in Hpending.
      now rewrite Hcheck in Hpending. }
    unfold bind.
    destruct (seconds_remaining status_data) as [seconds|]; unfold print, ret.
    + rewrite IH by (trivial; lia). simpl. now rewrite <- app_assoc.
    + rewrite IH by (trivial; lia). reflexivity.
Qed.

End Polls.

(** X10. The document manager asks for the status of the document until it
is [done], one nested call a check, and has no other way out: when no
answer ever says [done], the run ends with [RecursionError] whatever the
recursion limit, after as many status checks as the limit allows, and no
file is written. *)
Theorem X10_document_never_ready {T : Type} (env : Environment T)
  (deepl : DeeplRequest) (source_file output_directory : string) (w : World T) :
  path_exists env source_file = true ->
  let submitted := translate_document env deepl source_file (api w) in
  let document_id := fst (fst submitted) in
  let document_key := snd (fst submitted) in
  (forall n, Polling.done (Polling.answer env deepl document_id document_key
                             n (snd submitted)) = false) ->
  forall limit,
    run_manager env limit DocumentManagerClass deepl source_file output_directory w =
    Raised RecursionError
      (mkWorld
         (stdout w ++ Polling.remaining env deepl document_id document_key
                        limit (snd submitted))
         (files w)
         (Polling.after env deepl document_id document_key limit (snd submitted))).
Proof.
  intros Hp submitted document_id document_key Hpending limit.
  rewrite (run_manager_existing env _ _ _ _ _ _ Hp).
  unfold translate_source_file, DocumentManager.translate_source_file, bind, call_api.
  cbn [Manager.source_file Manager.deepl].
  fold submitted. destruct submitted as [[id key] t0] eqn:Hs.
  simpl in document_id, document_key, Hpending. subst document_id document_key.
  simpl fst. simpl snd.
  rewrite (download_pending env _ id key limit limit) by (simpl; auto).
  rewrite Nat.sub_diag. reflexivity.
Qed.

Lemma X10_document_never_ready_witness :
  path_exists (Office.env None) "report.docx" = true /\
  forall limit,
    exists w',
      run_manager (Office.env None) limit DocumentManagerClass Office.deepl
        "report.docx" "out" Office.world = Raised RecursionError w' /\
      files w' = [].
Proof.
  split; [reflexivity|]. intros limit. eexists. split.
  - apply (X10_document_never_ready (Office.env None) Office.deepl "report.docx" "out"
             Office.world eq_refl).
    intros n. reflexivity.
  - reflexivity.
Defined.

(** X11. When the answer to the status check that follows [n] others is the
first to say [done] and the recursion limit is above [n], the run of the
document manager returns after these [n + 1] checks: it has printed the
seconds remaining for the answers that give them, then the billed
characters, has downloaded the document once and written it, as bytes, to
the target path. *)
Theorem X11_document_ready_after {T : Type} (env : Environment T) (limit : nat)
  (deepl : DeeplRequest) (source_file output_directory : string) (w : World T) (n : nat) :
  path_exists env source_file = true ->
  let self := Manager.mk source_file deepl (resolved_directory env output_directory) in
  let submitted := translate_document env deepl source_file (api w) in
  let document_id := fst (fst submitted) in
  let document_key := snd (fst submitted) in
  let answer := Polling.answer env deepl document_id document_key in
  let ready := Polling.after env deepl document_id document_key (S n) (snd submitted) in
  let download := download_translated_document env deepl document_id document_key ready in
  (forall i, i < n -> Polling.done (answer i (snd submitted)) = false) ->
  Polling.done (answer n (snd submitted)) = true ->
  n < limit ->
  run_manager env limit DocumentManagerClass deepl source_file output_directory w =
  Returned tt
    (mkWorld
       (stdout w ++
        Polling.remaining env deepl document_id document_key n (snd submitted) ++
        ["Translation completed. Billed characters: " +:+
           billed_characters (answer n (snd submitted)) +:+ ".";
         "Generated " +:+ Manager.target_file self +:+ "."])
       (files w ++ [(Manager.target_file self, BinaryFile (fst download))])
       (snd download)).
Proof.
  intros Hp self submitted document_id document_key answer ready download
    Hpending Hdone Hlimit.
  rewrite (run_manager_existing env _ _ _ _ _ _ Hp).
  unfold translate_source_file, DocumentManager.translate_source_file.
  unfold bind at 1. unfold call_api at 1.
  cbn [Manager.source_file Manager.deepl].
  fold submitted. fold self.
  subst download ready answer document_id document_key.
  destruct submitted as [[id key] t0]. simpl fst in *. simpl snd in *.
  rewrite (download_pending env self id key n limit) by (trivial; simpl; lia).
  destruct (limit - n) as [|rest] eqn:Hrest; [lia|].
  unfold Polling.done, Polling.answer in Hdone.
  simpl DocumentManager.download_document_when_ready.
  unfold bind at 1. unfold call_api at 1. cbn [api Manager.deepl self].
  change (Manager.deepl self) with deepl.
  destruct (check_document_status env deepl id key (Polling.after env deepl id key n t0))
    as [status_data t1] eqn:Hcheck.
  simpl in Hdone. rewrite Hdone.
  unfold DocumentManager.download_target_file, bind, print, call_api, write_file.
  cbn [api stdout files Manager.deepl self].
  change (Manager.deepl self) with deepl.
  assert (Hafter : Polling.after env deepl id key (S n) t0 = t1).
  { clear - Hcheck. revert t0 Hcheck. induction n as [|n IH]; intros t0 Hcheck.
    - simpl in *. now rewrite Hcheck.
    - simpl in *. now apply IH. }
  change (Polling.after env deepl id key n (snd (check_document_status env deepl id key t0)))
    with (Polling.after env deepl id key (S n) t0).
  rewrite Hafter. unfold Polling.answer. rewrite Hcheck. simpl fst.
  destruct (download_translated_document env deepl id key t1) as [binaries t2].
  simpl. rewrite <- !app_assoc. reflexivity.
Qed.

Lemma X11_document_ready_after_witness :
  path_exists (Office.env (Some 2)) "report.docx" = true /\
  run_manager (Office.env (Some 2)) 5 DocumentManagerClass Office.deepl
    "report.docx" "out" Office.world =
  Returned tt
    (mkWorld
       ["Remaining 20 seconds..."; "Remaining 20 seconds...";
        "Translation completed. Billed characters: 120."; "Generated out/de.docx."]
       [("out/de.docx", BinaryFile [Byte.x50; Byte.x4b])]
       3).
Proof.
  split; [reflexivity|].
  apply (X11_document_ready_after (Office.env (Some 2)) 5 Office.deepl "report.docx" "out"
           Office.world 2 eq_refl).
  - intros i Hi. destruct i as [|[|i]]; [reflexivity | reflexivity | lia].
  - reflexivity.
  - lia.
Defined.

(** ** The command line of [__main__] *)

(** X12. The parser of [get_parser] gives [None] for an option [-o] that is
not given, and [translate_or_print_data] passes it on as the output
directory: whatever classes the three imported names are bound to, the
constructor checks the source file, and then raises [TypeError] in
[os.path.isdir] instead of falling back to the working directory; nothing
is translated or written. *)
Theorem X12_translate_without_output_directory {T : Type} (env : Environment T)
  (limit : nat) (BaseManager JSONManager POManager : manager_class)
  (args : Main.Namespace) (source_file target : string) (w : World T) :
  Main.action args = "translate" ->
  Main.source_file args = Some source_file ->
  Main.target_lang args = Some target ->
  Main.output_directory args = None ->
  Main.translate_or_print_data env limit
    (Main.Class BaseManager) (Main.Class JSONManager) (Main.Class POManager) args w =
  if path_exists env source_file
  then Raised TypeError w
  else Exited 0 (mkWorld (stdout w ++ [missing_source_message source_file])
                         (files w) (api w)).
Proof.
  intros Ha Hs Ht Ho. unfold Main.translate_or_print_data.
  rewrite Ha, Hs, Ht, Ho. simpl.
  destruct (OsPath.splitext source_file) as [name extension].
  unfold Main.select_manager, Main.instantiate_and_translate.
  assert (H : forall k : M T unit,
            ((Manager.check_source_file env source_file ;;; @raise T unit TypeError) ;;; k)%py w =
            if path_exists env source_file
            then Raised TypeError w
            else Exited 0 (mkWorld (stdout w ++ [missing_source_message source_file])
                                   (files w) (api w))).
  { intros k. unfold bind, Manager.check_source_file, raise, print, os_exit, ret.
    now destruct (path_exists env source_file). }
  destruct (String.eqb extension ".json"); [apply H|].
  destruct (String.eqb extension ".po"); apply H.
Qed.

Lemma X12_translate_without_output_directory_witness :
  Main.translate_or_print_data Example.env 1000
    (Main.Class TextManagerClass) (Main.Class JSONManagerClass) (Main.Class POManagerClass)
    (Main.mkNamespace "translate" (Some "en.json") (Some "it") None None) Example.world =
  Raised TypeError Example.world.
Proof.
  exact (X12_translate_without_output_directory Example.env 1000
           TextManagerClass JSONManagerClass POManagerClass
           (Main.mkNamespace "translate" (Some "en.json") (Some "it") None None)
           "en.json" "it" Example.world eq_refl eq_refl eq_refl eq_refl).
Defined.

(** X13. [translate_or_print_data] prints its last line, [Finish.], after
every run of a manager that returns, also after the run of the text manager
that wrote nothing because the answer of the service was falsy; after a run
that ends the process or raises, the line is not printed. *)
Theorem X13_finish_after_any_return {T : Type} (env : Environment T) (limit : nat)
  (args : Main.Namespace) (source_file target output_directory text : string)
  (w : World T) :
  Main.action args = "translate" ->
  Main.source_file args = Some source_file ->
  Main.target_lang args = Some target ->
  Main.output_directory args = Some output_directory ->
  let deepl := new_request env (Main.target_lang args) (Main.source_lang args) in
  let cls := if String.eqb (snd (OsPath.splitext source_file)) ".json" then JSONManagerClass
             else if String.eqb (snd (OsPath.splitext source_file)) ".po" then POManagerClass
             else TextManagerClass in
  let run := run_manager env limit cls deepl source_file output_directory w in
  let main := Main.translate_or_print_data env limit
                (Main.Class TextManagerClass) (Main.Class JSONManagerClass)
                (Main.Class POManagerClass) args w in
  let finish := Colorama.Fore_GREEN +:+ String PyStr.newline
                  ("Finish." +:+ String PyStr.newline EmptyString) in
  (forall w', run = Returned tt w' ->
              main = Returned tt (mkWorld (stdout w' ++ [finish]) (files w') (api w'))) /\
  (forall status w', run = Exited status w' -> main = Exited status w') /\
  (forall e w', run = Raised e w' -> main = Raised e w') /\
  (cls = TextManagerClass ->
   path_exists env source_file = true ->
   read_text env source_file = Some text ->
   truthy (fst (translate env deepl (JStr text) (api w))) = false ->
   main = Returned tt (mkWorld (stdout w ++ [finish]) (files w)
                               (snd (translate env deepl (JStr text) (api w))))).
Proof.
  intros Ha Hs Ht Ho deepl cls run main finish.
  assert (Hmain : main = (run_manager env limit cls deepl source_file output_directory ;;;
                          print finish)%py w)
    by (unfold main; now rewrite (translate_selects_by_extension env limit args
                                    source_file target output_directory Ha Hs Ht Ho)).
  fold run in Hmain. unfold bind in Hmain. fold run in Hmain.
  split; [|split; [|split]].
  - intros w' Hrun. now rewrite Hmain, Hrun.
  - intros status w' Hrun. now rewrite Hmain, Hrun.
  - intros e w' Hrun. now rewrite Hmain, Hrun.
  - intros Hcls Hp Hread Hfalsy. rewrite Hmain. unfold run. rewrite Hcls.
    rewrite (text_run env limit deepl source_file output_directory w text Hp Hread).
    cbv zeta. rewrite Hfalsy. reflexivity.
Qed.

Lemma X13_finish_after_any_return_witness :
  path_exists Example.env "notes.txt" = true /\
  read_text Example.env "notes.txt" = Some "untranslatable" /\
  Main.translate_or_print_data Example.env 1000
    (Main.Class TextManagerClass) (Main.Class JSONManagerClass) (Main.Class POManagerClass)
    (Main.mkNamespace "translate" (Some "notes.txt") (Some "it") (Some "out") None)
    Example.world =
  Returned tt
    (mkWorld [Colorama.Fore_GREEN +:+ String PyStr.newline
                ("Finish." +:+ String PyStr.newline EmptyString)] [] 1).
Proof.
  split; [reflexivity|]. split; [reflexivity|].
  destruct (X13_finish_after_any_return Example.env 1000
              (Main.mkNamespace "translate" (Some "notes.txt") (Some "it") (Some "out") None)
              "notes.txt" "it" "out" "untranslatable" Example.world
              eq_refl eq_refl eq_refl eq_refl) as (_ & _ & _ & H).
  exact (H eq_refl eq_refl eq_refl eq_refl).
Defined.

(** ** The arguments of [polyglot/arguments.py] *)

(** X14. When the parser and the license manager return, the constructor of
[CLIArgumentsCollector] ends the process with the usage error, status 2,
exactly when the action is [translate] and the source file or the target
language is the empty string, the value of an option that is not given;
the license manager is built before that.  Otherwise the constructor
returns the arguments with the five values of the parser, so that a
[translate] it accepts has a source file and a target language; the other
actions are accepted with any options. *)
Theorem X14_arguments_validated {T L : Type} (parse_args : M T CLIArgumentsCollector.Namespace)
  (CLILicenseManager : M T L) (w w1 w2 : World T)
  (namespace : CLIArgumentsCollector.Namespace) (license_manager : L) :
  parse_args w = Returned namespace w1 ->
  CLILicenseManager w1 = Returned license_manager w2 ->
  let arguments :=
    Arguments.mk (CLIArgumentsCollector.action namespace)
      (CLIArgumentsCollector.source_file namespace)
      (CLIArgumentsCollector.target_lang namespace)
      (CLIArgumentsCollector.output_directory namespace)
      (CLIArgumentsCollector.source_lang namespace) license_manager in
  let run := CLIArgumentsCollector.__init__ parse_args CLILicenseManager w in
  (run = Exited 2 w2 \/ run = Returned (CLIArgumentsCollector.mk namespace arguments) w2) /\
  (run = Exited 2 w2 <->
   CLIArgumentsCollector.action namespace = "translate" /\
   (CLIArgumentsCollector.source_file namespace = EmptyString \/
    CLIArgumentsCollector.target_lang namespace = EmptyString)).
Proof.
  intros Hparse Hlicense arguments run.
  unfold run, CLIArgumentsCollector.__init__, CLIArgumentsCollector._collect_arguments,
    CLIArgumentsCollector._validate_arguments, bind.
  rewrite Hparse, Hlicense. unfold ret. cbn [CLIArgumentsCollector.namespace].
  destruct (String.eqb_spec (CLIArgumentsCollector.action namespace) "translate") as [Ha|Ha];
    destruct (String.eqb_spec (CLIArgumentsCollector.source_file namespace) EmptyString)
      as [Hs|Hs];
    destruct (String.eqb_spec (CLIArgumentsCollector.target_lang namespace) EmptyString)
      as [Ht|Ht]; simpl; unfold os_exit;
    (split; [auto | split; [try discriminate; auto | intros (? & [? | ?]); congruence]]).
Qed.

Lemma X14_arguments_validated_witness :
  CLIArgumentsCollector.__init__
    (ret (CLIArgumentsCollector.mkNamespace "translate" "en.json" EmptyString EmptyString EmptyString)) (ret tt)
    Example.world = Exited 2 Example.world /\
  CLIArgumentsCollector.__init__
    (ret (CLIArgumentsCollector.mkNamespace "print_usage_info" EmptyString EmptyString EmptyString EmptyString)) (ret tt)
    Example.world =
  Returned
    (CLIArgumentsCollector.mk
       (CLIArgumentsCollector.mkNamespace "print_usage_info" EmptyString EmptyString EmptyString EmptyString)
       (Arguments.mk "print_usage_info" EmptyString EmptyString EmptyString EmptyString tt))
    Example.world.
Proof.
  split.
  - apply (X14_arguments_validated
             (ret (CLIArgumentsCollector.mkNamespace "translate" "en.json" EmptyString EmptyString EmptyString))
             (ret tt) Example.world Example.world Example.world _ tt eq_refl eq_refl).
    split; [reflexivity | right; reflexivity].
  - destruct (X14_arguments_validated
                (ret (CLIArgumentsCollector.mkNamespace "print_usage_info" EmptyString EmptyString EmptyString EmptyString))
                (ret tt) Example.world Example.world Example.world _ tt eq_refl eq_refl)
      as [[H | H] _]; [discriminate H | exact H].
Defined.

(** ** The extension of the source file *)

(** Where [rfind] finds the character: nowhere, or at its last place. *)
Lemma rfind_from_spec (c : ascii) (s : string) :
  forall i : Z,
    (0 <= i)%Z ->
    (PyStr.rfind_from c s i = (-1)%Z /\ forall n, String.get n s <> Some c) \/
    (exists n, PyStr.rfind_from c s i = (i + Z.of_nat n)%Z /\
               String.get n s = Some c /\
               forall m, n < m -> String.get m s <> Some c).
Proof.
  induction s as [|a r IH]; intros i Hi.
  - left. split; [reflexivity|]. intros n. now destruct n.
  - simpl PyStr.rfind_from.
    destruct (IH (i + 1)%Z ltac:(lia)) as [[Hr Hnone] | (n & Hr & Hget & Hlast)].
    + rewrite Hr. change (0 <=? -1)%Z with false. cbv iota.
      destruct (Ascii.eqb_spec a c) as [-> | Hne].
      * right. exists 0. split; [lia|]. split; [reflexivity|].
        intros [|m] Hm; [lia|]. apply Hnone.
      * left. split; [reflexivity|]. intros [|n]; [simpl; congruence | apply Hnone].
    + rewrite Hr. destruct (Z.leb_spec 0 (i + 1 + Z.of_nat n)); [|lia].
      right. exists (S n). split; [lia|]. split; [exact Hget|].
      intros [|m] Hm; [lia|]. apply Hlast. lia.
Qed.

Lemma get_drop (n : nat) :
  forall (s : string) (k : nat), String.get k (PyStr.drop n s) = String.get (n + k) s.
Proof.
  induction n as [|n IH]; intros s k; [reflexivity|].
  destruct s as [|a r]; [now destruct k|]. simpl. apply IH.
Qed.

(** X15. The extension of a source file joins with the name to the path; it
is empty or starts with a dot, has no other dot, and has no path
separator. *)
Theorem X15_extension_shape (self : Manager.t) :
  let extension := Manager.extension self in
  fst (OsPath.splitext (Manager.source_file self)) +:+ extension =
    Manager.source_file self /\
  (extension = EmptyString \/ String.get 0 extension = Some OsPath.extsep) /\
  (forall i, String.get (S i) extension <> Some OsPath.extsep) /\
  (forall i, String.get i extension <> Some OsPath.sep).
Proof.
  intros extension. unfold extension. rewrite extension_splitext.
  split; [apply splitext_join|].
  generalize (Manager.source_file self). intros p.
  assert (Hempty : (EmptyString = EmptyString \/
                    String.get 0 EmptyString = Some OsPath.extsep) /\
                   (forall i, String.get (S i) EmptyString <> Some OsPath.extsep) /\
                   (forall i, String.get i EmptyString <> Some OsPath.sep)).
  { split; [now left|]. split; intros i; discriminate. }
  unfold OsPath.splitext, PyStr.rfind.
  destruct (rfind_from_spec OsPath.sep p 0 ltac:(lia)) as [[Hs Hnosep] | (m & Hs & _ & Hsep)];
    destruct (rfind_from_spec OsPath.extsep p 0 ltac:(lia))
      as [[Hd _] | (n & Hd & Hdot & Hlast)];
    rewrite Hs, Hd;
    try (destruct (Z.ltb_spec (-1) (-1)); [lia | exact Hempty]);
    try (destruct (Z.ltb_spec (0 + Z.of_nat m) (-1)); [lia | exact Hempty]).
  - destruct (_ <? _)%Z; [|exact Hempty].
    destruct (OsPath.skip_leading_dots _ _ _); [|exact Hempty]. simpl snd.
    replace (Z.to_nat (0 + Z.of_nat n)) with n by lia.
    split; [right; now rewrite get_drop, Nat.add_0_r|].
    split; intros i; rewrite get_drop; [apply Hlast; lia | apply Hnosep].
  - destruct (Z.ltb_spec (0 + Z.of_nat m) (0 + Z.of_nat n)); [|exact Hempty].
    destruct (OsPath.skip_leading_dots _ _ _); [|exact Hempty]. simpl snd.
    replace (Z.to_nat (0 + Z.of_nat n)) with n by lia.
    split; [right; now rewrite get_drop, Nat.add_0_r|].
    split; intros i; rewrite get_drop; [apply Hlast; lia | apply Hsep; lia].
Qed.

(** ** Nesting depth and the recursion limit *)




